(** * ICAHT grading: a shallow embedding of [utils/data_processor.py] and
    [utils/icaht_grader.py], and the properties of the specification
    checked against it.

    Conventions of the embedding.
    - A pandas [Timestamp] is an integer count of nanoseconds; [NaT] is [None].
      [Timedelta.days] is the floor of the difference divided by one day.
    - A numeric ANC cell is a rational number, the exact value of a finite
      float; [NaN] is [None].  An infinite value is not modelled, nor is the
      overflow of a cell of an integer column within 512 of 2 ^ 63 when it
      is rounded.  The float arithmetic of the interpolation, of the
      rounding and of the data-quality rate rounds the result of each
      operation to the nearest binary64 number ([float64]); comparisons and
      minima of floats are exact in the code too.
    - A column of whole numbers without a missing cell is an integer
      column, as the Excel reader returns it; any other numeric column is a
      float column.
    - A [DataFrame] is the list of its rows, together with the information
      whether it has columns at all: [pd.DataFrame([])] has none, and
      subscripting it by a column name raises [KeyError].
    - Code that can raise returns a [result].

    Behaviour of pandas and Python the code relies on, as modelled here.
    - [groupby] sorts its group keys and drops no group; ['first'] and
      ['min'] skip absent cells, as does [DataFrame.min(axis=1)].
    - [Series.unique()] keeps the order of first appearance.
    - [Series.interpolate(limit=n, limit_direction='both')] fills an absent
      cell when a present cell lies within [n] positions on either side,
      also before the first and after the last present cell.  It returns an
      integer column as it is, and checks the limit only when the column is
      a float column.
    - [astype('Int64')] of a float column raises [TypeError] when a value
      does not fit a 64-bit integer.
    - The iteration order of a [set] is not determined by its elements. *)

From Stdlib Require Import ZArith QArith Qabs Lia Lqa Sorted.
From stdpp Require Import base list strings gmap.

Local Open Scope string_scope.
Local Open Scope list_scope.
Local Open Scope Z_scope.

(** ** Exceptions *)

Inductive exn : Type :=
| KeyError (key : string)
| IndexError
| ValueError (msg : string)
| TypeError (msg : string).

Inductive result (A : Type) : Type :=
| Ok (a : A)
| Raise (e : exn).
Arguments Ok {A} a.
Arguments Raise {A} e.

#[global] Instance result_bind : MBind result := fun A B k r =>
  match r with
  | Ok a => k a
  | Raise e => Raise e
  end.

Fixpoint rmap_list {A B : Type} (f : A -> result B) (l : list A) : result (list B) :=
  match l with
  | [] => Ok []
  | a :: l' => b ← f a; bs ← rmap_list f l'; Ok (b :: bs)
  end.

(** ** The pandas operations the code relies on *)

(** [pd.DataFrame(records)]: a frame built from an empty list of records has
    no columns. *)
Inductive DataFrame (R : Type) : Type :=
| NoColumns
| Frame (rows : list R).
Arguments NoColumns {R}.
Arguments Frame {R} rows.

Definition pd_DataFrame {R : Type} (records : list R) : DataFrame R :=
  match records with
  | [] => NoColumns
  | _ => Frame records
  end.

(** [df[name]]: the rows carrying the column, or [KeyError]. *)
Definition column {R : Type} (name : string) (df : DataFrame R) : result (list R) :=
  match df with
  | NoColumns => Raise (KeyError name)
  | Frame rows => Ok rows
  end.

(** [len(df)] *)
Definition df_len {R : Type} (df : DataFrame R) : nat :=
  match df with
  | NoColumns => 0%nat
  | Frame rows => length rows
  end.

(** [Series.unique()]: the distinct values in order of first appearance. *)
Definition unique {A : Type} `{EqDecision A} (l : list A) : list A :=
  fold_left (fun seen x => if decide (x ∈ seen) then seen else seen ++ [x]) l [].

(** A stable insertion sort, for [sort_values] and for the sorted group keys
    of [groupby]. *)
Fixpoint insert_by {A : Type} (leb : A -> A -> bool) (x : A) (l : list A) : list A :=
  match l with
  | [] => [x]
  | y :: l' => if leb x y then x :: l else y :: insert_by leb x l'
  end.

Definition sort_by {A : Type} (leb : A -> A -> bool) (l : list A) : list A :=
  foldr (insert_by leb) [] l.

(** [pd.isna] on a cell. *)
Definition isna {A : Type} (x : option A) : bool :=
  match x with Some _ => false | None => true end.

(** Comparison of numeric cells; a comparison with [NaN] is [False]. *)
Definition Qltb (x y : Q) : bool := negb (Qle_bool y x).

Definition lt_cell (x : option Q) (y : Z) : bool :=
  match x with
  | Some q => Qltb q (inject_Z y)
  | None => false
  end.

Definition le_cell (x : option Q) (y : Z) : bool :=
  match x with
  | Some q => Qle_bool q (inject_Z y)
  | None => false
  end.

(** The float is a whole number. *)
Definition is_whole (x : Q) : bool := Qnum x mod Zpos (Qden x) =? 0.

(** [round] to the nearest integer, halves to the even neighbour: [np.rint],
    and Python's [round] of an exact value. *)
Definition round_half_even (q : Q) : Z :=
  let f := Qnum q / Zpos (Qden q) in
  let r := Qnum q mod Zpos (Qden q) in
  match 2 * r ?= Zpos (Qden q) with
  | Lt => f
  | Gt => f + 1
  | Eq => if Z.even f then f else f + 1
  end.

(** [2 ^ e] for an integer exponent of either sign. *)
Definition pow2 (e : Z) : Q :=
  if 0 <=? e then inject_Z (2 ^ e) else 1 # Z.to_pos (2 ^ (- e)).

(** The exponent of the unit in the last place of the binary64 numbers
    around the positive rational [n / d]: 52 below the exponent of the
    leading bit, and never below the one of the subnormal numbers. *)
Definition ulp_exponent (n d : Z) : Z :=
  let e0 := Z.log2 n - Z.log2 d in
  let leading :=
    if (if 0 <=? e0 then d * 2 ^ e0 <=? n else d <=? n * 2 ^ (- e0))
    then e0 else e0 - 1 in
  Z.max (leading - 52) (-1074).

(** The binary64 number nearest to a rational, halves to the even
    neighbour: the result of a float operation whose exact result is the
    rational.  There is no infinity: a value beyond the largest float is
    rounded as if the exponent range went on. *)
Definition float64 (q : Q) : Q :=
  if Qnum q =? 0 then 0%Q
  else
    let e := ulp_exponent (Z.abs (Qnum q)) (Zpos (Qden q)) in
    (inject_Z (round_half_even (q / pow2 e)) * pow2 e)%Q.

(** [x in range(lo, hi)] for a float [x]: [x] equals one of the integers
    [lo], ..., [hi - 1]. *)
Definition in_range (lo hi : Z) (x : Q) : bool :=
  (Qnum x mod Zpos (Qden x) =? 0) &&
  (lo <=? Qnum x / Zpos (Qden x)) && (Qnum x / Zpos (Qden x) <? hi).

Definition in_range_Z (lo hi x : Z) : bool := (lo <=? x) && (x <? hi).

(** ** Data model *)

Definition ns_per_day : Z := 86400000000000.

(** [timedelta(days=n)] *)
Definition timedelta_days (n : Z) : Z := n * ns_per_day.

(** [(a - b).days] *)
Definition days_between (a b : Z) : Z := (a - b) / ns_per_day.

(** A row of the early series after interpolation.  Every row of the early
    and of the late series has its baseline date and its date: a row without
    one of them has no day offset and fails the window filters. *)
Module EarlyRow.
Record t : Type := mk {
  patient_id : string;
  time_post_inf : Z;
  cart_date : Z;
  date : Z;
  anc : option Q;
  last_fu_date : option Z;
  anc_interpolated : option Z;
  anc_final : option Q }.
End EarlyRow.

(** A row of the late data set: the output of [_prepare_late_data]. *)
Module LateRow.
Record t : Type := mk {
  patient_id : string;
  time_post_inf : Z;
  cart_date : Z;
  date : Z;
  anc : option Q;
  end_date : option Z }.
End LateRow.

Module Exceedance.
Record t : Type := mk {
  start_day : Z;
  start_date : Z;
  end_day : Z;
  end_date : Z;
  duration : Z }.
End Exceedance.

Module EarlyGrade.
Record t : Type := mk {
  patient_id : string;
  duration_below_500_max : Z;
  duration_below_100_max : Z;
  early_icaht_grade : string;
  grade_4_special : bool;
  exceedances_500 : nat;
  exceedances_100 : nat }.
End EarlyGrade.

(** A row of the input frame after the coercions of [prepare_data]
    ([pd.to_datetime] and [pd.to_numeric] with [errors='coerce']): every cell
    but the patient identifier may be absent. *)
Module RawObservation.
Record t : Type := mk {
  patient_id : string;
  cart_date : option Z;
  date : option Z;
  anc : option Q;
  last_fu_date : option Z;
  subsequent_therapy_date : option Z;
  progression_date : option Z }.
End RawObservation.

(** The settings dictionary: an option is a key that may be missing. *)
Module Settings.
Record t : Type := mk {
  early_days : option Z;
  late_days : option Z;
  max_gap_days : option Z;
  recovery_days : option Z;
  anc_threshold_500 : option Z;
  anc_threshold_100 : option Z }.
End Settings.

(** [settings = {}] *)
Definition no_settings : Settings.t := Settings.mk None None None None None None.

(** A row of the early series before interpolation: the columns of the
    grouped frame and of [_create_complete_timeseries].  [anc_is_int] tells
    whether the ANC cell holds an integer, as the cells of an integer column
    do, or a float, as [NaN] is: the frame built from the rows has an
    integer ANC column exactly when every cell holds an integer. *)
Module SeriesRow.
Record t : Type := mk {
  patient_id : string;
  time_post_inf : Z;
  cart_date : Z;
  date : Z;
  anc : option Q;
  anc_is_int : bool;
  last_fu_date : option Z }.
End SeriesRow.

(** An input row with the columns computed for it: ['time_post_inf'], and
    for the late window ['end_date']. *)
Module Dated.
Record t : Type := mk {
  raw : RawObservation.t;
  cart_date : Z;
  date : Z;
  time_post_inf : Z;
  end_date : option Z }.
End Dated.

(** ** [DataProcessor] *)

(** [DataFrame.min(axis=1)] over date cells: the least of the present ones. *)
Definition min_dates (cells : list (option Z)) : option Z :=
  match omap id cells with
  | [] => None
  | x :: xs => Some (fold_left Z.min xs x)
  end.

(** The ['end_date'] column of [_prepare_late_data]: the row minimum of the
    four listed columns, and where that is absent the baseline date plus
    [timedelta(days=100)]. *)
Definition late_end_date (r : RawObservation.t) : option Z :=
  match min_dates [RawObservation.cart_date r;
                   RawObservation.subsequent_therapy_date r;
                   RawObservation.progression_date r;
                   RawObservation.last_fu_date r] with
  | Some end_date => Some end_date
  | None => (fun cart_date => cart_date + timedelta_days 100) <$> RawObservation.cart_date r
  end.

(** The rows with a day offset, [(date - cart_date).dt.days]; on the other
    rows the offset is [NaN] and both window filters are false. *)
Definition with_time_post_inf (df : list RawObservation.t) : list Dated.t :=
  omap (fun r =>
          match RawObservation.date r, RawObservation.cart_date r with
          | Some date, Some cart_date =>
              Some {| Dated.raw := r;
                      Dated.cart_date := cart_date;
                      Dated.date := date;
                      Dated.time_post_inf := days_between date cart_date;
                      Dated.end_date := late_end_date r |}
          | _, _ => None
          end) df.

(** The group keys of [groupby(['patient_id', 'time_post_inf'])], in sorted
    order. *)
Definition key_leb (k1 k2 : string * Z) : bool :=
  String.ltb k1.1 k2.1 || (String.eqb k1.1 k2.1 && (k1.2 <=? k2.2)).

Definition key_of (d : Dated.t) : string * Z :=
  (RawObservation.patient_id (Dated.raw d), Dated.time_post_inf d).

Definition group_keys (rows : list Dated.t) : list (string * Z) :=
  sort_by key_leb (unique (map key_of rows)).

Definition group_of (key : string * Z) (rows : list Dated.t) : list Dated.t :=
  List.filter (fun d => bool_decide (key_of d = key)) rows.

(** The aggregations ['first'] (the first present cell) and ['min'] (the
    least present cell). *)
Definition agg_first {A : Type} (cells : list (option A)) : option A :=
  head (omap id cells).

Definition Qmin_b (x y : Q) : Q := if Qle_bool x y then x else y.

Definition agg_min (cells : list (option Q)) : option Q :=
  match omap id cells with
  | [] => None
  | x :: xs => Some (fold_left Qmin_b xs x)
  end.

Definition ge_31 (d : Dated.t) : bool := 31 <=? Dated.time_post_inf d.

Definition le_end_date (d : Dated.t) : bool :=
  match Dated.end_date d with
  | Some end_date => Dated.date d <=? end_date
  | None => false
  end.

(** [_prepare_late_data(df, settings)] *)
Definition _prepare_late_data (df : list RawObservation.t) (settings : Settings.t)
  : DataFrame LateRow.t :=
  let df_late := with_time_post_inf df in
  let df_late := List.filter (fun d => ge_31 d && le_end_date d) df_late in
  Frame (omap (fun key =>
                 match group_of key df_late with
                 | [] => None
                 | (first :: _) as group =>
                     Some {| LateRow.patient_id := key.1;
                             LateRow.time_post_inf := key.2;
                             LateRow.cart_date := Dated.cart_date first;
                             LateRow.date := Dated.date first;
                             LateRow.anc :=
                               agg_min (map (fun d => RawObservation.anc (Dated.raw d)) group);
                             LateRow.end_date := agg_first (map Dated.end_date group) |}
                 end)
           (group_keys df_late)).

(** The body of the loop of [_create_complete_timeseries] for one patient;
    [patient_data] is [df[df['patient_id'] == patient_id]]. *)
Definition complete_patient (max_days : Z) (patient_id : string)
    (patient_data : list SeriesRow.t) : list SeriesRow.t :=
  match patient_data with
  | [] => []
  | first :: _ =>
      let cart_date := SeriesRow.cart_date first in
      let last_fu_date := SeriesRow.last_fu_date first in
      let follow_up_days :=
        match last_fu_date with
        | None => max_days
        | Some last_fu => Z.min max_days (days_between last_fu cart_date)
        end in
      map (fun day =>
             match List.filter (fun r => SeriesRow.time_post_inf r =? day) patient_data with
             | day_data :: _ => day_data
             | [] =>
                 {| SeriesRow.patient_id := patient_id;
                    SeriesRow.time_post_inf := day;
                    SeriesRow.cart_date := cart_date;
                    SeriesRow.date := cart_date + timedelta_days day;
                    SeriesRow.anc := None;
                    SeriesRow.anc_is_int := false;
                    SeriesRow.last_fu_date := last_fu_date |}
             end)
        (seqZ 0 (follow_up_days + 1))
  end.

(** [_create_complete_timeseries(df, max_days)] *)
Definition _create_complete_timeseries (df : list SeriesRow.t) (max_days : Z)
  : DataFrame SeriesRow.t :=
  pd_DataFrame
    (concat (map (fun patient_id =>
                    complete_patient max_days patient_id
                      (List.filter
                         (fun r => bool_decide (SeriesRow.patient_id r = patient_id)) df))
               (unique (map SeriesRow.patient_id df)))).

(** *** [Series.interpolate(method='linear', limit=limit, limit_direction='both')]

    pandas interpolates over the positions of the series.  An absent cell is
    left absent exactly when no present cell lies within [limit] positions
    of it, before or after; every other absent cell receives the value of
    [np.interp]: on the line through the nearest present cells on both
    sides, or the value of the nearest present cell where one side has
    none. *)

(** The cells of the window [invalid[max(0, x - limit) : x + limit + 1]]. *)
Definition limit_window {A : Type} (limit x : nat) (s : list A) : list A :=
  take (x + limit + 1 - (x - limit)) (drop (x - limit) s).

Definition preserve_nan (limit x : nat) (s : list (option Q)) : bool :=
  forallb isna (limit_window limit x s).

(** The present cells with their positions. *)
Definition known_points (s : list (option Q)) : list (nat * Q) :=
  omap id (imap (fun i cell => (fun q => (i, q)) <$> cell) s).

Definition known_before (s : list (option Q)) (x : nat) : option (nat * Q) :=
  last (List.filter (fun p => (p.1 <? x)%nat) (known_points s)).

Definition known_after (s : list (option Q)) (x : nat) : option (nat * Q) :=
  head (List.filter (fun p => (x <? p.1)%nat) (known_points s)).

Definition Q_of_nat (n : nat) : Q := inject_Z (Z.of_nat n).

(** [np.interp] at a position between two present cells computes
    [slope * (x - x0) + y0] with [slope = (y1 - y0) / (x1 - x0)], each
    operation in float arithmetic; outside the present cells it is
    constant. *)
Definition np_interp (s : list (option Q)) (x : nat) : option Q :=
  match known_before s x, known_after s x with
  | Some (x0, y0), Some (x1, y1) =>
      let slope := float64 (float64 (y1 - y0) / float64 (Q_of_nat x1 - Q_of_nat x0)) in
      Some (float64 (float64 (slope * float64 (Q_of_nat x - Q_of_nat x0)) + y0))
  | None, Some (_, y1) => Some y1
  | Some (_, y0), None => Some y0
  | None, None => None
  end.

Definition Series_interpolate (limit : nat) (s : list (option Q)) : list (option Q) :=
  imap (fun x cell =>
          match cell with
          | Some q => Some q
          | None => if preserve_nan limit x s then None else np_interp s x
          end) s.

(** [Series.round(-1)] on one cell, as numpy computes it:
    [rint(x / 10) * 10] in float arithmetic, on the cell as a float; the
    result is a whole number.  Below 2 ^ 53 it is the multiple of 10
    nearest to the cell. *)
Definition round_tens (q : Q) : Z :=
  let r := float64 (inject_Z (round_half_even (float64 (float64 q / inject_Z 10)))
                    * inject_Z 10) in
  Qnum r / Zpos (Qden r).

(** [astype('Int64')] accepts the rounded cell: it fits a 64-bit integer. *)
Definition fits_Int64 (cell : option Q) : bool :=
  match cell with
  | Some q => (- 2 ^ 63 <=? round_tens q) && (round_tens q <? 2 ^ 63)
  | None => true
  end.

(** The order of [sort_values('time_post_inf')] on the series. *)
Definition by_series_day (a b : SeriesRow.t) : bool :=
  SeriesRow.time_post_inf a <=? SeriesRow.time_post_inf b.

(** A row with its columns ['anc_interpolated'], the interpolated cell
    rounded to a multiple of 10, and ['anc_final'], the raw value where
    there is one and the interpolated one elsewhere. *)
Definition interpolated_row (r : SeriesRow.t) (cell : option Q) : EarlyRow.t :=
  let anc_interpolated := round_tens <$> cell in
  {| EarlyRow.patient_id := SeriesRow.patient_id r;
     EarlyRow.time_post_inf := SeriesRow.time_post_inf r;
     EarlyRow.cart_date := SeriesRow.cart_date r;
     EarlyRow.date := SeriesRow.date r;
     EarlyRow.anc := SeriesRow.anc r;
     EarlyRow.last_fu_date := SeriesRow.last_fu_date r;
     EarlyRow.anc_interpolated := anc_interpolated;
     EarlyRow.anc_final :=
       match SeriesRow.anc r with
       | Some q => Some q
       | None => inject_Z <$> anc_interpolated
       end |}.

(** The body of the loop of [_interpolate_anc_values] for one patient.
    [int_column] tells whether the ANC column of the frame is an integer
    column: [interpolate] returns such a column as it is, and on a float
    column it rejects a limit below 1.  [astype('Int64')] then rejects a
    rounded value that does not fit a 64-bit integer. *)
Definition interpolate_patient (max_gap : Z) (int_column : bool)
    (patient_rows : list SeriesRow.t) : result (list EarlyRow.t) :=
  let patient_data := sort_by by_series_day patient_rows in
  if (max_gap <? 1) && negb int_column
  then Raise (ValueError "Limit must be greater than 0")
  else
    let interpolated :=
      Series_interpolate (Z.to_nat max_gap) (map SeriesRow.anc patient_data) in
    if forallb fits_Int64 interpolated
    then Ok (zip_with interpolated_row patient_data interpolated)
    else Raise (TypeError "cannot safely cast non-equivalent float64 to int64").

(** [pd.concat(frames, ignore_index=True)] *)
Definition pd_concat {R : Type} (frames : list (list R)) : result (DataFrame R) :=
  match frames with
  | [] => Raise (ValueError "No objects to concatenate")
  | _ => Ok (Frame (concat frames))
  end.

(** [_interpolate_anc_values(df, settings)] *)
Definition _interpolate_anc_values (df : DataFrame SeriesRow.t) (settings : Settings.t)
  : result (DataFrame EarlyRow.t) :=
  let max_gap := default 7 (Settings.max_gap_days settings) in
  rows ← column "patient_id" df;
  let int_column := forallb SeriesRow.anc_is_int rows in
  interpolated_data ← rmap_list
    (fun patient_id =>
       interpolate_patient max_gap int_column
         (List.filter (fun r => bool_decide (SeriesRow.patient_id r = patient_id)) rows))
    (unique (map SeriesRow.patient_id rows));
  pd_concat interpolated_data.

(** The column ['anc'] of the input frame is an integer column: every cell
    is present and a whole number that fits a 64-bit integer. *)
Definition anc_int_column (df : list RawObservation.t) : bool :=
  forallb (fun r => match RawObservation.anc r with
                    | Some q => is_whole q && Qle_bool (inject_Z (- 2 ^ 63)) q
                                && Qle_bool q (inject_Z (2 ^ 63 - 1))
                    | None => false
                    end) df.

(** [_prepare_early_data(df, settings)] *)
Definition _prepare_early_data (df : list RawObservation.t) (settings : Settings.t)
  : result (DataFrame EarlyRow.t) :=
  let max_days := default 30 (Settings.early_days settings) in
  let int_column := anc_int_column df in
  let df_early := with_time_post_inf df in
  let df_early :=
    List.filter (fun d => (0 <=? Dated.time_post_inf d) && (Dated.time_post_inf d <=? max_days))
      df_early in
  let df_early :=
    omap (fun key =>
            match group_of key df_early with
            | [] => None
            | (first :: _) as group =>
                Some {| SeriesRow.patient_id := key.1;
                        SeriesRow.time_post_inf := key.2;
                        SeriesRow.cart_date := Dated.cart_date first;
                        SeriesRow.date := Dated.date first;
                        SeriesRow.anc :=
                          agg_min (map (fun d => RawObservation.anc (Dated.raw d)) group);
                        SeriesRow.anc_is_int := int_column;
                        SeriesRow.last_fu_date :=
                          agg_first
                            (map (fun d => RawObservation.last_fu_date (Dated.raw d)) group) |}
            end)
      (group_keys df_early) in
  let df_early := _create_complete_timeseries df_early max_days in
  _interpolate_anc_values df_early settings.

Record ProcessedData : Type := {
  early : DataFrame EarlyRow.t;
  late : DataFrame LateRow.t;
  original : list RawObservation.t }.

(** [prepare_data(df, settings)], on a frame that has the required columns. *)
Definition prepare_data (df : list RawObservation.t) (settings : Settings.t)
  : result ProcessedData :=
  early_data ← _prepare_early_data df settings;
  let late_data := _prepare_late_data df settings in
  Ok {| early := early_data; late := late_data; original := df |}.

(** ** [ICahtGrader] *)

Record ICahtGrader : Type := {
  anc_500_threshold : Z;
  anc_100_threshold : Z;
  recovery_days : Z }.

(** [ICahtGrader.__init__]: the constructor takes no settings. *)
Definition ICahtGrader_init : ICahtGrader :=
  {| anc_500_threshold := 501; anc_100_threshold := 101; recovery_days := 3 |}.

(** The update of [current_exceedance] shared by the scan and the merge. *)
Definition extend_to (current : Exceedance.t) (end_day : Z) (end_date : Z)
  : Exceedance.t :=
  {| Exceedance.start_day := Exceedance.start_day current;
     Exceedance.start_date := Exceedance.start_date current;
     Exceedance.end_day := end_day;
     Exceedance.end_date := end_date;
     Exceedance.duration := end_day - Exceedance.start_day current + 1 |}.

(** The loop of [_join_adjacent_exceedances]: [joined] is
    [joined_exceedances], [current] is [current_exceedance] and [rest] is
    [exceedances[i:]]. *)
Fixpoint join_loop (self : ICahtGrader) (joined : list Exceedance.t)
    (current : Exceedance.t) (rest : list Exceedance.t) : list Exceedance.t :=
  match rest with
  | [] => joined ++ [current]
  | next_exceedance :: rest' =>
      let gap_days :=
        Exceedance.start_day next_exceedance - Exceedance.end_day current - 1 in
      if gap_days <=? recovery_days self - 1
      then join_loop self joined
             (extend_to current (Exceedance.end_day next_exceedance)
                (Exceedance.end_date next_exceedance)) rest'
      else join_loop self (joined ++ [current]) next_exceedance rest'
  end.

Definition _join_adjacent_exceedances (self : ICahtGrader)
    (exceedances : list Exceedance.t) : list Exceedance.t :=
  match exceedances with
  | [] => exceedances
  | [_] => exceedances
  | first :: rest => join_loop self [] first rest
  end.

(** The scan of [_calculate_exceedances] over the rows with a final ANC.
    [current] is [current_exceedance]; [in_exceedance] is true exactly when
    it is not [None], the two being set together. *)
Definition scan_step (threshold : Z)
    (st : list Exceedance.t * option Exceedance.t) (row : EarlyRow.t)
  : list Exceedance.t * option Exceedance.t :=
  let '(exceedances, current) := st in
  let condition := lt_cell (EarlyRow.anc_final row) threshold in
  match condition, current with
  | true, None =>
      (exceedances,
       Some {| Exceedance.start_day := EarlyRow.time_post_inf row;
               Exceedance.start_date := EarlyRow.date row;
               Exceedance.end_day := EarlyRow.time_post_inf row;
               Exceedance.end_date := EarlyRow.date row;
               Exceedance.duration := 1 |})
  | true, Some cur =>
      (exceedances,
       Some (extend_to cur (EarlyRow.time_post_inf row) (EarlyRow.date row)))
  | false, Some cur => (exceedances ++ [cur], None)
  | false, None => (exceedances, None)
  end.

Definition has_anc_final (row : EarlyRow.t) : bool :=
  match EarlyRow.anc_final row with Some _ => true | None => false end.

(** [patient_data.dropna(subset=['anc_final'])] *)
Definition dropna_anc_final (patient_data : list EarlyRow.t) : list EarlyRow.t :=
  List.filter has_anc_final patient_data.

Definition raw_exceedances (threshold : Z) (valid_data : list EarlyRow.t)
  : list Exceedance.t :=
  let '(exceedances, current) := fold_left (scan_step threshold) valid_data ([], None) in
  match current with
  | Some cur => exceedances ++ [cur]
  | None => exceedances
  end.

(** [_calculate_exceedances(patient_data, threshold, below=True)] *)
Definition _calculate_exceedances (self : ICahtGrader)
    (patient_data : list EarlyRow.t) (threshold : Z) : list Exceedance.t :=
  let valid_data := dropna_anc_final patient_data in
  match valid_data with
  | [] => []
  | _ => _join_adjacent_exceedances self (raw_exceedances threshold valid_data)
  end.

(** [_check_grade_4_special_cases]; [iloc[-1]] raises [IndexError] on an
    empty frame. *)
Definition _check_grade_4_special_cases (patient_data : list EarlyRow.t)
    (exceedances_500 : list Exceedance.t) : result bool :=
  match exceedances_500 with
  | [] => Ok false
  | _ =>
      match last (dropna_anc_final patient_data) with
      | None => Raise IndexError
      | Some last_day_data =>
          let last_day := EarlyRow.time_post_inf last_day_data in
          Ok (existsb (fun exceedance =>
                         (Exceedance.start_day exceedance <=? 3) &&
                         (Exceedance.end_day exceedance =? last_day))
                exceedances_500)
      end
  end.

Definition _assign_early_grade (duration_500 duration_100 : Z)
    (grade_4_special : bool) : string :=
  if grade_4_special then "Grade 4"
  else if (duration_500 =? 0) && (duration_100 =? 0) then "Grade 0"
  else if in_range_Z 1 7 duration_500 && (duration_100 <? 7) then "Grade 1"
  else if in_range_Z 7 14 duration_500 && (duration_100 <? 7) then "Grade 2"
  else if (in_range_Z 14 31 duration_500 && (duration_100 <? 7))
          || ((duration_500 <? 31) && in_range_Z 7 14 duration_100) then "Grade 3"
  else if (31 <=? duration_500) || (14 <=? duration_100) then "Grade 4"
  else "Grade 0".

(** [max(l, default=0)] *)
Definition max_default_0 (l : list Z) : Z :=
  match l with
  | [] => 0
  | x :: l' => fold_left Z.max l' x
  end.

(** The order of [sort_values('time_post_inf')]. *)
Definition by_day (a b : EarlyRow.t) : bool :=
  EarlyRow.time_post_inf a <=? EarlyRow.time_post_inf b.

(** The body of the loop of [grade_early_icaht] for one patient;
    [patient_rows] is [df_early[df_early['patient_id'] == patient_id]]. *)
Definition grade_early_patient (self : ICahtGrader) (patient_id : string)
    (patient_rows : list EarlyRow.t) : result EarlyGrade.t :=
  let patient_data :=
    sort_by by_day patient_rows in
  let exceedances_500 :=
    _calculate_exceedances self patient_data (anc_500_threshold self) in
  let exceedances_100 :=
    _calculate_exceedances self patient_data (anc_100_threshold self) in
  let max_duration_500 := max_default_0 (map Exceedance.duration exceedances_500) in
  let max_duration_100 := max_default_0 (map Exceedance.duration exceedances_100) in
  grade_4_special ← _check_grade_4_special_cases patient_data exceedances_500;
  let grade := _assign_early_grade max_duration_500 max_duration_100 grade_4_special in
  Ok {| EarlyGrade.patient_id := patient_id;
        EarlyGrade.duration_below_500_max := max_duration_500;
        EarlyGrade.duration_below_100_max := max_duration_100;
        EarlyGrade.early_icaht_grade := grade;
        EarlyGrade.grade_4_special := grade_4_special;
        EarlyGrade.exceedances_500 := length exceedances_500;
        EarlyGrade.exceedances_100 := length exceedances_100 |}.

Definition rows_of_patient (patient_id : string) (rows : list EarlyRow.t)
  : list EarlyRow.t :=
  List.filter (fun r => bool_decide (EarlyRow.patient_id r = patient_id)) rows.

(** [grade_early_icaht(df_early)] *)
Definition grade_early_icaht (self : ICahtGrader) (df_early : DataFrame EarlyRow.t)
  : result (DataFrame EarlyGrade.t) :=
  rows ← column "patient_id" df_early;
  results ← rmap_list
    (fun patient_id => grade_early_patient self patient_id (rows_of_patient patient_id rows))
    (unique (map EarlyRow.patient_id rows));
  Ok (pd_DataFrame results).

(** ** Late grading *)

(** A record of [grade_late_icaht]; the record appended for a patient
    without rows has no ['anc_count'] key, which the frame shows as [NaN]. *)
Module LateGrade.
Record t : Type := mk {
  patient_id : string;
  anc_1 : option Q;
  anc_2 : option Q;
  late_icaht_grade : string;
  anc_count : option Z }.
End LateGrade.

Definition _assign_late_grade (anc_1 anc_2 : option Q) : string :=
  match anc_1 with
  | None => "Grade 0"
  | Some a1 =>
      if (in_range 1001 1501 a1 && (isna anc_2 || le_cell anc_2 1500))
         || (in_range 1001 1501 a1 && isna anc_2) then "Grade 1"
      else if (in_range 501 1001 a1 && (isna anc_2 || le_cell anc_2 1500))
              || (in_range 501 1001 a1 && isna anc_2) then "Grade 2"
      else if (in_range 101 501 a1 && (isna anc_2 || le_cell anc_2 1500))
              || (in_range 101 501 a1 && isna anc_2) then "Grade 3"
      else if Qle_bool a1 (inject_Z 100) then "Grade 4"
      else "Grade 0"
  end.

(** The body of the loop of [grade_late_icaht] for one patient. *)
Definition grade_late_patient (patient_id : string) (patient_data : list LateRow.t)
  : LateGrade.t :=
  match patient_data with
  | [] =>
      {| LateGrade.patient_id := patient_id;
         LateGrade.anc_1 := None;
         LateGrade.anc_2 := None;
         LateGrade.late_icaht_grade := "Grade 0";
         LateGrade.anc_count := None |}
  | _ =>
      let anc_values := sort_by Qle_bool (omap LateRow.anc patient_data) in
      let anc_1 := anc_values !! 0%nat in
      let anc_2 := anc_values !! 1%nat in
      let grade := _assign_late_grade anc_1 anc_2 in
      {| LateGrade.patient_id := patient_id;
         LateGrade.anc_1 := anc_1;
         LateGrade.anc_2 := anc_2;
         LateGrade.late_icaht_grade := grade;
         LateGrade.anc_count := Some (Z.of_nat (length anc_values)) |}
  end.

(** [grade_late_icaht(df_late)] *)
Definition grade_late_icaht (df_late : DataFrame LateRow.t)
  : result (DataFrame LateGrade.t) :=
  rows ← column "patient_id" df_late;
  Ok (pd_DataFrame
        (map (fun patient_id =>
                grade_late_patient patient_id
                  (List.filter
                     (fun r => bool_decide (LateRow.patient_id r = patient_id)) rows))
           (unique (map LateRow.patient_id rows)))).

(** ** Combination *)

Module Combined.
Record t : Type := mk {
  patient_id : string;
  early_icaht_grade : string;
  duration_below_500_max : Z;
  duration_below_100_max : Z;
  grade_4_special : bool;
  late_icaht_grade : string;
  anc_1 : option Q;
  anc_2 : option Q;
  anc_count : option Z }.
End Combined.

(** The body of the loop of [combine_grades] for one patient. *)
Definition combine_row (early_rows : list EarlyGrade.t) (late_rows : list LateGrade.t)
    (patient_id : string) : Combined.t :=
  let early_data :=
    List.filter (fun r => bool_decide (EarlyGrade.patient_id r = patient_id)) early_rows in
  let late_data :=
    List.filter (fun r => bool_decide (LateGrade.patient_id r = patient_id)) late_rows in
  let '(early_grade, d500, d100, special) :=
    match early_data with
    | early_row :: _ =>
        (EarlyGrade.early_icaht_grade early_row,
         EarlyGrade.duration_below_500_max early_row,
         EarlyGrade.duration_below_100_max early_row,
         EarlyGrade.grade_4_special early_row)
    | [] => ("Grade 0", 0, 0, false)
    end in
  let '(late_grade, anc_1, anc_2, anc_count) :=
    match late_data with
    | late_row :: _ =>
        (LateGrade.late_icaht_grade late_row, LateGrade.anc_1 late_row,
         LateGrade.anc_2 late_row, LateGrade.anc_count late_row)
    | [] => ("Grade 0", None, None, Some 0)
    end in
  {| Combined.patient_id := patient_id;
     Combined.early_icaht_grade := early_grade;
     Combined.duration_below_500_max := d500;
     Combined.duration_below_100_max := d100;
     Combined.grade_4_special := special;
     Combined.late_icaht_grade := late_grade;
     Combined.anc_1 := anc_1;
     Combined.anc_2 := anc_2;
     Combined.anc_count := anc_count |}.

(** [set(early_grades['patient_id'].tolist() + late_grades['patient_id'].tolist())] *)
Definition all_patients (early_rows : list EarlyGrade.t) (late_rows : list LateGrade.t)
  : gset string :=
  list_to_set (map EarlyGrade.patient_id early_rows ++ map LateGrade.patient_id late_rows).

(** [combine_grades] when the loop [for patient_id in all_patients] visits
    the patients in the order [order]. *)
Definition combine_grades_in (order : list string)
    (early_grades : DataFrame EarlyGrade.t) (late_grades : DataFrame LateGrade.t)
  : result (DataFrame Combined.t) :=
  early_rows ← column "patient_id" early_grades;
  late_rows ← column "patient_id" late_grades;
  Ok (pd_DataFrame (map (combine_row early_rows late_rows) order)).

(** Iterating over a Python [set] visits each element once, in an order the
    language leaves open; for strings it follows their hashes, which are
    salted anew in every interpreter process. *)
Definition set_iteration (s : gset string) (order : list string) : Prop :=
  order ≡ₚ elements s.

(** [combine_grades(early_grades, late_grades)]: the results a run can
    produce.  The two subscripts by ['patient_id'] are evaluated, the early
    one first, before the loop. *)
Definition combine_grades (early_grades : DataFrame EarlyGrade.t)
    (late_grades : DataFrame LateGrade.t) (out : result (DataFrame Combined.t)) : Prop :=
  match column "patient_id" early_grades, column "patient_id" late_grades with
  | Raise e, _ => out = Raise e
  | Ok _, Raise e => out = Raise e
  | Ok early_rows, Ok late_rows =>
      exists order, set_iteration (all_patients early_rows late_rows) order /\
                    out = combine_grades_in order early_grades late_grades
  end.

(** ** Summary *)

Record DataQuality : Type := {
  patients_with_data : nat;
  interpolation_rate : Q }.

Record Summary : Type := {
  total_patients : nat;
  early_icaht_distribution : gmap string nat;
  late_icaht_distribution : gmap string nat;
  grade_4_special_cases : nat;
  data_quality_early : DataQuality;
  data_quality_late : DataQuality }.

(** [Series.value_counts().to_dict()] *)
Definition value_counts (values : list string) : gmap string nat :=
  foldr (fun v counts => <[v := S (default 0%nat (counts !! v))]> counts) ∅ values.

(** [round(x, 2)] of a numpy float: [rint(x * 100) / 100] in float
    arithmetic. *)
Definition round_2 (x : Q) : Q :=
  float64 (inject_Z (round_half_even (float64 (x * inject_Z 100))) / inject_Z 100).

(** [interpolated_values / total_values * 100] in float arithmetic. *)
Definition percentage (part total : nat) : Q :=
  float64 (float64 (float64 (Q_of_nat part) / float64 (Q_of_nat total)) * inject_Z 100).

(** [_assess_data_quality(df)]; [anc_final] is the column ['anc_final'] of
    the frame, or the [KeyError] of a frame without that column. *)
Definition _assess_data_quality {R : Type} (patient_id : R -> string)
    (anc_final : result (R -> option Q)) (df : DataFrame R) : result DataQuality :=
  if (df_len df =? 0)%nat
  then Ok {| patients_with_data := 0; interpolation_rate := 0 |}
  else
    rows ← column "patient_id" df;
    let total_patients := length (unique (map patient_id rows)) in
    let total_values := df_len df in
    anc_final ← anc_final;
    let interpolated_values := length (List.filter (fun r => isna (anc_final r)) rows) in
    let interpolation_rate_100 :=
      if (0 <? total_values)%nat
      then percentage interpolated_values total_values
      else 0%Q in
    Ok {| patients_with_data := total_patients;
          interpolation_rate := round_2 interpolation_rate_100 |}.

(** [generate_summary(final_grades, processed_data)]; the late frame has no
    ['anc_final'] column. *)
Definition generate_summary (final_grades : DataFrame Combined.t)
    (processed_data : ProcessedData) : result Summary :=
  let total_patients := df_len final_grades in
  rows ← column "early_icaht_grade" final_grades;
  let early_dist := value_counts (map Combined.early_icaht_grade rows) in
  let late_dist := value_counts (map Combined.late_icaht_grade rows) in
  let grade_4_special_count :=
    length (List.filter Combined.grade_4_special rows) in
  early_data_quality ←
    _assess_data_quality EarlyRow.patient_id (Ok EarlyRow.anc_final)
      (early processed_data);
  late_data_quality ←
    _assess_data_quality LateRow.patient_id (Raise (KeyError "anc_final"))
      (late processed_data);
  Ok {| total_patients := total_patients;
        early_icaht_distribution := early_dist;
        late_icaht_distribution := late_dist;
        grade_4_special_cases := grade_4_special_count;
        data_quality_early := early_data_quality;
        data_quality_late := late_data_quality |}.

(** ** The processing route

    The part of [process_icaht] in [app.py] between loading the frame and
    the response: preparation, the two gradings, combination and summary,
    with the grader built once by [ICahtGrader()]. *)
Definition grade_both (df : list RawObservation.t) (settings : Settings.t)
  : result (ProcessedData * DataFrame EarlyGrade.t * DataFrame LateGrade.t) :=
  processed_data ← prepare_data df settings;
  early_grades ← grade_early_icaht ICahtGrader_init (early processed_data);
  late_grades ← grade_late_icaht (late processed_data);
  Ok (processed_data, early_grades, late_grades).

Definition process_icaht (df : list RawObservation.t) (settings : Settings.t)
    (out : result (DataFrame Combined.t * Summary)) : Prop :=
  match grade_both df settings with
  | Raise e => out = Raise e
  | Ok (processed_data, early_grades, late_grades) =>
      exists final,
        combine_grades early_grades late_grades final /\
        out = (final_grades ← final;
               summary ← generate_summary final_grades processed_data;
               Ok (final_grades, summary))
  end.

(** ** The specification's readings compared with the code *)

(** The end date of the late window in the words of the specification: the
    earliest of the subsequent-therapy, progression and last-follow-up
    dates, and the baseline date plus 100 days when all three are absent. *)
Definition spec_late_end_date (r : RawObservation.t) : option Z :=
  match min_dates [RawObservation.subsequent_therapy_date r;
                   RawObservation.progression_date r;
                   RawObservation.last_fu_date r] with
  | Some end_date => Some end_date
  | None => (fun cart_date => cart_date + timedelta_days 100) <$> RawObservation.cart_date r
  end.

(** The band table of the specification for the late grade, read on the
    lowest value alone. *)
Definition late_band (anc_1 : Q) : string :=
  if Qltb (inject_Z 1500) anc_1 then "Grade 0"
  else if Qltb (inject_Z 1000) anc_1 then "Grade 1"
  else if Qltb (inject_Z 500) anc_1 then "Grade 2"
  else if Qltb (inject_Z 100) anc_1 then "Grade 3"
  else "Grade 4".


(** ** Auxiliary definitions of the properties *)

(** The rows of a frame, none for a frame without columns. *)
Definition frame_rows {R : Type} (df : DataFrame R) : list R :=
  match df with
  | NoColumns => []
  | Frame rows => rows
  end.

(** The present cells of a series whose first position is [k]. *)
Fixpoint known_from (k : nat) (s : list (option Q)) : list (nat * Q) :=
  match s with
  | [] => []
  | Some q :: s' => (k, q) :: known_from (S k) s'
  | None :: s' => known_from (S k) s'
  end.

(** The day offsets and final values of the rows of an early frame within a
    range of days. *)
Definition final_on_days (lo hi : Z) (df : result (DataFrame EarlyRow.t))
  : list (Z * option Q) :=
  match df with
  | Ok (Frame rows) =>
      map (fun r => (EarlyRow.time_post_inf r, EarlyRow.anc_final r))
        (List.filter
           (fun r => (lo <=? EarlyRow.time_post_inf r) && (EarlyRow.time_post_inf r <=? hi))
           rows)
  | _ => []
  end.


(** The number of a grade: ["Grade n"] is [n]. *)
Definition grade_number (grade : string) : Z :=
  if String.eqb grade "Grade 1" then 1
  else if String.eqb grade "Grade 2" then 2
  else if String.eqb grade "Grade 3" then 3
  else if String.eqb grade "Grade 4" then 4
  else 0.

(** The merge pass seen from its end: the finished intervals and the
    current one. *)
Fixpoint join_view (self : ICahtGrader) (joined : list Exceedance.t)
    (current : Exceedance.t) (rest : list Exceedance.t)
  : list Exceedance.t * Exceedance.t :=
  match rest with
  | [] => (joined, current)
  | next_exceedance :: rest' =>
      if Exceedance.start_day next_exceedance - Exceedance.end_day current - 1
         <=? recovery_days self - 1
      then join_view self joined
             (extend_to current (Exceedance.end_day next_exceedance)
                (Exceedance.end_date next_exceedance)) rest'
      else join_view self (joined ++ [current]) next_exceedance rest'
  end.

Definition merged_view (self : ICahtGrader) (exceedances : list Exceedance.t)
  : option (list Exceedance.t * Exceedance.t) :=
  match exceedances with
  | [] => None
  | first :: rest => Some (join_view self [] first rest)
  end.

(** The interval of a single row. *)
Definition single_day (row : EarlyRow.t) : Exceedance.t :=
  {| Exceedance.start_day := EarlyRow.time_post_inf row;
     Exceedance.start_date := EarlyRow.date row;
     Exceedance.end_day := EarlyRow.time_post_inf row;
     Exceedance.end_date := EarlyRow.date row;
     Exceedance.duration := 1 |}.

(** The scan and the merge pass of [_calculate_exceedances] run as one pass
    over the rows: the state holds the finished merged intervals, the
    current merged interval, and whether the last row was below the
    threshold. *)
Definition merge_step (self : ICahtGrader) (threshold : Z)
    (st : option (list Exceedance.t * Exceedance.t * bool)) (row : EarlyRow.t)
  : option (list Exceedance.t * Exceedance.t * bool) :=
  let condition := lt_cell (EarlyRow.anc_final row) threshold in
  match st with
  | None => if condition then Some ([], single_day row, true) else None
  | Some (finished, current, in_exceedance) =>
      if condition then
        if in_exceedance ||
           (EarlyRow.time_post_inf row - Exceedance.end_day current - 1
            <=? recovery_days self - 1)
        then Some (finished,
                   extend_to current (EarlyRow.time_post_inf row) (EarlyRow.date row),
                   true)
        else Some (finished ++ [current], single_day row, true)
      else Some (finished, current, false)
  end.

Definition merged_list (st : option (list Exceedance.t * Exceedance.t * bool))
  : list Exceedance.t :=
  match st with
  | None => []
  | Some (finished, current, _) => finished ++ [current]
  end.

(** An interval between two rows of [rows] that are below the threshold,
    with the duration of its end points. *)
Definition interval_of (threshold : Z) (rows : list EarlyRow.t) (e : Exceedance.t)
  : Prop :=
  Exceedance.start_day e <= Exceedance.end_day e /\
  Exceedance.duration e = Exceedance.end_day e - Exceedance.start_day e + 1 /\
  (exists r, r ∈ rows /\ lt_cell (EarlyRow.anc_final r) threshold = true /\
             EarlyRow.time_post_inf r = Exceedance.start_day e /\
             EarlyRow.date r = Exceedance.start_date e) /\
  (exists r, r ∈ rows /\ lt_cell (EarlyRow.anc_final r) threshold = true /\
             EarlyRow.time_post_inf r = Exceedance.end_day e /\
             EarlyRow.date r = Exceedance.end_date e).

(** The day lies in the interval. *)
Definition covers (e : Exceedance.t) (day : Z) : Prop :=
  Exceedance.start_day e <= day <= Exceedance.end_day e.

(** The first interval lies in the second. *)
Definition within (e1 e2 : Exceedance.t) : Prop :=
  Exceedance.start_day e2 <= Exceedance.start_day e1 /\
  Exceedance.end_day e1 <= Exceedance.end_day e2.

(** The intervals and the current interval of the single pass at a lower
    threshold lie in those of the pass at a higher threshold, or the
    current interval of the higher threshold started a recovery after the
    one of the lower threshold ended. *)
Definition nested_states (self : ICahtGrader)
    (st1 st2 : option (list Exceedance.t * Exceedance.t * bool)) : Prop :=
  (forall e1, e1 ∈ merged_list st1 -> exists e2, e2 ∈ merged_list st2 /\ within e1 e2) /\
  match st1, st2 with
  | None, _ => True
  | Some _, None => False
  | Some (_, c1, run1), Some (_, c2, run2) =>
      (within c1 c2 /\ (run1 = true -> run2 = true)) \/
      (run1 = false /\
       recovery_days self <= Exceedance.start_day c2 - Exceedance.end_day c1 - 1)
  end.

(** The observations of the early window, and the frame that
    [groupby(['patient_id', 'time_post_inf']).agg(...).reset_index()] makes
    of them in [_prepare_early_data]. *)
Definition early_window (df : list RawObservation.t) (max_days : Z) : list Dated.t :=
  List.filter (fun d => (0 <=? Dated.time_post_inf d) && (Dated.time_post_inf d <=? max_days))
    (with_time_post_inf df).

Definition early_group_row (int_column : bool) (rows : list Dated.t) (key : string * Z)
  : option SeriesRow.t :=
  match group_of key rows with
  | [] => None
  | (first :: _) as group =>
      Some {| SeriesRow.patient_id := key.1;
              SeriesRow.time_post_inf := key.2;
              SeriesRow.cart_date := Dated.cart_date first;
              SeriesRow.date := Dated.date first;
              SeriesRow.anc :=
                agg_min (map (fun d => RawObservation.anc (Dated.raw d)) group);
              SeriesRow.anc_is_int := int_column;
              SeriesRow.last_fu_date :=
                agg_first
                  (map (fun d => RawObservation.last_fu_date (Dated.raw d)) group) |}
  end.

Definition early_grouped (df : list RawObservation.t) (max_days : Z) : list SeriesRow.t :=
  omap (early_group_row (anc_int_column df) (early_window df max_days))
    (group_keys (early_window df max_days)).

(** The observation is one of the patient on the day. *)
Definition observed_on (patient_id : string) (day : Z) (obs : RawObservation.t) : Prop :=
  RawObservation.patient_id obs = patient_id /\
  exists date cart_date,
    RawObservation.date obs = Some date /\
    RawObservation.cart_date obs = Some cart_date /\
    days_between date cart_date = day.

(** ** Inputs of the worked examples *)

(** A row of an early series of patient ["P1"] infused at time 0, for the
    worked examples. *)
Definition series_row (day : Z) (anc_final : option Q) : EarlyRow.t :=
  {| EarlyRow.patient_id := "P1";
     EarlyRow.time_post_inf := day;
     EarlyRow.cart_date := 0;
     EarlyRow.date := timedelta_days day;
     EarlyRow.anc := anc_final;
     EarlyRow.last_fu_date := None;
     EarlyRow.anc_interpolated := None;
     EarlyRow.anc_final := anc_final |}.

Definition series_of (values : list (option Q)) : list EarlyRow.t :=
  imap (fun day v => series_row (Z.of_nat day) v) values.

Definition interval (start_day end_day : Z) : Exceedance.t :=
  {| Exceedance.start_day := start_day;
     Exceedance.start_date := timedelta_days start_day;
     Exceedance.end_day := end_day;
     Exceedance.end_date := timedelta_days end_day;
     Exceedance.duration := end_day - start_day + 1 |}.

(** A late-window observation of patient ["P1"], infused at time 0. *)
Definition late_obs (day : Z) (anc : option Q) : LateRow.t :=
  {| LateRow.patient_id := "P1";
     LateRow.time_post_inf := day;
     LateRow.cart_date := 0;
     LateRow.date := timedelta_days day;
     LateRow.anc := anc;
     LateRow.end_date := Some (timedelta_days 100) |}.

(** Early and late grades of two patients, for the combination examples. *)
Definition two_early_grades : DataFrame EarlyGrade.t :=
  Frame [EarlyGrade.mk "A" 5 0 "Grade 1" false 1 0;
         EarlyGrade.mk "B" 0 0 "Grade 0" false 0 0].

Definition one_late_grade : DataFrame LateGrade.t :=
  Frame [LateGrade.mk "A" (Some (1200#1)%Q) None "Grade 1" (Some 1)].

(** An observation of patient ["P1"], infused at time 0, on the given day,
    with a last follow-up on day 60 and no other event. *)
Definition obs_fu60 (day : Z) (anc : option Q) : RawObservation.t :=
  {| RawObservation.patient_id := "P1";
     RawObservation.cart_date := Some 0;
     RawObservation.date := Some (timedelta_days day);
     RawObservation.anc := anc;
     RawObservation.last_fu_date := Some (timedelta_days 60);
     RawObservation.subsequent_therapy_date := None;
     RawObservation.progression_date := None |}.

(** An observation of patient ["P1"], infused at time 0, on the given day,
    with no follow-up date and no event. *)
Definition obs_day (day : Z) (anc : Q) : RawObservation.t :=
  {| RawObservation.patient_id := "P1";
     RawObservation.cart_date := Some 0;
     RawObservation.date := Some (timedelta_days day);
     RawObservation.anc := Some anc;
     RawObservation.last_fu_date := None;
     RawObservation.subsequent_therapy_date := None;
     RawObservation.progression_date := None |}.

(** Daily observations of patient ["P1"] from day 0 on. *)
Definition daily_obs (values : list Q) : list RawObservation.t :=
  imap (fun day v => obs_day (Z.of_nat day) v) values.

(** The combined records of the two patients, for the summary examples. *)
Definition two_combined : DataFrame Combined.t :=
  Frame [Combined.mk "A" "Grade 1" 5 0 false "Grade 1" (Some (1200#1)%Q) None (Some 1);
         Combined.mk "B" "Grade 0" 0 0 false "Grade 0" None None (Some 0)].

(** An observation of patient ["P1"], infused at time 0, on the given day,
    with a last follow-up on day 10 and no other event. *)
Definition obs_fu10 (day : Z) (anc : option Q) : RawObservation.t :=
  {| RawObservation.patient_id := "P1";
     RawObservation.cart_date := Some 0;
     RawObservation.date := Some (timedelta_days day);
     RawObservation.anc := anc;
     RawObservation.last_fu_date := Some (timedelta_days 10);
     RawObservation.subsequent_therapy_date := None;
     RawObservation.progression_date := None |}.

(** * Properties *)

(** ** Auxiliary facts about the pandas operations *)

Lemma rmap_list_Ok {A B : Type} (f : A -> result B) (g : A -> B) (l : list A) :
  (forall a, a ∈ l -> f a = Ok (g a)) -> rmap_list f l = Ok (map g l).
Proof.
  induction l as [|a l IH]; intros Hf; simpl; [reflexivity|].
  rewrite (Hf a) by left. simpl.
  rewrite IH; [reflexivity|]. intros b Hb. apply Hf. by right.
Qed.

Lemma unique_spec {A : Type} `{EqDecision A} (l : list A) :
  NoDup (unique l) /\ forall x, x ∈ unique l <-> x ∈ l.
Proof.
  unfold unique.
  assert (Hgen : forall seen, NoDup seen ->
            let out := fold_left
              (fun seen x => if decide (x ∈ seen) then seen else seen ++ [x]) l seen in
            NoDup out /\ forall x, x ∈ out <-> x ∈ seen \/ x ∈ l).
  { induction l as [|a l IH]; intros seen Hnd; simpl.
    - split; [assumption|]. intros x. rewrite elem_of_nil. tauto.
    - destruct (decide (a ∈ seen)) as [Hin|Hnin].
      + destruct (IH seen Hnd) as [H1 H2]. split; [exact H1|].
        intros x. rewrite H2, elem_of_cons. split; [tauto|].
        intros [?|[->|?]]; tauto.
      + assert (Hnd' : NoDup (seen ++ [a])).
        { apply NoDup_app. split; [assumption|]. split.
          - intros x Hx Hx'. apply list_elem_of_singleton in Hx'. by subst.
          - apply NoDup_singleton. }
        destruct (IH _ Hnd') as [H1 H2]. split; [exact H1|].
        intros x. rewrite H2, elem_of_app, list_elem_of_singleton, elem_of_cons. tauto. }
  destruct (Hgen [] (NoDup_nil_2)) as [H1 H2]. split; [exact H1|].
  intros x. rewrite H2, elem_of_nil. tauto.
Qed.

Section Sorting.
Context {A : Type} (key : A -> Z).

Let leb (a b : A) : bool := key a <=? key b.
Let le (a b : A) : Prop := key a <= key b.

Lemma insert_by_perm (x : A) (l : list A) : insert_by leb x l ≡ₚ x :: l.
Proof.
  induction l as [|y l IH]; simpl; [reflexivity|].
  destruct (leb x y); [reflexivity|].
  rewrite IH. apply Permutation_swap.
Qed.

Lemma sort_by_perm (l : list A) : sort_by leb l ≡ₚ l.
Proof.
  induction l as [|x l IH]; simpl; [reflexivity|].
  unfold sort_by in *. simpl. rewrite insert_by_perm. by rewrite IH.
Qed.

Lemma insert_by_sorted (x : A) (l : list A) :
  StronglySorted le l -> StronglySorted le (insert_by leb x l).
Proof.
  induction 1 as [|y l Hs IH Hall]; simpl.
  - repeat constructor.
  - unfold leb at 1. destruct (Z.leb_spec (key x) (key y)) as [Hxy|Hxy].
    + constructor; [by constructor|]. constructor; [exact Hxy|].
      eapply Forall_impl; [exact Hall|]. unfold le. simpl. intros; lia.
    + constructor; [exact IH|].
      rewrite insert_by_perm. constructor; [unfold le; lia|exact Hall].
Qed.

Lemma sort_by_sorted (l : list A) : StronglySorted le (sort_by leb l).
Proof.
  induction l as [|x l IH]; unfold sort_by in *; simpl.
  - constructor.
  - by apply insert_by_sorted.
Qed.

Lemma filter_sorted (p : A -> bool) (l : list A) :
  StronglySorted le l -> StronglySorted le (List.filter p l).
Proof.
  induction 1 as [|y l Hs IH Hall]; simpl; [constructor|].
  destruct (p y); [|exact IH].
  constructor; [exact IH|].
  apply Forall_forall. intros z Hz. apply list_elem_of_In, filter_In in Hz.
  destruct Hz as [Hz _]. rewrite Forall_forall in Hall. apply Hall.
  by apply list_elem_of_In.
Qed.

Lemma last_sorted_max (l : list A) (z : A) :
  StronglySorted le l -> last l = Some z -> forall a, a ∈ l -> key a <= key z.
Proof.
  induction 1 as [|y l Hs IH Hall]; intros Hlast a Ha.
  - by apply elem_of_nil in Ha.
  - destruct l as [|y' l'].
    + simpl in Hlast. inversion Hlast; subst.
      apply list_elem_of_singleton in Ha. subst. lia.
    + change (last (y :: y' :: l')) with (last (y' :: l')) in Hlast.
      apply elem_of_cons in Ha. destruct Ha as [->|Ha].
      * rewrite Forall_forall in Hall. apply Hall.
        apply last_Some_elem_of in Hlast. exact Hlast.
      * by apply IH.
Qed.
End Sorting.

(** ** The merge pass *)

Lemma join_loop_joined (self : ICahtGrader) (joined : list Exceedance.t)
    (current : Exceedance.t) (rest : list Exceedance.t) :
  join_loop self joined current rest = joined ++ join_loop self [] current rest.
Proof.
  revert joined current.
  induction rest as [|next_exceedance rest IH]; intros joined current; simpl.
  - reflexivity.
  - destruct (_ <=? _).
    + apply IH.
    + rewrite (IH (joined ++ [current])), (IH ([] ++ [current])).
      by rewrite <- app_assoc.
Qed.

Lemma join_loop_single (self : ICahtGrader) (current : Exceedance.t)
    (rest : list Exceedance.t) :
  join_loop self [] current rest = _join_adjacent_exceedances self (current :: rest).
Proof. destruct rest; reflexivity. Qed.

(** C4. In the merge pass the next interval is joined into the current one
    exactly when the gap [start(next) - end(current) - 1] is strictly below
    the recovery threshold; joining sets the end day to the end of the next
    interval and the duration to [end - start + 1], and the pass goes on with
    the joined interval as the current one.  With the default threshold 3,
    [0,4] and [7,9] (two good days between) become [0,9] of duration 10,
    while [0,4] and [8,10] (three good days between) stay two intervals; the
    same holds when the intervals are detected from a daily series. *)
Theorem C4_merge_pass :
  (forall (self : ICahtGrader) (current next_exceedance : Exceedance.t)
          (rest : list Exceedance.t),
      let gap := Exceedance.start_day next_exceedance - Exceedance.end_day current - 1 in
      let merged := extend_to current (Exceedance.end_day next_exceedance)
                      (Exceedance.end_date next_exceedance) in
      Exceedance.start_day merged = Exceedance.start_day current /\
      Exceedance.end_day merged = Exceedance.end_day next_exceedance /\
      Exceedance.duration merged =
        Exceedance.end_day next_exceedance - Exceedance.start_day current + 1 /\
      _join_adjacent_exceedances self (current :: next_exceedance :: rest) =
        if gap <? recovery_days self
        then _join_adjacent_exceedances self (merged :: rest)
        else current :: _join_adjacent_exceedances self (next_exceedance :: rest)) /\
  _join_adjacent_exceedances ICahtGrader_init [interval 0 4; interval 7 9]
    = [interval 0 9] /\
  Exceedance.duration (interval 0 9) = 10 /\
  _join_adjacent_exceedances ICahtGrader_init [interval 0 4; interval 8 10]
    = [interval 0 4; interval 8 10] /\
  _calculate_exceedances ICahtGrader_init
    (series_of (replicate 5 (Some (300#1)) ++ replicate 2 (Some (900#1)) ++
                replicate 3 (Some (300#1)) ++ [Some (900#1)])) 501
    = [interval 0 9] /\
  _calculate_exceedances ICahtGrader_init
    (series_of (replicate 5 (Some (300#1)) ++ replicate 3 (Some (900#1)) ++
                replicate 3 (Some (300#1)) ++ [Some (900#1)])) 501
    = [interval 0 4; interval 8 10].
Proof.
  split; [|repeat split; vm_compute; reflexivity].
  intros self current next_exceedance rest gap merged.
  repeat split.
  change (_join_adjacent_exceedances self (current :: next_exceedance :: rest))
    with (join_loop self [] current (next_exceedance :: rest)).
  simpl. fold gap. fold merged.
  replace (gap <=? recovery_days self - 1) with (gap <? recovery_days self)
    by (destruct (Z.ltb_spec gap (recovery_days self));
        destruct (Z.leb_spec gap (recovery_days self - 1)); (reflexivity || lia)).
  destruct (gap <? recovery_days self).
  - apply join_loop_single.
  - rewrite join_loop_joined. simpl. f_equal. apply join_loop_single.
Qed.

(** ** Early grading *)

Lemma calculate_exceedances_no_valid (self : ICahtGrader)
    (patient_data : list EarlyRow.t) (threshold : Z) :
  dropna_anc_final patient_data = [] ->
  _calculate_exceedances self patient_data threshold = [].
Proof. unfold _calculate_exceedances. by intros ->. Qed.

Lemma check_grade_4_special_Ok (self : ICahtGrader)
    (patient_data : list EarlyRow.t) (threshold : Z) :
  let exceedances := _calculate_exceedances self patient_data threshold in
  exists b, _check_grade_4_special_cases patient_data exceedances = Ok b /\
    (b = true <->
     exists exceedance last_day_data,
       exceedance ∈ exceedances /\
       last (dropna_anc_final patient_data) = Some last_day_data /\
       Exceedance.start_day exceedance <= 3 /\
       Exceedance.end_day exceedance = EarlyRow.time_post_inf last_day_data).
Proof.
  intros exceedances. unfold _check_grade_4_special_cases.
  destruct exceedances as [|e0 es] eqn:Hex.
  - exists false. split; [reflexivity|]. split; [discriminate|].
    intros (e & _ & He & _). by apply elem_of_nil in He.
  - destruct (last (dropna_anc_final patient_data)) as [last_day_data|] eqn:Hlast.
    + eexists. split; [reflexivity|].
      rewrite existsb_exists. split.
      * intros (e & He & Hc). apply andb_true_iff in Hc. destruct Hc as [H1 H2].
        exists e, last_day_data. apply list_elem_of_In in He.
        repeat split; [exact He|lia|lia].
      * intros (e & l & He & Hl & H1 & H2). inversion Hl; subst l.
        exists e. split; [by apply list_elem_of_In|].
        apply andb_true_iff. split; lia.
    + apply last_None in Hlast.
      subst exceedances. rewrite calculate_exceedances_no_valid in Hex by assumption.
      discriminate.
Qed.

Lemma grade_early_patient_Ok (self : ICahtGrader) (patient_id : string)
    (patient_rows : list EarlyRow.t) :
  exists g, grade_early_patient self patient_id patient_rows = Ok g /\
            EarlyGrade.patient_id g = patient_id.
Proof.
  unfold grade_early_patient.
  destruct (check_grade_4_special_Ok self (sort_by by_day patient_rows)
              (anc_500_threshold self)) as (b & Hb & _).
  rewrite Hb. simpl. eexists. split; reflexivity.
Qed.

(** C5. Early grading of a patient always returns, and its special-case flag
    is true exactly when some merged 500-threshold interval starts on or
    before day 3 and ends on the day of the last row with a final ANC, which
    is the patient's greatest such day; whenever the flag is true the early
    grade is "Grade 4", whatever the two durations are.  A patient at or
    below 500 from day 2 through day 30, the last observed day, has the flag
    and "Grade 4", where the duration 29 alone gives "Grade 3". *)
Theorem C5_grade_4_special (self : ICahtGrader) (patient_id : string)
    (patient_rows : list EarlyRow.t) :
  let patient_data := sort_by by_day patient_rows in
  let exceedances_500 :=
    _calculate_exceedances self patient_data (anc_500_threshold self) in
  exists g,
    grade_early_patient self patient_id patient_rows = Ok g /\
    (EarlyGrade.grade_4_special g = true <->
     exists exceedance last_day_data,
       exceedance ∈ exceedances_500 /\
       last (dropna_anc_final patient_data) = Some last_day_data /\
       Exceedance.start_day exceedance <= 3 /\
       Exceedance.end_day exceedance = EarlyRow.time_post_inf last_day_data) /\
    (forall last_day_data,
       last (dropna_anc_final patient_data) = Some last_day_data ->
       last_day_data ∈ patient_rows /\
       has_anc_final last_day_data = true /\
       forall row, row ∈ patient_rows -> has_anc_final row = true ->
         EarlyRow.time_post_inf row <= EarlyRow.time_post_inf last_day_data) /\
    (EarlyGrade.grade_4_special g = true ->
     EarlyGrade.early_icaht_grade g = "Grade 4") /\
    (forall duration_500 duration_100,
       _assign_early_grade duration_500 duration_100 true = "Grade 4") /\
    (grade_early_patient ICahtGrader_init "P1"
       (series_of (replicate 2 (Some (900#1)%Q) ++ replicate 29 (Some (300#1)%Q)))
     = Ok (EarlyGrade.mk "P1" 29 0 "Grade 4" true 1 0) /\
     _assign_early_grade 29 0 false = "Grade 3").
Proof.
  intros patient_data exceedances_500.
  destruct (check_grade_4_special_Ok self patient_data (anc_500_threshold self))
    as (b & Hb & Hiff).
  fold exceedances_500 in Hb, Hiff.
  unfold grade_early_patient. fold patient_data. fold exceedances_500.
  rewrite Hb. simpl. eexists. split; [reflexivity|]. simpl.
  split; [exact Hiff|]. split; [|split; [|split; [|split; vm_compute; reflexivity]]].
  - intros last_day_data Hlast.
    assert (Hin : last_day_data ∈ dropna_anc_final patient_data)
      by (by apply last_Some_elem_of).
    pose proof Hin as Hin'. apply list_elem_of_In, filter_In in Hin'.
    destruct Hin' as [Hin1 Hin2].
    split; [|split; [exact Hin2|]].
    + apply list_elem_of_In in Hin1. unfold patient_data in Hin1.
      by rewrite (sort_by_perm EarlyRow.time_post_inf) in Hin1.
    + intros row Hrow Hvalid.
      apply (last_sorted_max EarlyRow.time_post_inf (dropna_anc_final patient_data)).
      * apply filter_sorted. apply (sort_by_sorted EarlyRow.time_post_inf).
      * exact Hlast.
      * apply list_elem_of_In, filter_In. split; [|exact Hvalid].
        apply list_elem_of_In. unfold patient_data.
        by rewrite (sort_by_perm EarlyRow.time_post_inf).
  - by intros ->.
  - reflexivity.
Qed.

(** C10. When every row of a patient in the early series has an absent final
    ANC, early grading of the whole frame returns, and its result holds
    exactly one record for the patient, with both maximum durations 0, no
    special case and grade "Grade 0". *)
Theorem C10_all_absent_early (self : ICahtGrader) (rows : list EarlyRow.t)
    (patient_id : string) :
  patient_id ∈ map EarlyRow.patient_id rows ->
  (forall row, row ∈ rows -> EarlyRow.patient_id row = patient_id ->
               EarlyRow.anc_final row = None) ->
  exists results g,
    grade_early_icaht self (Frame rows) = Ok (Frame results) /\
    List.filter (fun g' => bool_decide (EarlyGrade.patient_id g' = patient_id)) results
      = [g] /\
    EarlyGrade.duration_below_500_max g = 0 /\
    EarlyGrade.duration_below_100_max g = 0 /\
    EarlyGrade.grade_4_special g = false /\
    EarlyGrade.early_icaht_grade g = "Grade 0".
Proof.
  intros Hin Habsent.
  set (grade := fun pid =>
         match grade_early_patient self pid (rows_of_patient pid rows) with
         | Ok g => g
         | Raise _ => EarlyGrade.mk pid 0 0 "" false 0 0
         end).
  assert (Hgrade : forall pid,
             grade_early_patient self pid (rows_of_patient pid rows) = Ok (grade pid) /\
             EarlyGrade.patient_id (grade pid) = pid).
  { intros pid. unfold grade.
    destruct (grade_early_patient_Ok self pid (rows_of_patient pid rows))
      as (g & -> & Hg). by split. }
  destruct (unique_spec (map EarlyRow.patient_id rows)) as [Hnd Hmem].
  exists (map grade (unique (map EarlyRow.patient_id rows))), (grade patient_id).
  split; [|split].
  - unfold grade_early_icaht. simpl.
    rewrite (rmap_list_Ok _ grade) by (intros; apply Hgrade). simpl.
    apply Hmem in Hin.
    destruct (unique (map EarlyRow.patient_id rows)); [by apply elem_of_nil in Hin|].
    reflexivity.
  - apply Hmem in Hin. clear Hmem. revert Hnd Hin.
    induction (unique (map EarlyRow.patient_id rows)) as [|p ps IH];
      intros Hnd Hin'; [by apply elem_of_nil in Hin'|].
    apply NoDup_cons in Hnd. destruct Hnd as [Hp Hnd]. simpl.
    destruct (Hgrade p) as [_ ->].
    destruct (decide (p = patient_id)) as [->|Hne].
    + rewrite bool_decide_eq_true_2 by reflexivity. f_equal.
      clear -Hp Hgrade. induction ps as [|q qs IH]; [reflexivity|]. simpl.
      destruct (Hgrade q) as [_ ->].
      rewrite bool_decide_eq_false_2.
      * apply IH. intros H. apply Hp. by right.
      * intros ->. apply Hp. by left.
    + rewrite bool_decide_eq_false_2 by assumption.
      apply IH; [exact Hnd|]. apply elem_of_cons in Hin'. by destruct Hin' as [->|].
  - assert (Hnone : dropna_anc_final (sort_by by_day (rows_of_patient patient_id rows)) = []).
    { destruct (dropna_anc_final _) as [|r rs] eqn:Hf; [reflexivity|exfalso].
      assert (Hr : r ∈ dropna_anc_final (sort_by by_day (rows_of_patient patient_id rows)))
        by (rewrite Hf; left).
      apply list_elem_of_In, filter_In in Hr. destruct Hr as [Hr Hv].
      apply list_elem_of_In in Hr. unfold by_day in Hr.
      rewrite (sort_by_perm EarlyRow.time_post_inf) in Hr.
      apply list_elem_of_In, filter_In in Hr. destruct Hr as [Hr Hp].
      apply bool_decide_eq_true in Hp. apply list_elem_of_In in Hr.
      unfold has_anc_final in Hv. by rewrite (Habsent r Hr Hp) in Hv. }
    unfold grade, grade_early_patient.
    rewrite !calculate_exceedances_no_valid by assumption.
    simpl. repeat split.
Qed.

(** A witness of C10: three days of patient "P1" without any value. *)
Lemma C10_all_absent_early_witness :
  exists results g,
    grade_early_icaht ICahtGrader_init (Frame (series_of [None; None; None]))
      = Ok (Frame results) /\
    List.filter (fun g' => bool_decide (EarlyGrade.patient_id g' = "P1")) results = [g] /\
    EarlyGrade.duration_below_500_max g = 0 /\
    EarlyGrade.duration_below_100_max g = 0 /\
    EarlyGrade.grade_4_special g = false /\
    EarlyGrade.early_icaht_grade g = "Grade 0".
Proof.
  apply (C10_all_absent_early ICahtGrader_init (series_of [None; None; None]) "P1").
  - vm_compute. left.
  - intros row Hrow _. unfold series_of in Hrow. cbn [imap] in Hrow.
    rewrite !elem_of_cons, elem_of_nil in Hrow.
    destruct Hrow as [->|[->|[->|[]]]]; reflexivity.
Defined.

(** ** Late grading *)

Lemma in_range_inject_Z (lo hi n : Z) :
  in_range lo hi (inject_Z n) = in_range_Z lo hi n.
Proof.
  unfold in_range, in_range_Z. simpl.
  rewrite Z.mod_1_r, Z.div_1_r. reflexivity.
Qed.

Lemma Qle_bool_inject_Z (n m : Z) : Qle_bool (inject_Z n) (inject_Z m) = (n <=? m).
Proof. unfold Qle_bool. simpl. by rewrite !Z.mul_1_r. Qed.

Lemma Qltb_inject_Z (n m : Z) : Qltb (inject_Z n) (inject_Z m) = (n <? m).
Proof.
  unfold Qltb. rewrite Qle_bool_inject_Z.
  destruct (Z.leb_spec m n), (Z.ltb_spec n m); (reflexivity || lia).
Qed.

Ltac band_cases :=
  repeat match goal with
         | |- context [?a <=? ?b] => destruct (Z.leb_spec a b)
         | |- context [?a <? ?b] => destruct (Z.ltb_spec a b)
         end;
  simpl; try reflexivity; try lia.

(** C6, as the code has it.  For an integer lowest value [anc_1]: a value of
    at most 100 gives "Grade 4" and a value above 1500 gives "Grade 0",
    whatever [anc_2] is; a value in (100, 1500] gets the grade of its band
    (3, 2 or 1), which is the grade of the specification's table, when
    [anc_2] is absent or at most 1500, and "Grade 0" when [anc_2] exceeds
    1500.  So 90 gives grade 4, 1800 gives grade 0, and 1200 with [anc_2]
    absent gives grade 1.  The grade of a late-window patient is this
    function of the two lowest values observed. *)
Theorem C6_late_grade_bands (n : Z) (anc_2 : option Q) :
  let anc_1 := Some (inject_Z n) in
  (n <= 100 -> _assign_late_grade anc_1 anc_2 = "Grade 4") /\
  (1500 < n -> _assign_late_grade anc_1 anc_2 = "Grade 0") /\
  (isna anc_2 || le_cell anc_2 1500 = true ->
   _assign_late_grade anc_1 anc_2 = late_band (inject_Z n) /\
   (100 < n <= 500 -> _assign_late_grade anc_1 anc_2 = "Grade 3") /\
   (500 < n <= 1000 -> _assign_late_grade anc_1 anc_2 = "Grade 2") /\
   (1000 < n <= 1500 -> _assign_late_grade anc_1 anc_2 = "Grade 1")) /\
  (isna anc_2 || le_cell anc_2 1500 = false ->
   100 < n <= 1500 -> _assign_late_grade anc_1 anc_2 = "Grade 0") /\
  _assign_late_grade (Some (90#1)) anc_2 = "Grade 4" /\
  _assign_late_grade (Some (1800#1)) anc_2 = "Grade 0" /\
  _assign_late_grade (Some (1200#1)) None = "Grade 1" /\
  (forall patient_id row patient_data,
     let g := grade_late_patient patient_id (row :: patient_data) in
     let anc_values := sort_by Qle_bool (omap LateRow.anc (row :: patient_data)) in
     LateGrade.anc_1 g = anc_values !! 0%nat /\
     LateGrade.anc_2 g = anc_values !! 1%nat /\
     LateGrade.late_icaht_grade g =
       _assign_late_grade (LateGrade.anc_1 g) (LateGrade.anc_2 g)).
Proof.
  assert (Hgen : forall m a2,
             _assign_late_grade (Some (inject_Z m)) a2 =
             if isna a2 || le_cell a2 1500
             then late_band (inject_Z m)
             else if (m <=? 100) then "Grade 4" else "Grade 0").
  { intros m a2. unfold _assign_late_grade, late_band.
    rewrite !in_range_inject_Z, !Qltb_inject_Z, Qle_bool_inject_Z.
    unfold in_range_Z.
    destruct (isna a2), (le_cell a2 1500); simpl; band_cases. }
  assert (Hband : forall m,
             late_band (inject_Z m) =
             if 1500 <? m then "Grade 0" else if 1000 <? m then "Grade 1"
             else if 500 <? m then "Grade 2" else if 100 <? m then "Grade 3"
             else "Grade 4").
  { intros m. unfold late_band. by rewrite !Qltb_inject_Z. }
  intros anc_1. subst anc_1.
  split; [intros Hn; rewrite Hgen, Hband; destruct (_ || _); band_cases|].
  split; [intros Hn; rewrite Hgen, Hband; destruct (_ || _); band_cases|].
  split.
  { intros H2. rewrite Hgen, H2, Hband.
    split; [reflexivity|]. repeat split; intros Hn; band_cases. }
  split; [intros H2 Hn; rewrite Hgen, H2; band_cases|].
  change (90#1)%Q with (inject_Z 90). change (1800#1)%Q with (inject_Z 1800).
  split; [rewrite Hgen, Hband; destruct (_ || _); reflexivity|].
  split; [rewrite Hgen, Hband; destruct (_ || _); reflexivity|].
  split; [reflexivity|].
  intros patient_id row patient_data g anc_values. repeat split.
Qed.

(** C6 fails as stated: a patient whose two lowest late values are 1200 and
    1800 has [anc_1] in the band (1000, 1500], yet receives "Grade 0". *)
Lemma C6_counterexample :
  let g := grade_late_patient "P1"
             [late_obs 40 (Some (1800#1)); late_obs 47 (Some (1200#1))] in
  LateGrade.anc_1 g = Some (1200#1)%Q /\
  LateGrade.anc_2 g = Some (1800#1)%Q /\
  LateGrade.late_icaht_grade g = "Grade 0" /\
  late_band (1200#1) = "Grade 1" /\
  ~ (forall anc_2, _assign_late_grade (Some (1200#1)%Q) anc_2 = "Grade 1").
Proof.
  repeat split; try (vm_compute; reflexivity).
  intros H. specialize (H (Some (1800#1)%Q)). vm_compute in H. discriminate.
Qed.

(** ** Combination and summary *)

Lemma value_counts_perm (l1 l2 : list string) :
  l1 ≡ₚ l2 -> value_counts l1 = value_counts l2.
Proof.
  induction 1 as [|x l1 l2 _ IH|x y l|l1 l2 l3 _ IH1 _ IH2]; simpl.
  - reflexivity.
  - by rewrite IH.
  - destruct (decide (x = y)) as [->|Hne]; [reflexivity|].
    rewrite !lookup_insert_ne by congruence.
    apply insert_insert_ne. congruence.
  - by rewrite IH1.
Qed.

Lemma filter_perm {A : Type} (p : A -> bool) (l1 l2 : list A) :
  l1 ≡ₚ l2 -> List.filter p l1 ≡ₚ List.filter p l2.
Proof.
  induction 1 as [|x l1 l2 _ IH|x y l|l1 l2 l3 _ IH1 _ IH2]; simpl.
  - reflexivity.
  - destruct (p x); by rewrite IH.
  - destruct (p x), (p y); (reflexivity || apply Permutation_swap).
  - by rewrite IH1.
Qed.

Lemma generate_summary_perm (f1 f2 : DataFrame Combined.t) (processed_data : ProcessedData) :
  column "early_icaht_grade" f1 = Raise (KeyError "early_icaht_grade") /\
  column "early_icaht_grade" f2 = Raise (KeyError "early_icaht_grade") \/
  (exists r1 r2, f1 = Frame r1 /\ f2 = Frame r2 /\ r1 ≡ₚ r2) ->
  generate_summary f1 processed_data = generate_summary f2 processed_data.
Proof.
  intros [[H1 H2]|(r1 & r2 & -> & -> & Hp)]; unfold generate_summary.
  - by rewrite H1, H2.
  - simpl.
    rewrite (value_counts_perm (map Combined.early_icaht_grade r1)
               (map Combined.early_icaht_grade r2)) by (by apply Permutation_map).
    rewrite (value_counts_perm (map Combined.late_icaht_grade r1)
               (map Combined.late_icaht_grade r2)) by (by apply Permutation_map).
    rewrite (Permutation_length Hp).
    rewrite (Permutation_length (filter_perm Combined.grade_4_special r1 r2 Hp)).
    reflexivity.
Qed.

Lemma combine_grades_in_Frame (order : list string) (early_rows : list EarlyGrade.t)
    (late_rows : list LateGrade.t) :
  combine_grades_in order (Frame early_rows) (Frame late_rows) =
  Ok (pd_DataFrame (map (combine_row early_rows late_rows) order)).
Proof. reflexivity. Qed.

Lemma combine_row_patient_id (early_rows : list EarlyGrade.t)
    (late_rows : list LateGrade.t) (patient_id : string) :
  Combined.patient_id (combine_row early_rows late_rows patient_id) = patient_id.
Proof. unfold combine_row. by destruct (List.filter _ _), (List.filter _ _). Qed.

(** ** The late window *)

Lemma fold_left_min_le (xs : list Z) (a : Z) : fold_left Z.min xs a <= a.
Proof.
  revert a. induction xs as [|x xs IH]; intros a; simpl; [lia|].
  specialize (IH (Z.min a x)). lia.
Qed.

(** The end date the code computes is never after the baseline date. *)
Lemma late_end_date_le_cart (r : RawObservation.t) (cart_date : Z) :
  RawObservation.cart_date r = Some cart_date ->
  exists end_date, late_end_date r = Some end_date /\ end_date <= cart_date.
Proof.
  intros Hc. unfold late_end_date, min_dates. rewrite Hc. simpl.
  eexists. split; [reflexivity|]. apply fold_left_min_le.
Qed.

Lemma filter_nil_all_false {A : Type} (p : A -> bool) (l : list A) :
  (forall x, x ∈ l -> p x = false) -> List.filter p l = [].
Proof.
  induction l as [|x l IH]; intros H; simpl; [reflexivity|].
  rewrite (H x) by left. apply IH. intros y Hy. apply H. by right.
Qed.

Lemma late_window_filter_empty (df : list RawObservation.t) :
  List.filter (fun d => ge_31 d && le_end_date d) (with_time_post_inf df) = [].
Proof.
  apply filter_nil_all_false. intros d Hd.
  unfold with_time_post_inf in Hd. apply list_elem_of_omap in Hd.
  destruct Hd as (r & _ & Hr).
  destruct (RawObservation.date r) as [date|] eqn:Hdate; [|discriminate].
  destruct (RawObservation.cart_date r) as [cart_date|] eqn:Hcart; [|discriminate].
  inversion Hr; subst d; clear Hr.
  destruct (late_end_date_le_cart r cart_date Hcart) as (end_date & He & Hle).
  unfold ge_31, le_end_date. simpl. rewrite He.
  apply andb_false_iff.
  destruct (Z.leb_spec 31 (days_between date cart_date)) as [H31|]; [right|by left].
  apply Z.leb_gt. unfold days_between, ns_per_day in H31.
  assert (31 * 86400000000000 <= date - cart_date); [|lia].
  etransitivity; [|apply (Z.mul_div_le (date - cart_date) 86400000000000); lia].
  lia.
Qed.

Lemma prepare_late_data_empty (df : list RawObservation.t) (settings : Settings.t) :
  _prepare_late_data df settings = Frame [].
Proof. unfold _prepare_late_data. by rewrite late_window_filter_empty. Qed.

(** C1, where the code departs from it.  The code takes the baseline date
    into the row minimum, so the end date it computes is never after the
    baseline date and no row with a day offset of at least 31 passes the
    filter: the late data set is empty for every input.  Patient "P1" is
    infused at time 0, observed on day 40 with ANC 800 and last followed up
    on day 60, with no subsequent therapy and no progression: the end date
    of the specification is day 60, so the observation of day 40, with a day
    offset of at least 31 and a date not after day 60, belongs to the late
    series, while the code computes the end date 0 and keeps no row. *)
Theorem C1_late_window_end_date :
  let r := obs_fu60 40 (Some (800#1)%Q) in
  spec_late_end_date r = Some (timedelta_days 60) /\
  (31 <=? days_between (timedelta_days 40) 0) && (timedelta_days 40 <=? timedelta_days 60)
    = true /\
  (with_time_post_inf [r]) = [ {| Dated.raw := r; Dated.cart_date := 0;
                                  Dated.date := timedelta_days 40;
                                  Dated.time_post_inf := 40;
                                  Dated.end_date := Some 0 |} ] /\
  late_end_date r = Some 0 /\
  _prepare_late_data [r] no_settings = Frame [] /\
  (forall (r' : RawObservation.t) cart_date,
     RawObservation.cart_date r' = Some cart_date ->
     exists end_date, late_end_date r' = Some end_date /\ end_date <= cart_date) /\
  (forall df settings, _prepare_late_data df settings = Frame []).
Proof.
  intros r.
  split; [reflexivity|]. split; [reflexivity|]. split; [reflexivity|].
  split; [reflexivity|]. split; [apply prepare_late_data_empty|].
  split; [apply late_end_date_le_cart|apply prepare_late_data_empty].
Qed.

Lemma grade_late_icaht_empty : grade_late_icaht (Frame []) = Ok NoColumns.
Proof. reflexivity. Qed.

(** Without a late record, and for a late-grade frame that has its columns,
    the combined record takes the defaults of the late side. *)
Lemma combine_row_late_defaults (early_rows : list EarlyGrade.t)
    (late_rows : list LateGrade.t) (patient_id : string) :
  List.filter (fun r => bool_decide (LateGrade.patient_id r = patient_id)) late_rows = [] ->
  let c := combine_row early_rows late_rows patient_id in
  Combined.late_icaht_grade c = "Grade 0" /\
  Combined.anc_1 c = None /\ Combined.anc_2 c = None /\
  Combined.anc_count c = Some 0.
Proof.
  intros Hnone. unfold combine_row. rewrite Hnone.
  by destruct (List.filter _ early_rows).
Qed.

(** No run of the processing route returns: the late-grade frame never has
    columns, and [combine_grades] subscripts it. *)
Lemma process_icaht_raises (df : list RawObservation.t) (settings : Settings.t)
    (out : result (DataFrame Combined.t * Summary)) :
  process_icaht df settings out -> exists e, out = Raise e.
Proof.
  unfold process_icaht, grade_both, prepare_data.
  rewrite prepare_late_data_empty.
  destruct (_prepare_early_data df settings) as [early_data|e];
    cbn [mbind result_bind early late]; [|intros ->; by eexists].
  destruct (grade_early_icaht ICahtGrader_init early_data) as [early_grades|e];
    cbn [mbind result_bind]; [|intros ->; by eexists].
  rewrite grade_late_icaht_empty. cbn [mbind result_bind].
  intros (final & Hfinal & ->).
  unfold combine_grades in Hfinal.
  destruct early_grades; simpl in Hfinal; subst final; by eexists.
Qed.

(** All runs of the processing route on an input have one and the same
    outcome. *)
Lemma process_icaht_outcome (df : list RawObservation.t) (settings : Settings.t) :
  exists e, forall out, process_icaht df settings out <-> out = Raise e.
Proof.
  unfold process_icaht, grade_both, prepare_data.
  rewrite prepare_late_data_empty.
  destruct (_prepare_early_data df settings) as [early_data|e];
    cbn [mbind result_bind early late]; [|by exists e].
  destruct (grade_early_icaht ICahtGrader_init early_data) as [early_grades|e];
    cbn [mbind result_bind]; [|by exists e].
  rewrite grade_late_icaht_empty. cbn [mbind result_bind].
  exists (KeyError "patient_id"). intros out. unfold combine_grades.
  destruct early_grades; cbn [column]; split.
  - by intros (final & -> & ->).
  - intros ->. by exists (Raise (KeyError "patient_id")).
  - by intros (final & -> & ->).
  - intros ->. by exists (Raise (KeyError "patient_id")).
Qed.

(** C3.  The processing route is deterministic: it has an outcome on every
    input and every setting, and two runs on the same observations and the
    same settings have the same outcome. *)
Theorem C3_deterministic (df : list RawObservation.t) (settings : Settings.t) :
  (exists out, process_icaht df settings out) /\
  (forall out1 out2,
     process_icaht df settings out1 -> process_icaht df settings out2 -> out1 = out2).
Proof.
  destruct (process_icaht_outcome df settings) as [e He]. split.
  - exists (Raise e). by apply He.
  - intros out1 out2 H1 H2. apply He in H1, H2. congruence.
Qed.

(** C2, where the code departs from it.  The prepared late data set has
    its columns but no row, for every batch, and late grading returns the
    frame [pd.DataFrame([])], which has no columns; [combine_grades]
    subscripts it by ['patient_id'], so no run of the processing route
    produces a combined output.  For one patient observed on days 5 and 40,
    with a baseline date on every row, early grading returns the record of
    the patient and every run raises [KeyError('patient_id')].  The defaults
    of the claim are what [combine_grades] gives a patient without a late
    record when the late-grade frame has its columns. *)
Theorem C2_no_combined_output :
  let df := [obs_fu60 5 (Some (800#1)%Q); obs_fu60 40 (Some (800#1)%Q)] in
  (forall r, r ∈ df -> is_Some (RawObservation.cart_date r)) /\
  _prepare_late_data df no_settings = Frame [] /\
  (exists processed_data early_rows,
     grade_both df no_settings = Ok (processed_data, Frame early_rows, NoColumns) /\
     map EarlyGrade.patient_id early_rows = ["P1"]) /\
  (forall out, process_icaht df no_settings out -> out = Raise (KeyError "patient_id")) /\
  (forall df' settings,
     _prepare_late_data df' settings = Frame [] /\
     grade_late_icaht (_prepare_late_data df' settings) = Ok NoColumns /\
     forall out, process_icaht df' settings out -> exists e, out = Raise e) /\
  (forall early_rows late_rows patient_id,
     patient_id ∉ map LateGrade.patient_id late_rows ->
     let c := combine_row early_rows late_rows patient_id in
     Combined.late_icaht_grade c = "Grade 0" /\
     Combined.anc_1 c = None /\ Combined.anc_2 c = None /\
     Combined.anc_count c = Some 0).
Proof.
  intros df.
  assert (Hgrades : exists processed_data early_rows,
             grade_both df no_settings = Ok (processed_data, Frame early_rows, NoColumns) /\
             map EarlyGrade.patient_id early_rows = ["P1"]).
  { destruct (grade_both df no_settings) as [[[processed_data early_grades] late_grades]|e]
      eqn:Hg; vm_compute in Hg; [|discriminate].
    inversion Hg; subst; clear Hg. do 2 eexists. split; reflexivity. }
  split; [|split; [|split; [|split; [|split]]]].
  - intros r Hr. unfold df in Hr. rewrite !elem_of_cons, elem_of_nil in Hr.
    destruct Hr as [->|[->|[]]]; by eexists.
  - apply prepare_late_data_empty.
  - exact Hgrades.
  - intros out. unfold process_icaht.
    destruct Hgrades as (processed_data & early_rows & -> & _).
    intros (final & Hfinal & ->). unfold combine_grades in Hfinal. simpl in Hfinal.
    by subst final.
  - intros df' settings. split; [apply prepare_late_data_empty|].
    split; [by rewrite prepare_late_data_empty|].
    apply process_icaht_raises.
  - intros early_rows late_rows patient_id Hnot.
    apply combine_row_late_defaults. apply filter_nil_all_false.
    intros r Hr. apply bool_decide_eq_false_2. intros Heq. apply Hnot.
    rewrite <- Heq. apply list_elem_of_fmap. by exists r.
Qed.

(** ** Interpolation *)

Section Interpolation.
Implicit Types (s : list (option Q)) (limit x j : nat).
Local Open Scope nat_scope.

Lemma limit_window_lookup limit x s i :
  limit_window limit x s !! i =
  if decide (i < x + limit + 1 - (x - limit)) then s !! (x - limit + i) else None.
Proof.
  unfold limit_window. case_decide.
  - by rewrite lookup_take_lt, lookup_drop.
  - apply lookup_take_ge. lia.
Qed.

(** An absent cell is preserved exactly when the whole window of [limit]
    positions on both sides of it is absent. *)
Lemma preserve_nan_spec limit x s :
  preserve_nan limit x s = true <->
  forall j, x - limit <= j <= x + limit -> j < length s -> s !! j = Some None.
Proof.
  unfold preserve_nan. rewrite forallb_forall. split.
  - intros H j Hj Hlen.
    destruct (lookup_lt_is_Some_2 s j Hlen) as [cell Hcell].
    rewrite Hcell. f_equal.
    assert (Hin : cell ∈ limit_window limit x s).
    { apply list_elem_of_lookup. exists (j - (x - limit)).
      rewrite limit_window_lookup. case_decide; [|lia].
      rewrite <- Hcell. f_equal. lia. }
    apply list_elem_of_In, H in Hin. by destruct cell.
  - intros H cell Hin. apply list_elem_of_In, list_elem_of_lookup in Hin.
    destruct Hin as [i Hi]. rewrite limit_window_lookup in Hi.
    case_decide; [|discriminate].
    rewrite (H (x - limit + i)) in Hi.
    + by inversion Hi.
    + lia.
    + by apply lookup_lt_Some in Hi.
Qed.

Lemma known_points_elem s j q :
  (j, q) ∈ known_points s <-> s !! j = Some (Some q).
Proof.
  unfold known_points. rewrite list_elem_of_omap. split.
  - intros (c & Hc & Heq). apply elem_of_lookup_imap in Hc.
    destruct Hc as (i & cell & -> & Hi).
    destruct cell as [q'|]; simpl in Heq; inversion Heq; by subst.
  - intros Hj. exists (Some (j, q)). split; [|reflexivity].
    apply elem_of_lookup_imap. by exists j, (Some q).
Qed.

Lemma np_interp_is_Some s x j q :
  s !! j = Some (Some q) -> j <> x -> is_Some (np_interp s x).
Proof.
  intros Hj Hne. apply known_points_elem in Hj. unfold np_interp.
  destruct (decide (j < x)) as [Hlt|Hge].
  - assert (Hb : is_Some (known_before s x)).
    { unfold known_before. apply last_is_Some. intros Hnil.
      assert (Hin : In (j, q) (List.filter (fun p => p.1 <? x) (known_points s))).
      { apply filter_In. split; [by apply list_elem_of_In|]. simpl.
        by apply Nat.ltb_lt. }
      by rewrite Hnil in Hin. }
    destruct Hb as [[x0 y0] ->].
    destruct (known_after s x) as [[x1 y1]|]; by eexists.
  - assert (Ha : is_Some (known_after s x)).
    { unfold known_after. apply head_is_Some. intros Hnil.
      assert (Hin : In (j, q) (List.filter (fun p => x <? p.1) (known_points s))).
      { apply filter_In. split; [by apply list_elem_of_In|]. simpl.
        apply Nat.ltb_lt. lia. }
      by rewrite Hnil in Hin. }
    destruct Ha as [[x1 y1] ->].
    destruct (known_before s x) as [[x0 y0]|]; by eexists.
Qed.

Lemma Series_interpolate_lookup limit s x :
  Series_interpolate limit s !! x =
  (fun cell => match cell with
               | Some q => Some q
               | None => if preserve_nan limit x s then None else np_interp s x
               end) <$> s !! x.
Proof. unfold Series_interpolate. apply list_lookup_imap. Qed.

(** An absent cell stays absent exactly when no present cell lies within
    [limit] positions of it. *)
Lemma Series_interpolate_absent limit s x :
  s !! x = Some None ->
  (Series_interpolate limit s !! x = Some None <->
   forall j, x - limit <= j <= x + limit -> j < length s -> s !! j = Some None).
Proof.
  intros Hx. rewrite Series_interpolate_lookup, Hx. simpl.
  rewrite <- preserve_nan_spec.
  destruct (preserve_nan limit x s) eqn:Hp; [done|].
  split; [|discriminate]. intros Hnone. exfalso.
  assert (Hsome : is_Some (np_interp s x)).
  { destruct (known_points s) as [|[j q] tl] eqn:Hk.
    - assert (Hall : preserve_nan limit x s = true); [|congruence].
      apply preserve_nan_spec. intros j _ Hlen.
      destruct (lookup_lt_is_Some_2 s j Hlen) as [[q|] Hcell]; [|done].
      apply known_points_elem in Hcell. rewrite Hk in Hcell.
      by apply elem_of_nil in Hcell.
    - assert (Hj : s !! j = Some (Some q))
        by (apply known_points_elem; rewrite Hk; left).
      apply (np_interp_is_Some s x j q Hj). intros ->. congruence. }
  destruct Hsome as [v Hv]. rewrite Hv in Hnone. discriminate.
Qed.
Lemma known_points_from k s :
  omap id (imap (fun i cell => (fun q => (k + i, q)) <$> cell) s) = known_from k s.
Proof.
  revert k. induction s as [|cell s IH]; intros k; [reflexivity|].
  rewrite imap_cons.
  rewrite (imap_ext _ (fun i cell => (fun q => (S k + i, q)) <$> cell))
    by (intros i c _; simpl; destruct c; simpl; do 2 f_equal; lia).
  destruct cell as [q|]; simpl.
  - rewrite Nat.add_0_r. f_equal. apply (IH (S k)).
  - apply (IH (S k)).
Qed.

Lemma known_points_known_from s : known_points s = known_from 0 s.
Proof. apply (known_points_from 0). Qed.

Lemma known_from_app k s1 s2 :
  known_from k (s1 ++ s2) = known_from k s1 ++ known_from (k + length s1) s2.
Proof.
  revert k. induction s1 as [|cell s1 IH]; intros k; simpl.
  - by rewrite Nat.add_0_r.
  - rewrite IH. replace (S k + length s1) with (k + S (length s1)) by lia.
    by destruct cell.
Qed.

Lemma known_from_all_absent k s :
  (forall j, j < length s -> s !! j = Some None) -> known_from k s = [].
Proof.
  revert k. induction s as [|cell s IH]; intros k H; [reflexivity|].
  pose proof (H 0 ltac:(simpl; lia)) as H0. simpl in H0. inversion H0; subst.
  simpl. apply IH. intros j Hj. apply (H (S j)). simpl. lia.
Qed.

Lemma known_from_leading k s first q :
  s !! first = Some (Some q) ->
  (forall j, j < first -> s !! j = Some None) ->
  exists tl, known_from k s = (k + first, q) :: tl.
Proof.
  revert k s. induction first as [|first IH]; intros k s Hq Hnone.
  - destruct s as [|cell s]; [discriminate|]. simpl in Hq. inversion Hq; subst.
    simpl. rewrite Nat.add_0_r. by eexists.
  - destruct s as [|cell s]; [discriminate|].
    pose proof (Hnone 0 ltac:(lia)) as H0. simpl in H0. inversion H0; subst.
    simpl. destruct (IH (S k) s Hq) as [tl Htl].
    + intros j Hj. apply (Hnone (S j)). lia.
    + exists tl. rewrite Htl. do 2 f_equal. lia.
Qed.

(** Before the first present cell [np.interp] returns its value. *)
Lemma np_interp_leading s first q x :
  s !! first = Some (Some q) ->
  (forall j, j < first -> s !! j = Some None) ->
  x < first -> np_interp s x = Some q.
Proof.
  intros Hq Hnone Hx. unfold np_interp, known_before, known_after.
  rewrite (filter_nil_all_false (fun p => p.1 <? x)).
  - rewrite known_points_known_from.
    destruct (known_from_leading 0 s first q Hq Hnone) as [tl ->]. simpl.
    destruct (Nat.ltb_spec x first); [reflexivity|lia].
  - intros [j q'] Hj. simpl. apply Nat.ltb_ge.
    apply known_points_elem in Hj.
    destruct (decide (x <= j)); [assumption|].
    rewrite (Hnone j) in Hj by lia. discriminate.
Qed.

(** After the last present cell [np.interp] returns its value. *)
Lemma np_interp_trailing s last_known q x :
  s !! last_known = Some (Some q) ->
  (forall j, last_known < j -> j < length s -> s !! j = Some None) ->
  last_known < x -> np_interp s x = Some q.
Proof.
  intros Hq Hnone Hx. unfold np_interp, known_before, known_after.
  rewrite (filter_nil_all_false (fun p => x <? p.1)).
  - rewrite known_points_known_from.
    rewrite <- (take_drop_middle s last_known (Some q) Hq).
    rewrite known_from_app. simpl.
    rewrite (known_from_all_absent _ (drop (S last_known) s)).
    + rewrite List.filter_app. simpl.
      pose proof (lookup_lt_Some _ _ _ Hq) as Hlen.
      rewrite length_take_le by lia.
      destruct (Nat.ltb_spec last_known x); [|lia].
      rewrite last_snoc. reflexivity.
    + intros j Hj. rewrite lookup_drop. rewrite length_drop in Hj.
      apply Hnone; lia.
  - intros [j q'] Hj. simpl. apply Nat.ltb_ge.
    apply known_points_elem in Hj.
    destruct (decide (j <= x)); [assumption|].
    rewrite (Hnone j) in Hj; [discriminate|lia|by apply lookup_lt_Some in Hj].
Qed.

End Interpolation.

Lemma rmap_list_Forall2 {A B : Type} (f : A -> result B) (l : list A) (outs : list B) :
  rmap_list f l = Ok outs -> Forall2 (fun a o => f a = Ok o) l outs.
Proof.
  revert outs. induction l as [|a l IH]; intros outs; simpl.
  - intros H. inversion H. constructor.
  - destruct (f a) as [b|e] eqn:Hfa; simpl; [|discriminate].
    destruct (rmap_list f l) as [bs|e]; simpl; [|discriminate].
    intros H. inversion H; subst. constructor; [exact Hfa|by apply IH].
Qed.

Lemma frame_rows_pd_DataFrame {R : Type} (records : list R) :
  frame_rows (pd_DataFrame records) = records.
Proof. by destruct records. Qed.

Lemma interpolate_anc_values_patients (rows : list SeriesRow.t) (settings : Settings.t)
    (out : DataFrame EarlyRow.t) :
  _interpolate_anc_values (Frame rows) settings = Ok out ->
  exists outs,
    out = Frame (concat outs) /\
    Forall2 (fun patient_id o =>
               interpolate_patient (default 7 (Settings.max_gap_days settings))
                 (forallb SeriesRow.anc_is_int rows)
                 (List.filter
                    (fun r => bool_decide (SeriesRow.patient_id r = patient_id)) rows)
               = Ok o)
      (unique (map SeriesRow.patient_id rows)) outs.
Proof.
  unfold _interpolate_anc_values. cbn [column mbind result_bind].
  destruct (rmap_list _ _) as [outs|e] eqn:Hmap; [|discriminate].
  apply rmap_list_Forall2 in Hmap.
  unfold pd_concat. destruct outs as [|o outs']; [discriminate|].
  intros H. inversion H; subst. exists (o :: outs'). split; [reflexivity|exact Hmap].
Qed.

(** ** The early series, day by day *)

Lemma sort_by_increasing {A : Type} (key : A -> Z) (l : list A) :
  (forall (i j : nat) a b, l !! i = Some a -> l !! j = Some b -> (i < j)%nat ->
                           key a <= key b) ->
  sort_by (fun a b => key a <=? key b) l = l.
Proof.
  induction l as [|x l IH]; intros Hinc; [reflexivity|].
  unfold sort_by in *. simpl. rewrite IH.
  - destruct l as [|y l']; [reflexivity|]. simpl.
    destruct (Z.leb_spec (key x) (key y)) as [|Hlt]; [reflexivity|].
    specialize (Hinc 0%nat 1%nat x y eq_refl eq_refl ltac:(lia)). lia.
  - intros i j a b Hi Hj Hij. apply (Hinc (S i) (S j)); (assumption || lia).
Qed.

Lemma filter_all_true {A : Type} (p : A -> bool) (l : list A) :
  (forall x, x ∈ l -> p x = true) -> List.filter p l = l.
Proof.
  induction l as [|x l IH]; intros H; simpl; [reflexivity|].
  rewrite (H x) by left. f_equal. apply IH. intros y Hy. apply H. by right.
Qed.

(** Selecting one key from a frame built patient by patient gives back the
    part of that patient. *)
Lemma filter_concat_parts {K B : Type} `{EqDecision K} (key : B -> K)
    (part : K -> list B) (ks : list K) (k : K) :
  NoDup ks -> k ∈ ks ->
  (forall k' b, k' ∈ ks -> b ∈ part k' -> key b = k') ->
  List.filter (fun b => bool_decide (key b = k)) (concat (map part ks)) = part k.
Proof.
  induction ks as [|a ks IH]; intros Hnd Hk Hkey.
  - by apply elem_of_nil in Hk.
  - apply NoDup_cons in Hnd. destruct Hnd as [Ha Hnd]. simpl.
    rewrite List.filter_app.
    destruct (decide (a = k)) as [->|Hne].
    + rewrite filter_all_true.
      * rewrite filter_nil_all_false; [by rewrite app_nil_r|].
        intros b Hb. apply bool_decide_eq_false_2. intros Heq.
        apply list_elem_of_In, in_concat in Hb. destruct Hb as (bs & Hbs & Hb).
        apply in_map_iff in Hbs. destruct Hbs as (k' & <- & Hk').
        apply list_elem_of_In in Hk', Hb.
        rewrite (Hkey k' b) in Heq by (by right || assumption).
        by subst.
      * intros b Hb. apply bool_decide_eq_true_2. apply Hkey; [left|assumption].
    + rewrite filter_nil_all_false.
      * simpl. apply IH; [assumption| |].
        -- apply elem_of_cons in Hk. destruct Hk as [->|]; [done|assumption].
        -- intros k' b Hk' Hb. apply Hkey; [by right|assumption].
      * intros b Hb. apply bool_decide_eq_false_2.
        rewrite (Hkey a b) by (left || assumption). assumption.
Qed.

Lemma Forall2_Ok_map {A B : Type} (f : A -> result (list B)) (l : list A)
    (outs : list (list B)) :
  Forall2 (fun a o => f a = Ok o) l outs ->
  outs = map (fun a => match f a with Ok o => o | Raise _ => [] end) l.
Proof.
  induction 1 as [|a o l outs Ha _ IH]; simpl; [reflexivity|].
  by rewrite Ha, IH.
Qed.

(** The rows of [complete_patient]: one for each day from 0 on, in order. *)
Lemma complete_patient_lookup (max_days : Z) (patient_id : string)
    (patient_data : list SeriesRow.t) (x : nat) (r : SeriesRow.t) :
  (forall r', r' ∈ patient_data -> SeriesRow.patient_id r' = patient_id) ->
  complete_patient max_days patient_id patient_data !! x = Some r ->
  SeriesRow.time_post_inf r = Z.of_nat x /\ SeriesRow.patient_id r = patient_id.
Proof.
  intros Hpid. unfold complete_patient.
  destruct patient_data as [|first rest]; [discriminate|].
  remember (first :: rest) as patient_data eqn:Hpd.
  set (n := _ + 1).
  change (map ?f (seqZ 0 n)) with (f <$> seqZ 0 n).
  rewrite list_lookup_fmap. intros H.
  destruct (seqZ 0 n !! x) as [day|] eqn:Hday; [|discriminate].
  apply lookup_seqZ in Hday. destruct Hday as [-> _].
  cbn [fmap option_fmap option_map] in H. inversion H as [Hr]; clear H Hr.
  destruct (List.filter _ patient_data) as [|day_data ?] eqn:Hf.
  - cbn [SeriesRow.time_post_inf SeriesRow.patient_id]. split; [lia|reflexivity].
  - assert (Hin : In day_data
                    (List.filter (fun r => SeriesRow.time_post_inf r =? 0 + Z.of_nat x)
                       patient_data))
      by (rewrite Hf; by left).
    apply filter_In in Hin. destruct Hin as [Hin Heq]. split; [lia|].
    apply Hpid. by apply list_elem_of_In.
Qed.

Lemma interpolate_patient_sorted (max_gap : Z) (int_column : bool)
    (patient_rows : list SeriesRow.t) (out : list EarlyRow.t) :
  (forall (x : nat) r, patient_rows !! x = Some r ->
                       SeriesRow.time_post_inf r = Z.of_nat x) ->
  interpolate_patient max_gap int_column patient_rows = Ok out ->
  out = zip_with interpolated_row patient_rows
          (Series_interpolate (Z.to_nat max_gap) (map SeriesRow.anc patient_rows)).
Proof.
  intros Hdays. unfold interpolate_patient.
  destruct ((max_gap <? 1) && negb int_column); [discriminate|].
  unfold by_series_day. rewrite (sort_by_increasing SeriesRow.time_post_inf).
  - destruct (forallb fits_Int64 _); [|discriminate]. intros H. by inversion H.
  - intros i j a b Hi Hj Hij. rewrite (Hdays i a Hi), (Hdays j b Hj). lia.
Qed.

(** The early frame, patient by patient: the rows of a patient are the rows
    of the completed series of that patient, one for each day from day 0 on
    and in that order, each with its interpolated cell. *)
Lemma prepare_early_data_grouped (df : list RawObservation.t) (settings : Settings.t) :
  _prepare_early_data df settings =
  _interpolate_anc_values
    (_create_complete_timeseries
       (early_grouped df (default 30 (Settings.early_days settings)))
       (default 30 (Settings.early_days settings))) settings.
Proof. reflexivity. Qed.

(** The early frame is made of one part for each of its patients: the
    completed series of the patient with its interpolated cells. *)
Lemma prepare_early_data_parts (df : list RawObservation.t) (settings : Settings.t)
    (out : DataFrame EarlyRow.t) :
  _prepare_early_data df settings = Ok out ->
  let max_days := default 30 (Settings.early_days settings) in
  let max_gap := default 7 (Settings.max_gap_days settings) in
  let cpart := fun p =>
    complete_patient max_days p
      (List.filter (fun r => bool_decide (SeriesRow.patient_id r = p))
         (early_grouped df max_days)) in
  exists pids : list string,
    NoDup pids /\
    frame_rows out =
      concat (map (fun p => zip_with interpolated_row (cpart p)
                              (Series_interpolate (Z.to_nat max_gap)
                                 (map SeriesRow.anc (cpart p)))) pids) /\
    forall p (x : nat) r, cpart p !! x = Some r ->
      SeriesRow.time_post_inf r = Z.of_nat x /\ SeriesRow.patient_id r = p.
Proof.
  rewrite prepare_early_data_grouped.
  set (max_days := default 30 (Settings.early_days settings)).
  set (grouped := early_grouped df max_days).
  intros Hout. cbv zeta.
  set (max_gap := default 7 (Settings.max_gap_days settings)).
  set (cpart := fun p =>
         complete_patient max_days p
           (List.filter (fun r => bool_decide (SeriesRow.patient_id r = p)) grouped)).
  assert (Hcpart : forall p (x : nat) r, cpart p !! x = Some r ->
             SeriesRow.time_post_inf r = Z.of_nat x /\ SeriesRow.patient_id r = p).
  { intros p x r. apply complete_patient_lookup.
    intros r' Hr'. apply list_elem_of_In, filter_In in Hr'.
    destruct Hr' as [_ Hr']. by apply bool_decide_eq_true in Hr'. }
  assert (Hcpart_in : forall p r, r ∈ cpart p -> SeriesRow.patient_id r = p).
  { intros p r Hr. apply list_elem_of_lookup in Hr. destruct Hr as [x Hx].
    exact (proj2 (Hcpart p x r Hx)). }
  destruct (unique_spec (map SeriesRow.patient_id grouped)) as [Hnd0 _].
  set (pids0 := unique (map SeriesRow.patient_id grouped)) in *.
  unfold _create_complete_timeseries in Hout. fold cpart in Hout. fold pids0 in Hout.
  set (rows := concat (map cpart pids0)) in *.
  destruct rows as [|row0 rows'] eqn:Hrows; [discriminate|].
  rewrite <- Hrows in *. clear row0 rows' Hrows.
  assert (Hfr : pd_DataFrame rows = Frame rows).
  { assert (Hne : rows <> []).
    { intros Hnil. rewrite Hnil in Hout. discriminate. }
    destruct rows; [done|reflexivity]. }
  rewrite Hfr in Hout.
  apply interpolate_anc_values_patients in Hout. fold max_gap in Hout.
  destruct Hout as (outs & -> & Hall).
  destruct (unique_spec (map SeriesRow.patient_id rows)) as [Hnd Hmem].
  set (pids := unique (map SeriesRow.patient_id rows)) in *.
  assert (Hsub : forall p, p ∈ pids -> p ∈ pids0).
  { intros p Hp. apply Hmem in Hp. apply list_elem_of_In, in_map_iff in Hp.
    destruct Hp as (r & <- & Hr). unfold rows in Hr.
    apply in_concat in Hr. destruct Hr as (rs & Hrs & Hr).
    apply in_map_iff in Hrs. destruct Hrs as (p' & <- & Hp').
    rewrite (Hcpart_in p' r) by (by apply list_elem_of_In).
    by apply list_elem_of_In. }
  assert (Hfilter : forall p, p ∈ pids ->
             List.filter (fun r => bool_decide (SeriesRow.patient_id r = p)) rows = cpart p).
  { intros p Hp. unfold rows.
    apply (filter_concat_parts SeriesRow.patient_id cpart pids0 p Hnd0 (Hsub p Hp)).
    intros k' b _. apply Hcpart_in. }
  assert (Hparts : forall p o, p ∈ pids ->
             interpolate_patient max_gap (forallb SeriesRow.anc_is_int rows)
               (List.filter (fun r => bool_decide (SeriesRow.patient_id r = p)) rows) = Ok o ->
             o = zip_with interpolated_row (cpart p)
                   (Series_interpolate (Z.to_nat max_gap) (map SeriesRow.anc (cpart p)))).
  { intros p o Hp Ho. rewrite (Hfilter p Hp) in Ho.
    apply interpolate_patient_sorted in Ho; [exact Ho|].
    intros x r Hx. exact (proj1 (Hcpart p x r Hx)). }
  exists pids. split; [exact Hnd|]. split; [|exact Hcpart].
  simpl. f_equal.
  rewrite (Forall2_Ok_map _ _ _ Hall).
  apply map_ext_in. intros p Hp. apply list_elem_of_In in Hp.
  pose proof Hp as Hp'. apply list_elem_of_lookup in Hp'. destruct Hp' as [i Hi].
  destruct (Forall2_lookup_l _ _ _ _ _ Hall Hi) as (o & _ & Ho).
  rewrite Ho. exact (Hparts p o Hp Ho).
Qed.

Lemma prepare_early_data_view (df : list RawObservation.t) (settings : Settings.t)
    (out : DataFrame EarlyRow.t) :
  _prepare_early_data df settings = Ok out ->
  let max_gap := default 7 (Settings.max_gap_days settings) in
  exists (pids : list string) (cpart : string -> list SeriesRow.t),
    NoDup pids /\
    frame_rows out =
      concat (map (fun p => zip_with interpolated_row (cpart p)
                              (Series_interpolate (Z.to_nat max_gap)
                                 (map SeriesRow.anc (cpart p)))) pids) /\
    forall p (x : nat) r, cpart p !! x = Some r ->
      SeriesRow.time_post_inf r = Z.of_nat x /\ SeriesRow.patient_id r = p.
Proof.
  intros Hout. destruct (prepare_early_data_parts df settings out Hout)
    as (pids & Hnd & Hrows & Hcpart).
  cbv zeta. eexists pids, _. split; [exact Hnd|]. split; [exact Hrows|exact Hcpart].
Qed.

(** The early frame, day by day.  Each patient of the frame has a series of
    raw cells, one for each day from day 0 on: the row of day [x] carries
    the raw cell and the interpolated cell of position [x] of that series,
    and every cell of the series is the raw value of a row of the frame. *)
Lemma early_frame_days (df : list RawObservation.t) (settings : Settings.t)
    (out : DataFrame EarlyRow.t) :
  _prepare_early_data df settings = Ok out ->
  let max_gap := default 7 (Settings.max_gap_days settings) in
  exists series : string -> list (option Q),
    (forall r', r' ∈ frame_rows out ->
       exists (x : nat) cell,
         EarlyRow.time_post_inf r' = Z.of_nat x /\
         series (EarlyRow.patient_id r') !! x = Some (EarlyRow.anc r') /\
         Series_interpolate (Z.to_nat max_gap) (series (EarlyRow.patient_id r')) !! x
           = Some cell /\
         EarlyRow.anc_interpolated r' = round_tens <$> cell /\
         EarlyRow.anc_final r' =
           match EarlyRow.anc r' with
           | Some q => Some q
           | None => inject_Z <$> (round_tens <$> cell)
           end) /\
    (forall p (x : nat) a, series p !! x = Some a ->
       exists r', r' ∈ frame_rows out /\ EarlyRow.patient_id r' = p /\
                  EarlyRow.time_post_inf r' = Z.of_nat x /\ EarlyRow.anc r' = a).
Proof.
  intros Hout. destruct (prepare_early_data_view df settings out Hout)
    as (pids & cpart & Hnd & Hrows & Hcpart).
  cbv zeta. set (max_gap := default 7 (Settings.max_gap_days settings)) in *.
  set (part := fun p => zip_with interpolated_row (cpart p)
                          (Series_interpolate (Z.to_nat max_gap)
                             (map SeriesRow.anc (cpart p)))) in *.
  assert (Helem : forall r', r' ∈ frame_rows out <->
             exists p (x : nat) r cell,
               p ∈ pids /\ cpart p !! x = Some r /\
               Series_interpolate (Z.to_nat max_gap) (map SeriesRow.anc (cpart p)) !! x
                 = Some cell /\
               r' = interpolated_row r cell).
  { intros r'. rewrite Hrows. split.
    - intros Hr'. apply list_elem_of_In, in_concat in Hr'.
      destruct Hr' as (o & Ho & Hr'). apply in_map_iff in Ho.
      destruct Ho as (p & <- & Hp). apply list_elem_of_In, list_elem_of_lookup in Hr'.
      destruct Hr' as [x Hx]. apply lookup_zip_with_Some in Hx.
      destruct Hx as (r & cell & -> & Hr & Hcell).
      exists p, x, r, cell. repeat split; try assumption. by apply list_elem_of_In.
    - intros (p & x & r & cell & Hp & Hr & Hcell & ->).
      apply list_elem_of_In, in_concat. exists (part p). split.
      + apply in_map. by apply list_elem_of_In.
      + apply list_elem_of_In, list_elem_of_lookup. exists x.
        apply lookup_zip_with_Some. by exists r, cell. }
  exists (fun p => if decide (p ∈ pids) then map SeriesRow.anc (cpart p) else []).
  split.
  - intros r' Hr'. apply Helem in Hr'.
    destruct Hr' as (p & x & r & cell & Hp & Hr & Hcell & ->).
    destruct (Hcpart p x r Hr) as [Hday Hpid].
    exists x, cell. cbn [interpolated_row EarlyRow.time_post_inf EarlyRow.patient_id
                          EarlyRow.anc EarlyRow.anc_interpolated EarlyRow.anc_final].
    rewrite Hpid. destruct (decide (p ∈ pids)) as [_|]; [|done].
    repeat split; try assumption.
    change (map SeriesRow.anc (cpart p)) with (SeriesRow.anc <$> cpart p).
    by rewrite list_lookup_fmap, Hr.
  - intros p x a Ha. destruct (decide (p ∈ pids)) as [Hp|]; [|discriminate].
    change (map SeriesRow.anc (cpart p)) with (SeriesRow.anc <$> cpart p) in Ha.
    rewrite list_lookup_fmap in Ha.
    destruct (cpart p !! x) as [r|] eqn:Hr; [|discriminate].
    simpl in Ha. inversion Ha; subst a; clear Ha.
    destruct (Hcpart p x r Hr) as [Hday Hpid].
    destruct (Series_interpolate (Z.to_nat max_gap) (map SeriesRow.anc (cpart p)) !! x)
      as [cell|] eqn:Hcell.
    + exists (interpolated_row r cell). split; [|by repeat split].
      apply Helem. by exists p, x, r, cell.
    + exfalso. rewrite Series_interpolate_lookup in Hcell.
      change (map SeriesRow.anc (cpart p)) with (SeriesRow.anc <$> cpart p) in Hcell.
      rewrite list_lookup_fmap, Hr in Hcell. discriminate.
Qed.

(** A day of the early frame without a raw value keeps an absent
    interpolated and final value exactly when the patient has no raw value
    within [max_gap_days] days of it, before or after. *)
Lemma early_frame_fill (df : list RawObservation.t) (settings : Settings.t)
    (out : DataFrame EarlyRow.t) :
  _prepare_early_data df settings = Ok out ->
  let max_gap := default 7 (Settings.max_gap_days settings) in
  let rows := frame_rows out in
  forall r', r' ∈ rows -> EarlyRow.anc r' = None ->
    (EarlyRow.anc_interpolated r' = None <-> EarlyRow.anc_final r' = None) /\
    (EarlyRow.anc_final r' = None <->
     forall r'', r'' ∈ rows ->
       EarlyRow.patient_id r'' = EarlyRow.patient_id r' ->
       - max_gap <= EarlyRow.time_post_inf r'' - EarlyRow.time_post_inf r' <= max_gap ->
       EarlyRow.anc r'' = None).
Proof.
  intros Hout. destruct (early_frame_days df settings out Hout) as (series & HA & HB).
  cbv zeta. set (max_gap := default 7 (Settings.max_gap_days settings)) in *.
  set (rows := frame_rows out) in *.
  intros r' Hr' Hnone.
  destruct (HA r' Hr') as (x & cell & Hday & Hraw & Hcell & Hinterp & Hfinal).
  rewrite Hnone in Hraw, Hfinal. rewrite Hinterp, Hfinal.
  split; [by destruct cell|].
  transitivity (Series_interpolate (Z.to_nat max_gap)
                  (series (EarlyRow.patient_id r')) !! x = Some None).
  { rewrite Hcell. destruct cell; simpl; split; (congruence || discriminate). }
  rewrite (Series_interpolate_absent _ _ _ Hraw). split.
  - intros Hwin r'' Hr'' Hpid Hnear.
    destruct (HA r'' Hr'') as (x'' & _ & Hday'' & Hraw'' & _).
    rewrite Hpid in Hraw''.
    rewrite (Hwin x'') in Hraw''; [congruence|lia|by apply lookup_lt_Some in Hraw''].
  - intros Hdays j Hj Hlen.
    destruct (decide (j = x)) as [->|Hne]; [exact Hraw|].
    destruct (lookup_lt_is_Some_2 _ _ Hlen) as [a Ha]. rewrite Ha. f_equal.
    destruct (HB _ _ _ Ha) as (r'' & Hr'' & Hpid & Hday'' & <-).
    apply Hdays; [assumption|assumption|lia].
Qed.

(** C7, where the code departs from it.  The code passes [max_gap_days] to
    the interpolation as the number of days that may be filled from each
    side of a run: a day without a raw value keeps an absent interpolated
    and final value exactly when the patient has no raw value within
    [max_gap_days] days of it, before or after.  Hence in a run of days
    without a raw value between two days that have one, the days left
    absent are those more than [max_gap_days] days away from both; a run
    longer than [max_gap_days] is never left entirely absent, and a run of
    at most twice [max_gap_days] days is filled entirely. *)
Theorem C7_gap_limit (df : list RawObservation.t) (settings : Settings.t)
    (out : DataFrame EarlyRow.t) :
  _prepare_early_data df settings = Ok out ->
  let max_gap := default 7 (Settings.max_gap_days settings) in
  let rows := frame_rows out in
  (forall r', r' ∈ rows -> EarlyRow.anc r' = None ->
     (EarlyRow.anc_interpolated r' = None <-> EarlyRow.anc_final r' = None) /\
     (EarlyRow.anc_final r' = None <->
      forall r'', r'' ∈ rows ->
        EarlyRow.patient_id r'' = EarlyRow.patient_id r' ->
        - max_gap <= EarlyRow.time_post_inf r'' - EarlyRow.time_post_inf r' <= max_gap ->
        EarlyRow.anc r'' = None)) /\
  (forall ra rb r' qa qb,
     ra ∈ rows -> rb ∈ rows -> r' ∈ rows ->
     EarlyRow.patient_id ra = EarlyRow.patient_id r' ->
     EarlyRow.patient_id rb = EarlyRow.patient_id r' ->
     EarlyRow.anc ra = Some qa -> EarlyRow.anc rb = Some qb ->
     EarlyRow.time_post_inf ra < EarlyRow.time_post_inf r' < EarlyRow.time_post_inf rb ->
     (forall r'', r'' ∈ rows ->
        EarlyRow.patient_id r'' = EarlyRow.patient_id r' ->
        EarlyRow.time_post_inf ra < EarlyRow.time_post_inf r'' < EarlyRow.time_post_inf rb ->
        EarlyRow.anc r'' = None) ->
     (EarlyRow.anc_final r' = None <->
      max_gap < EarlyRow.time_post_inf r' - EarlyRow.time_post_inf ra /\
      max_gap < EarlyRow.time_post_inf rb - EarlyRow.time_post_inf r') /\
     (EarlyRow.time_post_inf rb - EarlyRow.time_post_inf ra - 1 <= 2 * max_gap ->
      EarlyRow.anc_final r' <> None)).
Proof.
  intros Hout. pose proof (early_frame_fill df settings out Hout) as Hfill.
  cbv zeta in *. set (max_gap := default 7 (Settings.max_gap_days settings)) in *.
  set (rows := frame_rows out) in *.
  split; [exact Hfill|].
  intros ra rb r' qa qb Hra Hrb Hr' Hpa Hpb Hqa Hqb Hbetween Hrun.
  assert (Hnone : EarlyRow.anc r' = None) by (apply Hrun; [assumption|reflexivity|lia]).
  destruct (Hfill r' Hr' Hnone) as [_ Hiff].
  assert (Hgoal : EarlyRow.anc_final r' = None <->
                  max_gap < EarlyRow.time_post_inf r' - EarlyRow.time_post_inf ra /\
                  max_gap < EarlyRow.time_post_inf rb - EarlyRow.time_post_inf r').
  { rewrite Hiff. split.
    - intros H. split.
      + destruct (Z.lt_ge_cases max_gap
                    (EarlyRow.time_post_inf r' - EarlyRow.time_post_inf ra))
          as [|Hle]; [assumption|].
        rewrite (H ra Hra Hpa) in Hqa by lia. discriminate.
      + destruct (Z.lt_ge_cases max_gap
                    (EarlyRow.time_post_inf rb - EarlyRow.time_post_inf r'))
          as [|Hle]; [assumption|].
        rewrite (H rb Hrb Hpb) in Hqb by lia. discriminate.
    - intros [H1 H2] r'' Hr'' Hpid Hnear. apply Hrun; [assumption|assumption|lia]. }
  split; [exact Hgoal|]. intros Hshort Hfinal. apply Hgoal in Hfinal. lia.
Qed.

(** A witness of C7: raw values 400 on day 10 and 600 on day 21 only, with
    [max_gap_days = 7]. *)
Lemma C7_gap_limit_witness :
  exists out,
    _prepare_early_data [obs_day 10 (400#1); obs_day 21 (600#1)]
      (Settings.mk None None (Some 7) None None None) = Ok out /\
    forall r', r' ∈ frame_rows out -> EarlyRow.anc r' = None ->
      (EarlyRow.anc_final r' = None <->
       forall r'', r'' ∈ frame_rows out ->
         EarlyRow.patient_id r'' = EarlyRow.patient_id r' ->
         - 7 <= EarlyRow.time_post_inf r'' - EarlyRow.time_post_inf r' <= 7 ->
         EarlyRow.anc r'' = None).
Proof.
  destruct (_prepare_early_data [obs_day 10 (400#1); obs_day 21 (600#1)]
              (Settings.mk None None (Some 7) None None None))
    as [out|e] eqn:Hout; [|vm_compute in Hout; discriminate].
  exists out. split; [reflexivity|].
  intros r' Hr' Hnone.
  exact (proj2 (proj1 (C7_gap_limit [obs_day 10 (400#1); obs_day 21 (600#1)]
                         (Settings.mk None None (Some 7) None None None) out Hout)
                  r' Hr' Hnone)).
Defined.

(** C7 fails in the code: with known values 400 on day 10 and 600 on day 21
    and [max_gap_days = 7], the ten days 11 to 20 between them all receive
    an interpolated final value; none of them remains absent. *)
Lemma C7_counterexample :
  let df := _prepare_early_data [obs_day 10 (400#1); obs_day 21 (600#1)]
              (Settings.mk None None (Some 7) None None None) in
  final_on_days 10 21 df
  = [(10, Some (400#1)%Q);
     (11, Some (inject_Z 420)); (12, Some (inject_Z 440)); (13, Some (inject_Z 450));
     (14, Some (inject_Z 470)); (15, Some (inject_Z 490)); (16, Some (inject_Z 510));
     (17, Some (inject_Z 530)); (18, Some (inject_Z 550)); (19, Some (inject_Z 560));
     (20, Some (inject_Z 580)); (21, Some (600#1)%Q)] /\
  ~ (forall day v, In (day, v) (final_on_days 11 20 df) -> v = None).
Proof.
  split; [vm_compute; reflexivity|].
  intros H. specialize (H 11 (Some (inject_Z 420))).
  assert (Hin : In (11, Some (inject_Z 420))
                  (final_on_days 11 20
                     (_prepare_early_data [obs_day 10 (400#1); obs_day 21 (600#1)]
                        (Settings.mk None None (Some 7) None None None))))
    by (vm_compute; left; reflexivity).
  apply H in Hin. discriminate.
Qed.

(** C8, as the code has it.  In the early frame, a day before the first day
    of the patient with a raw value receives that value, rounded to a
    multiple of 10, as its interpolated and final value when it is at most
    [max_gap_days] days before it, and keeps absent values when it is
    farther; likewise a day after the last day with a raw value, with the
    last raw value. *)
Theorem C8_edges (df : list RawObservation.t) (settings : Settings.t)
    (out : DataFrame EarlyRow.t) :
  _prepare_early_data df settings = Ok out ->
  let max_gap := default 7 (Settings.max_gap_days settings) in
  let rows := frame_rows out in
  (forall r_first r' q,
     r_first ∈ rows -> r' ∈ rows ->
     EarlyRow.patient_id r' = EarlyRow.patient_id r_first ->
     EarlyRow.anc r_first = Some q ->
     (forall r'', r'' ∈ rows ->
        EarlyRow.patient_id r'' = EarlyRow.patient_id r_first ->
        EarlyRow.time_post_inf r'' < EarlyRow.time_post_inf r_first ->
        EarlyRow.anc r'' = None) ->
     EarlyRow.time_post_inf r' < EarlyRow.time_post_inf r_first ->
     EarlyRow.anc_interpolated r' =
       (if decide (EarlyRow.time_post_inf r_first - EarlyRow.time_post_inf r' <= max_gap)
        then Some (round_tens q) else None) /\
     EarlyRow.anc_final r' = inject_Z <$> EarlyRow.anc_interpolated r') /\
  (forall r_last r' q,
     r_last ∈ rows -> r' ∈ rows ->
     EarlyRow.patient_id r' = EarlyRow.patient_id r_last ->
     EarlyRow.anc r_last = Some q ->
     (forall r'', r'' ∈ rows ->
        EarlyRow.patient_id r'' = EarlyRow.patient_id r_last ->
        EarlyRow.time_post_inf r_last < EarlyRow.time_post_inf r'' ->
        EarlyRow.anc r'' = None) ->
     EarlyRow.time_post_inf r_last < EarlyRow.time_post_inf r' ->
     EarlyRow.anc_interpolated r' =
       (if decide (EarlyRow.time_post_inf r' - EarlyRow.time_post_inf r_last <= max_gap)
        then Some (round_tens q) else None) /\
     EarlyRow.anc_final r' = inject_Z <$> EarlyRow.anc_interpolated r').
Proof.
  intros Hout. destruct (early_frame_days df settings out Hout)
    as (series & HA & HB).
  cbv zeta. set (max_gap := default 7 (Settings.max_gap_days settings)) in *.
  set (rows := frame_rows out) in *.
  split.
  - intros r_first r' q Hrf Hr' Hpid Hq Hfirst Hbefore.
    destruct (HA r_first Hrf) as (f & _ & Hdayf & Hrawf & _).
    destruct (HA r' Hr') as (x & cell & Hday & Hraw & Hcell & Hinterp & Hfinal).
    rewrite Hpid in Hraw, Hcell. rewrite Hq in Hrawf.
    set (s := series (EarlyRow.patient_id r_first)) in *.
    assert (Hlead : forall j : nat, (j < f)%nat -> s !! j = Some None).
    { intros j Hj.
      assert (Hlen : (j < length s)%nat) by (apply lookup_lt_Some in Hrawf; lia).
      destruct (lookup_lt_is_Some_2 _ _ Hlen) as [a Ha]. rewrite Ha. f_equal.
      destruct (HB _ _ _ Ha) as (r'' & Hr'' & Hp'' & Hday'' & <-).
      apply Hfirst; [assumption|assumption|lia]. }
    assert (Hx : (x < f)%nat) by lia.
    rewrite (Hlead x Hx) in Hraw. inversion Hraw as [Hnone].
    rewrite <- Hnone in Hfinal. rewrite Hfinal, Hinterp. split; [|reflexivity].
    rewrite Series_interpolate_lookup, (Hlead x Hx) in Hcell. simpl in Hcell.
    inversion Hcell as [Hc]; clear Hcell.
    case_decide as Hd.
    + destruct (preserve_nan (Z.to_nat max_gap) x s) eqn:Hp.
      * apply preserve_nan_spec with (j := f) in Hp;
          [congruence|lia|by apply lookup_lt_Some in Hrawf].
      * by rewrite (np_interp_leading s f q x Hrawf Hlead Hx).
    + rewrite (proj2 (preserve_nan_spec (Z.to_nat max_gap) x s)); [reflexivity|].
      intros j Hj Hlen. apply Hlead. lia.
  - intros r_last r' q Hrl Hr' Hpid Hq Hlast Hafter.
    destruct (HA r_last Hrl) as (l & _ & Hdayl & Hrawl & _).
    destruct (HA r' Hr') as (x & cell & Hday & Hraw & Hcell & Hinterp & Hfinal).
    rewrite Hpid in Hraw, Hcell. rewrite Hq in Hrawl.
    set (s := series (EarlyRow.patient_id r_last)) in *.
    assert (Htrail : forall j : nat, (l < j)%nat -> (j < length s)%nat ->
                                     s !! j = Some None).
    { intros j Hj Hlen.
      destruct (lookup_lt_is_Some_2 _ _ Hlen) as [a Ha]. rewrite Ha. f_equal.
      destruct (HB _ _ _ Ha) as (r'' & Hr'' & Hp'' & Hday'' & <-).
      apply Hlast; [assumption|assumption|lia]. }
    assert (Hx : (l < x)%nat) by lia.
    assert (Hxlen : (x < length s)%nat) by (by apply lookup_lt_Some in Hraw).
    rewrite (Htrail x Hx Hxlen) in Hraw. inversion Hraw as [Hnone].
    rewrite <- Hnone in Hfinal. rewrite Hfinal, Hinterp. split; [|reflexivity].
    rewrite Series_interpolate_lookup, (Htrail x Hx Hxlen) in Hcell. simpl in Hcell.
    inversion Hcell as [Hc]; clear Hcell.
    case_decide as Hd.
    + destruct (preserve_nan (Z.to_nat max_gap) x s) eqn:Hp.
      * apply preserve_nan_spec with (j := l) in Hp;
          [congruence|lia|by apply lookup_lt_Some in Hrawl].
      * by rewrite (np_interp_trailing s l q x Hrawl Htrail Hx).
    + rewrite (proj2 (preserve_nan_spec (Z.to_nat max_gap) x s)); [reflexivity|].
      intros j Hj Hlen. apply Htrail; lia.
Qed.

(** A witness of C8: raw values on days 10 and 15 only. *)
Lemma C8_edges_witness :
  exists out,
    _prepare_early_data [obs_day 10 (400#1); obs_day 15 (600#1)] no_settings = Ok out /\
    forall r_first r',
      r_first ∈ frame_rows out -> r' ∈ frame_rows out ->
      EarlyRow.time_post_inf r_first = 10 -> EarlyRow.time_post_inf r' = 9 ->
      EarlyRow.anc_final r' = Some (inject_Z 400).
Proof.
  destruct (_prepare_early_data [obs_day 10 (400#1); obs_day 15 (600#1)] no_settings)
    as [out|e] eqn:Hout; [|vm_compute in Hout; discriminate].
  exists out. split; [reflexivity|].
  intros r_first r' Hrf Hr' Hdf Hd'.
  destruct (C8_edges [obs_day 10 (400#1); obs_day 15 (600#1)] no_settings out Hout)
    as [Hlead _].
  vm_compute in Hout. inversion Hout as [Hrows]. rewrite <- Hrows in Hrf, Hr', Hlead.
  clear Hout Hrows.
  assert (Hfirst : EarlyRow.anc r_first = Some (400#1)%Q /\
                   EarlyRow.patient_id r_first = "P1").
  { cbn [frame_rows] in Hrf. repeat (apply elem_of_cons in Hrf; destruct Hrf as [->|Hrf];
      [first [split; reflexivity | vm_compute in Hdf; discriminate]|]).
    by apply elem_of_nil in Hrf. }
  destruct Hfirst as [Hq Hpf].
  assert (Hp' : EarlyRow.patient_id r' = "P1").
  { cbn [frame_rows] in Hr'. repeat (apply elem_of_cons in Hr'; destruct Hr' as [->|Hr'];
      [reflexivity|]).
    by apply elem_of_nil in Hr'. }
  destruct (Hlead r_first r' (400#1)%Q Hrf Hr') as [Hi Hf].
  - by rewrite Hp', Hpf.
  - exact Hq.
  - intros r'' Hr'' _ Hlt. rewrite Hdf in Hlt. cbn [frame_rows] in Hr''.
    repeat (apply elem_of_cons in Hr''; destruct Hr'' as [->|Hr''];
      [first [reflexivity | vm_compute in Hlt; discriminate]|]).
    by apply elem_of_nil in Hr''.
  - rewrite Hdf, Hd'. reflexivity.
  - rewrite Hf, Hi, Hdf, Hd'. reflexivity.
Defined.

(** C8 fails as stated: with raw values 400 on day 10 and 600 on day 15
    only, the days 3 to 9 before the first of them receive the final value
    400 and the days 16 to 22 after the last receive 600. *)
Lemma C8_counterexample :
  let df := _prepare_early_data [obs_day 10 (400#1); obs_day 15 (600#1)] no_settings in
  final_on_days 0 9 df
  = [(0, None); (1, None); (2, None);
     (3, Some (inject_Z 400)); (4, Some (inject_Z 400)); (5, Some (inject_Z 400));
     (6, Some (inject_Z 400)); (7, Some (inject_Z 400)); (8, Some (inject_Z 400));
     (9, Some (inject_Z 400))] /\
  final_on_days 16 30 df
  = [(16, Some (inject_Z 600)); (17, Some (inject_Z 600)); (18, Some (inject_Z 600));
     (19, Some (inject_Z 600)); (20, Some (inject_Z 600)); (21, Some (inject_Z 600));
     (22, Some (inject_Z 600));
     (23, None); (24, None); (25, None); (26, None); (27, None); (28, None);
     (29, None); (30, None)] /\
  ~ (forall day v, In (day, v) (final_on_days 0 9 df) -> v = None) /\
  ~ (forall day v, In (day, v) (final_on_days 16 30 df) -> v = None).
Proof.
  split; [vm_compute; reflexivity|]. split; [vm_compute; reflexivity|]. split.
  - intros H. specialize (H 9 (Some (inject_Z 400))).
    assert (Hin : In (9, Some (inject_Z 400))
                    (final_on_days 0 9
                       (_prepare_early_data [obs_day 10 (400#1); obs_day 15 (600#1)]
                          no_settings)))
      by (vm_compute; do 9 right; left; reflexivity).
    apply H in Hin. discriminate.
  - intros H. specialize (H 16 (Some (inject_Z 600))).
    assert (Hin : In (16, Some (inject_Z 600))
                    (final_on_days 16 30
                       (_prepare_early_data [obs_day 10 (400#1); obs_day 15 (600#1)]
                          no_settings)))
      by (vm_compute; left; reflexivity).
    apply H in Hin. discriminate.
Qed.

(** ** The days of the early frame *)

Lemma complete_patient_days (max_days : Z) (patient_id : string)
    (patient_data : list SeriesRow.t) (r : SeriesRow.t) :
  r ∈ complete_patient max_days patient_id patient_data ->
  0 <= SeriesRow.time_post_inf r <= max_days.
Proof.
  unfold complete_patient. destruct patient_data as [|first rest].
  - intros H. by apply elem_of_nil in H.
  - intros H. apply list_elem_of_fmap in H. destruct H as (day & -> & Hday).
    apply elem_of_seqZ in Hday.
    assert (Hday' : 0 <= day <= max_days)
      by (destruct (SeriesRow.last_fu_date first); lia).
    destruct (List.filter _ _) as [|day_data ?] eqn:Hf; simpl; [exact Hday'|].
    assert (Hin : In day_data (List.filter
                                 (fun r => SeriesRow.time_post_inf r =? day) (first :: rest)))
      by (rewrite Hf; by left).
    apply filter_In in Hin. destruct Hin as [_ Heq]. lia.
Qed.

Lemma interpolate_patient_days (max_gap : Z) (int_column : bool)
    (patient_rows : list SeriesRow.t) (out : list EarlyRow.t) (r' : EarlyRow.t) :
  interpolate_patient max_gap int_column patient_rows = Ok out -> r' ∈ out ->
  exists r, r ∈ patient_rows /\ EarlyRow.time_post_inf r' = SeriesRow.time_post_inf r.
Proof.
  unfold interpolate_patient.
  destruct ((max_gap <? 1) && negb int_column); [discriminate|].
  destruct (forallb fits_Int64 _); [|discriminate].
  intros H Hr'. inversion H; subst; clear H.
  apply list_elem_of_lookup in Hr'. destruct Hr' as [x Hx].
  apply lookup_zip_with_Some in Hx. destruct Hx as (r & cell & -> & Hr & _).
  exists r. split; [|reflexivity].
  apply list_elem_of_lookup_2 in Hr. unfold by_series_day in Hr.
  by rewrite (sort_by_perm SeriesRow.time_post_inf) in Hr.
Qed.

Lemma prepare_early_data_days (df : list RawObservation.t) (settings : Settings.t)
    (out : DataFrame EarlyRow.t) (r' : EarlyRow.t) :
  _prepare_early_data df settings = Ok out -> r' ∈ frame_rows out ->
  0 <= EarlyRow.time_post_inf r' <= default 30 (Settings.early_days settings).
Proof.
  unfold _prepare_early_data.
  set (grouped := omap _ _).
  set (max_days := default 30 (Settings.early_days settings)).
  intros Hout Hr'.
  destruct (_create_complete_timeseries grouped max_days) as [|rows] eqn:Hc;
    [discriminate|].
  apply interpolate_anc_values_patients in Hout.
  destruct Hout as (outs & -> & Hall). simpl in Hr'.
  apply list_elem_of_In, in_concat in Hr'. destruct Hr' as (o & Ho & Hr').
  apply list_elem_of_In, list_elem_of_lookup in Ho. destruct Ho as [i Hi].
  destruct (Forall2_lookup_r _ _ _ _ _ Hall Hi) as (patient_id & _ & Hp).
  apply list_elem_of_In in Hr'.
  destruct (interpolate_patient_days _ _ _ _ _ Hp Hr') as (r & Hr & ->).
  apply list_elem_of_In, filter_In in Hr. destruct Hr as [Hr _].
  assert (Hrows : rows = frame_rows (_create_complete_timeseries grouped max_days))
    by (by rewrite Hc).
  unfold _create_complete_timeseries in Hrows.
  rewrite frame_rows_pd_DataFrame in Hrows. subst rows.
  apply in_concat in Hr. destruct Hr as (rs & Hrs & Hr).
  apply in_map_iff in Hrs. destruct Hrs as (pid & <- & _).
  apply list_elem_of_In in Hr. by apply complete_patient_days in Hr.
Qed.

(** ** The grade tables *)

Ltac decide_comparisons :=
  repeat match goal with
         | |- context [?a =? ?b] => destruct (Z.eqb_spec a b); try lia
         | |- context [?a <=? ?b] => destruct (Z.leb_spec a b); try lia
         | |- context [?a <? ?b] => destruct (Z.ltb_spec a b); try lia
         end; cbn [andb orb].

Ltac duration_regions d500 d100 :=
  assert (H500 : d500 < 0 \/ d500 = 0 \/ 1 <= d500 < 7 \/ 7 <= d500 < 14 \/
                 14 <= d500 < 31 \/ 31 <= d500) by lia;
  assert (H100 : d100 < 0 \/ d100 = 0 \/ 1 <= d100 < 7 \/ 7 <= d100 < 14 \/ 14 <= d100)
    by lia;
  destruct H500 as [?|[?|[?|[?|[?|?]]]]]; destruct H100 as [?|[?|[?|[?|?]]]].

(** X1. The early grade as a table of the two durations, when the special case
    does not apply: the grade is the worse of what the longest duration at
    or below 500 gives (1 to 6 days: 1, 7 to 13: 2, 14 to 30: 3, 31 or
    more: 4) and what the longest duration at or below 100 gives (7 to 13
    days: 3, 14 or more: 4); the special case gives "Grade 4" whatever the
    durations are. *)
Theorem X1_assign_early_grade_table (duration_500 duration_100 : Z) :
  let grade := _assign_early_grade duration_500 duration_100 false in
  _assign_early_grade duration_500 duration_100 true = "Grade 4" /\
  (grade = "Grade 4" <-> 31 <= duration_500 \/ 14 <= duration_100) /\
  (grade = "Grade 3" <->
     duration_500 < 31 /\ duration_100 < 14 /\ (14 <= duration_500 \/ 7 <= duration_100)) /\
  (grade = "Grade 2" <-> 7 <= duration_500 < 14 /\ duration_100 < 7) /\
  (grade = "Grade 1" <-> 1 <= duration_500 < 7 /\ duration_100 < 7) /\
  (grade = "Grade 0" <-> duration_500 <= 0 /\ duration_100 < 7).
Proof.
  intros grade. split; [reflexivity|]. subst grade.
  unfold _assign_early_grade, in_range_Z.
  duration_regions duration_500 duration_100; decide_comparisons;
    repeat split; intros; try discriminate; try lia; try reflexivity.
Qed.

Lemma assign_early_grade_number (duration_500 duration_100 : Z) :
  grade_number (_assign_early_grade duration_500 duration_100 false) =
  if (31 <=? duration_500) || (14 <=? duration_100) then 4
  else if (14 <=? duration_500) || (7 <=? duration_100) then 3
  else if 7 <=? duration_500 then 2
  else if 1 <=? duration_500 then 1
  else 0.
Proof.
  unfold _assign_early_grade, in_range_Z.
  duration_regions duration_500 duration_100; decide_comparisons; reflexivity.
Qed.

(** X2. Longer durations never give a lower early grade. *)
Theorem X2_assign_early_grade_monotone (duration_500 duration_100 : Z)
    (duration_500' duration_100' : Z) (grade_4_special grade_4_special' : bool) :
  duration_500 <= duration_500' -> duration_100 <= duration_100' ->
  (grade_4_special = true -> grade_4_special' = true) ->
  grade_number (_assign_early_grade duration_500 duration_100 grade_4_special) <=
  grade_number (_assign_early_grade duration_500' duration_100' grade_4_special').
Proof.
  intros H500 H100 Hs.
  destruct grade_4_special.
  - rewrite (Hs eq_refl). reflexivity.
  - rewrite assign_early_grade_number.
    destruct grade_4_special'.
    + change (_assign_early_grade duration_500' duration_100' true) with "Grade 4".
      change (grade_number "Grade 4") with 4.
      repeat match goal with
             | |- context [?a <=? ?b] => destruct (Z.leb_spec a b)
             end; cbn [andb orb]; lia.
    + rewrite assign_early_grade_number.
      repeat match goal with
             | |- context [?a <=? ?b] => destruct (Z.leb_spec a b)
             end; cbn [andb orb]; lia.
Qed.

Lemma X2_assign_early_grade_monotone_witness :
  grade_number (_assign_early_grade 5 0 false) <= grade_number (_assign_early_grade 8 7 false).
Proof.
  apply X2_assign_early_grade_monotone; [lia|lia|discriminate].
Defined.

(** ** Late grading, patient by patient *)

Lemma in_range_whole (lo hi : Z) (q : Q) :
  in_range lo hi q = true -> q == inject_Z (Qnum q / Zpos (Qden q)).
Proof.
  unfold in_range. intros H.
  apply andb_true_iff in H. destruct H as [H _].
  apply andb_true_iff in H. destruct H as [H _].
  apply Z.eqb_eq in H.
  unfold Qeq, inject_Z. cbn [Qnum Qden].
  pose proof (Z.div_mod (Qnum q) (Zpos (Qden q)) ltac:(lia)) as Hdm.
  lia.
Qed.

(** X3. A lowest late ANC that is not a whole number falls through the three
    middle bands, which are tested with [in range(...)]: it is graded 4 when
    it is at most 100 and 0 otherwise, whatever the second value is. *)
Theorem X3_assign_late_grade_fraction (anc_1 : Q) (anc_2 : option Q) :
  (forall n : Z, ~ anc_1 == inject_Z n) ->
  _assign_late_grade (Some anc_1) anc_2 =
  if Qle_bool anc_1 (inject_Z 100) then "Grade 4" else "Grade 0".
Proof.
  intros Hfrac. unfold _assign_late_grade.
  assert (Hout : forall lo hi, in_range lo hi anc_1 = false).
  { intros lo hi. destruct (in_range lo hi anc_1) eqn:Hin; [|reflexivity].
    apply in_range_whole in Hin. by apply Hfrac in Hin. }
  rewrite !Hout. reflexivity.
Qed.

Lemma X3_assign_late_grade_fraction_witness :
  _assign_late_grade (Some (701#2)%Q) (Some (900#1)%Q) = "Grade 0" /\
  _assign_late_grade (Some (350#1)%Q) (Some (900#1)%Q) = "Grade 3".
Proof.
  split; [|reflexivity].
  apply (X3_assign_late_grade_fraction (701#2) (Some (900#1)%Q)).
  intros n. unfold Qeq, inject_Z. cbn [Qnum Qden]. lia.
Defined.

Lemma insert_by_perm_leb {A : Type} (leb : A -> A -> bool) (x : A) (l : list A) :
  insert_by leb x l ≡ₚ x :: l.
Proof.
  induction l as [|y l IH]; simpl; [reflexivity|].
  destruct (leb x y); [reflexivity|].
  rewrite IH. apply Permutation_swap.
Qed.

Lemma sort_by_perm_leb {A : Type} (leb : A -> A -> bool) (l : list A) :
  sort_by leb l ≡ₚ l.
Proof.
  induction l as [|x l IH]; [reflexivity|].
  unfold sort_by in *. simpl. rewrite insert_by_perm_leb. by rewrite IH.
Qed.

Lemma sort_by_Qle_sorted (l : list Q) : StronglySorted Qle (sort_by Qle_bool l).
Proof.
  induction l as [|x l IH]; unfold sort_by in *; simpl; [constructor|].
  revert IH. generalize (foldr (insert_by Qle_bool) [] l). clear l.
  induction 1 as [|y l Hs IH Hall]; simpl.
  - repeat constructor.
  - destruct (Qle_bool x y) eqn:Hxy.
    + apply Qle_bool_iff in Hxy.
      constructor; [by constructor|]. constructor; [exact Hxy|].
      eapply Forall_impl; [exact Hall|]. simpl. intros z Hz. by eapply Qle_trans.
    + constructor; [exact IH|].
      rewrite insert_by_perm_leb. constructor; [|exact Hall].
      destruct (Qlt_le_dec y x) as [Hlt|Hle]; [by apply Qlt_le_weak|].
      apply Qle_bool_iff in Hle. congruence.
Qed.

Lemma grade_late_patient_count (patient_id : string) (patient_data : list LateRow.t) :
  patient_data <> [] ->
  let g := grade_late_patient patient_id patient_data in
  LateGrade.patient_id g = patient_id /\
  LateGrade.anc_count g = Some (Z.of_nat (length (omap LateRow.anc patient_data))).
Proof.
  intros Hne. destruct patient_data as [|row patient_data']; [done|].
  cbn [grade_late_patient LateGrade.patient_id LateGrade.anc_count].
  split; [reflexivity|].
  by rewrite (Permutation_length (sort_by_perm_leb Qle_bool _)).
Qed.

(** X4. The two nadirs of a patient with late rows: [anc_count] is the number
    of the patient's present ANC values, [anc_1] is the least of them and
    [anc_2] the least of the others, each absent when there is no such
    value, and the grade is the one of these two values. *)
Theorem X4_grade_late_patient_nadirs (patient_id : string) (patient_data : list LateRow.t) :
  patient_data <> [] ->
  let g := grade_late_patient patient_id patient_data in
  let values := omap LateRow.anc patient_data in
  LateGrade.patient_id g = patient_id /\
  LateGrade.anc_count g = Some (Z.of_nat (length values)) /\
  LateGrade.late_icaht_grade g =
    _assign_late_grade (LateGrade.anc_1 g) (LateGrade.anc_2 g) /\
  match LateGrade.anc_1 g, LateGrade.anc_2 g with
  | None, None => values = []
  | Some a, None => values = [a]
  | Some a, Some b =>
      exists rest, values ≡ₚ a :: b :: rest /\ (a <= b)%Q /\
                   forall q, q ∈ rest -> (b <= q)%Q
  | None, Some _ => False
  end.
Proof.
  intros Hne g values. subst g. unfold grade_late_patient.
  destruct patient_data as [|row patient_data']; [done|].
  remember (row :: patient_data') as patient_data eqn:Hpd. clear Hpd Hne.
  fold values. cbn [LateGrade.patient_id LateGrade.anc_count LateGrade.late_icaht_grade
                    LateGrade.anc_1 LateGrade.anc_2].
  pose proof (sort_by_perm_leb Qle_bool values) as Hperm.
  pose proof (sort_by_Qle_sorted values) as Hsorted.
  split; [reflexivity|]. split; [by rewrite (Permutation_length Hperm)|].
  split; [reflexivity|].
  destruct (sort_by Qle_bool values) as [|a [|b rest]]; cbn [lookup list_lookup].
  - by apply Permutation_nil in Hperm.
  - by apply Permutation_length_1_inv in Hperm.
  - exists rest. split; [by symmetry|].
    inversion Hsorted as [|? ? Hs' Hall]; subst.
    inversion Hall as [|? ? Hab _]; subst.
    split; [exact Hab|].
    inversion Hs' as [|? ? _ Hall']; subst.
    intros q Hq. rewrite Forall_forall in Hall'. by apply Hall'.
Qed.

Lemma X4_grade_late_patient_nadirs_witness :
  let g := grade_late_patient "P1"
             [late_obs 40 (Some (900#1)%Q); late_obs 45 None; late_obs 50 (Some (300#1)%Q)] in
  LateGrade.anc_count g = Some 2 /\
  LateGrade.anc_1 g = Some (300#1)%Q /\ LateGrade.anc_2 g = Some (900#1)%Q.
Proof.
  pose proof (X4_grade_late_patient_nadirs "P1"
                [late_obs 40 (Some (900#1)%Q); late_obs 45 None; late_obs 50 (Some (300#1)%Q)]
                ltac:(discriminate)) as H.
  destruct H as (_ & Hcount & _).
  split; [exact Hcount|]. split; reflexivity.
Defined.

(** X5. Late grading of a frame with columns returns one record for each
    patient of the frame, in the order of first appearance; every record
    counts the present ANC values of its patient, so the record without
    ['anc_count'], written for a patient without rows, is never produced.
    A frame without columns raises [KeyError]. *)
Theorem X5_grade_late_icaht_records (rows : list LateRow.t) :
  grade_late_icaht NoColumns = Raise (KeyError "patient_id") /\
  exists records,
    grade_late_icaht (Frame rows) = Ok (pd_DataFrame records) /\
    map LateGrade.patient_id records = unique (map LateRow.patient_id rows) /\
    forall g, g ∈ records ->
      LateGrade.anc_count g =
        Some (Z.of_nat (length (omap LateRow.anc
                (List.filter
                   (fun r => bool_decide (LateRow.patient_id r = LateGrade.patient_id g))
                   rows)))).
Proof.
  split; [reflexivity|].
  eexists. split; [reflexivity|].
  set (patient_rows := fun patient_id =>
         List.filter (fun r => bool_decide (LateRow.patient_id r = patient_id)) rows).
  assert (Hne : forall p, p ∈ unique (map LateRow.patient_id rows) -> patient_rows p <> []).
  { intros p Hp. apply (unique_spec (map LateRow.patient_id rows)) in Hp.
    change (map ?f ?l) with (f <$> l) in Hp.
    apply list_elem_of_fmap in Hp. destruct Hp as (r & -> & Hr).
    intros Hnil.
    assert (Hin : In r (patient_rows (LateRow.patient_id r))).
    { apply filter_In. split; [by apply list_elem_of_In|by apply bool_decide_eq_true]. }
    rewrite Hnil in Hin. destruct Hin. }
  split.
  - rewrite map_map. rewrite <- (map_id (unique _)) at 2.
    apply map_ext_in. intros p Hp. apply list_elem_of_In in Hp.
    by destruct (grade_late_patient_count p (patient_rows p) (Hne p Hp)) as [H _].
  - intros g Hg. change (map ?f ?l) with (f <$> l) in Hg.
    apply list_elem_of_fmap in Hg. destruct Hg as (p & -> & Hp).
    destruct (grade_late_patient_count p (patient_rows p) (Hne p Hp)) as (H1 & H2).
    fold (patient_rows p). rewrite H1, H2. reflexivity.
Qed.

(** ** The merge pass as a whole *)

Lemma join_loop_view (self : ICahtGrader) (joined : list Exceedance.t)
    (current : Exceedance.t) (rest : list Exceedance.t) :
  join_loop self joined current rest =
  (join_view self joined current rest).1 ++ [(join_view self joined current rest).2].
Proof.
  revert joined current. induction rest as [|next_exceedance rest IH];
    intros joined current; simpl; [reflexivity|].
  destruct (_ <=? _); apply IH.
Qed.

Lemma join_adjacent_view (self : ICahtGrader) (exceedances : list Exceedance.t) :
  _join_adjacent_exceedances self exceedances =
  match merged_view self exceedances with
  | None => []
  | Some (finished, current) => finished ++ [current]
  end.
Proof.
  destruct exceedances as [|first rest]; [reflexivity|].
  rewrite <- join_loop_single, join_loop_view. cbn [merged_view].
  by destruct (join_view self [] first rest).
Qed.

Lemma join_view_snoc (self : ICahtGrader) (joined : list Exceedance.t)
    (current : Exceedance.t) (rest : list Exceedance.t) (x : Exceedance.t) :
  join_view self joined current (rest ++ [x]) =
  let '(finished, c) := join_view self joined current rest in
  if Exceedance.start_day x - Exceedance.end_day c - 1 <=? recovery_days self - 1
  then (finished, extend_to c (Exceedance.end_day x) (Exceedance.end_date x))
  else (finished ++ [c], x).
Proof.
  revert joined current. induction rest as [|next_exceedance rest IH];
    intros joined current; simpl.
  - by destruct (_ <=? _).
  - destruct (_ <=? _); apply IH.
Qed.

Lemma merged_view_snoc (self : ICahtGrader) (exceedances : list Exceedance.t)
    (x : Exceedance.t) :
  merged_view self (exceedances ++ [x]) =
  match merged_view self exceedances with
  | None => Some ([], x)
  | Some (finished, c) =>
      if Exceedance.start_day x - Exceedance.end_day c - 1 <=? recovery_days self - 1
      then Some (finished, extend_to c (Exceedance.end_day x) (Exceedance.end_date x))
      else Some (finished ++ [c], x)
  end.
Proof.
  destruct exceedances as [|first rest]; [reflexivity|].
  cbn [app merged_view]. rewrite join_view_snoc.
  destruct (join_view self [] first rest). by destruct (_ <=? _).
Qed.

(** The scan followed by the merge pass is the single pass [merge_step]. *)
Lemma calculate_exceedances_one_pass (self : ICahtGrader)
    (patient_data : list EarlyRow.t) (threshold : Z) :
  _calculate_exceedances self patient_data threshold =
  merged_list (fold_left (merge_step self threshold) (dropna_anc_final patient_data) None).
Proof.
  unfold _calculate_exceedances.
  set (valid_data := dropna_anc_final patient_data). clearbody valid_data.
  assert (Hinv : forall rows,
    let scan := fold_left (scan_step threshold) rows ([], None) in
    fold_left (merge_step self threshold) rows None =
    match scan.2 with
    | None => (fun v => (v.1, v.2, false)) <$> merged_view self scan.1
    | Some k => (fun v => (v.1, v.2, true)) <$> merged_view self (scan.1 ++ [k])
    end).
  { induction rows as [|row rows IH] using rev_ind; [reflexivity|].
    cbv zeta in *. rewrite !fold_left_app. cbn [fold_left]. rewrite IH. clear IH.
    destruct (fold_left (scan_step threshold) rows ([], None)) as [exs cur].
    cbn [fst snd]. unfold scan_step, merge_step.
    destruct (lt_cell (EarlyRow.anc_final row) threshold), cur as [k|]; cbn [fst snd].
    - rewrite !merged_view_snoc.
      destruct (merged_view self exs) as [[finished c]|]; cbn [fmap option_fmap option_map].
      + cbn [extend_to Exceedance.start_day Exceedance.end_day Exceedance.end_date].
        destruct (_ <=? _); cbn [fst snd orb fmap option_fmap option_map extend_to
                                 Exceedance.start_day]; reflexivity.
      + reflexivity.
    - rewrite merged_view_snoc.
      destruct (merged_view self exs) as [[finished c]|]; cbn [fmap option_fmap option_map].
      + cbn [single_day Exceedance.start_day Exceedance.end_day Exceedance.end_date fst snd orb].
        by destruct (_ <=? _).
      + reflexivity.
    - by destruct (merged_view self (exs ++ [k])) as [[finished c]|].
    - by destruct (merged_view self exs) as [[finished c]|]. }
  specialize (Hinv valid_data). cbv zeta in Hinv.
  unfold raw_exceedances.
  destruct valid_data as [|row valid_data']; [reflexivity|].
  remember (row :: valid_data') as valid_data eqn:Hvd. clear Hvd.
  rewrite Hinv, join_adjacent_view.
  destruct (fold_left (scan_step threshold) valid_data ([], None)) as [exs [k|]];
    cbn [fst snd].
  - by destruct (merged_view self (exs ++ [k])) as [[finished c]|].
  - by destruct (merged_view self exs) as [[finished c]|].
Qed.

(** ** The intervals of a patient *)

Lemma interval_of_mono (threshold : Z) (rows rows' : list EarlyRow.t) (e : Exceedance.t) :
  (forall r, r ∈ rows -> r ∈ rows') ->
  interval_of threshold rows e -> interval_of threshold rows' e.
Proof.
  intros Hsub (H1 & H2 & (r1 & Hr1 & ?) & (r2 & Hr2 & ?)).
  split; [exact H1|]. split; [exact H2|].
  split; [exists r1|exists r2]; (split; [by apply Hsub|assumption]).
Qed.

Lemma interval_of_single (threshold : Z) (rows : list EarlyRow.t) (row : EarlyRow.t) :
  row ∈ rows -> lt_cell (EarlyRow.anc_final row) threshold = true ->
  interval_of threshold rows (single_day row).
Proof.
  intros Hin Hbelow. unfold interval_of, single_day. simpl.
  split; [lia|]. split; [lia|].
  split; exists row; by repeat split.
Qed.

Lemma interval_of_extend (threshold : Z) (rows : list EarlyRow.t) (row : EarlyRow.t)
    (e : Exceedance.t) :
  row ∈ rows -> lt_cell (EarlyRow.anc_final row) threshold = true ->
  Exceedance.end_day e <= EarlyRow.time_post_inf row ->
  interval_of threshold rows e ->
  interval_of threshold rows (extend_to e (EarlyRow.time_post_inf row) (EarlyRow.date row)).
Proof.
  intros Hin Hbelow Hle (H1 & H2 & Hstart & _). unfold interval_of, extend_to. simpl.
  split; [lia|]. split; [lia|]. split; [exact Hstart|].
  exists row. by repeat split.
Qed.

(** One step of the single pass keeps the intervals between rows below the
    threshold and keeps every such row covered. *)
Lemma merge_step_intervals (self : ICahtGrader) (threshold : Z)
    (rows : list EarlyRow.t) (st : option (list Exceedance.t * Exceedance.t * bool))
    (row : EarlyRow.t) :
  (forall p, p ∈ rows -> EarlyRow.time_post_inf p <= EarlyRow.time_post_inf row) ->
  (forall e, e ∈ merged_list st -> interval_of threshold rows e) ->
  (forall p, p ∈ rows -> lt_cell (EarlyRow.anc_final p) threshold = true ->
             exists e, e ∈ merged_list st /\ covers e (EarlyRow.time_post_inf p)) ->
  let st' := merge_step self threshold st row in
  (forall e, e ∈ merged_list st' -> interval_of threshold (rows ++ [row]) e) /\
  (forall p, p ∈ rows ++ [row] -> lt_cell (EarlyRow.anc_final p) threshold = true ->
             exists e, e ∈ merged_list st' /\ covers e (EarlyRow.time_post_inf p)).
Proof.
  intros Hdays Hint Hcov st'. subst st'.
  assert (Hsub : forall r, r ∈ rows -> r ∈ rows ++ [row])
    by (intros r Hr; apply elem_of_app; by left).
  assert (Hrow : row ∈ rows ++ [row])
    by (apply elem_of_app; right; by apply list_elem_of_singleton).
  unfold merge_step.
  destruct (lt_cell (EarlyRow.anc_final row) threshold) eqn:Hbelow.
  - destruct st as [[[finished current] in_exceedance]|]; cbn [merged_list] in *.
    + assert (Hcur : interval_of threshold rows current)
        by (apply Hint, elem_of_app; right; by apply list_elem_of_singleton).
      assert (Hend : Exceedance.end_day current <= EarlyRow.time_post_inf row).
      { destruct Hcur as (_ & _ & _ & (r & Hr & _ & <- & _)). by apply Hdays. }
      destruct (in_exceedance || _); cbn [merged_list].
      * split.
        -- intros e He. apply elem_of_app in He. destruct He as [He|He].
           ++ apply (interval_of_mono threshold rows); [exact Hsub|].
              apply Hint, elem_of_app. by left.
           ++ apply list_elem_of_singleton in He. subst e.
              apply interval_of_extend; try assumption.
              by apply (interval_of_mono threshold rows).
        -- intros p Hp Hpb. apply elem_of_app in Hp. destruct Hp as [Hp|Hp].
           ++ destruct (Hcov p Hp Hpb) as (e & He & Hc).
              apply elem_of_app in He. destruct He as [He|He].
              ** exists e. split; [apply elem_of_app; by left|exact Hc].
              ** apply list_elem_of_singleton in He. subst e. eexists.
                 split; [apply elem_of_app; right; by apply list_elem_of_singleton|].
                 unfold covers, extend_to in *. simpl.
                 specialize (Hdays p Hp). lia.
           ++ apply list_elem_of_singleton in Hp. subst p. eexists.
              split; [apply elem_of_app; right; by apply list_elem_of_singleton|].
              unfold covers, extend_to. simpl. destruct Hcur as (? & _). lia.
      * split.
        -- intros e He. apply elem_of_app in He. destruct He as [He|He].
           ++ apply (interval_of_mono threshold rows); [exact Hsub|]. by apply Hint.
           ++ apply list_elem_of_singleton in He. subst e.
              by apply interval_of_single.
        -- intros p Hp Hpb. apply elem_of_app in Hp. destruct Hp as [Hp|Hp].
           ++ destruct (Hcov p Hp Hpb) as (e & He & Hc).
              exists e. split; [apply elem_of_app; by left|exact Hc].
           ++ apply list_elem_of_singleton in Hp. subst p. eexists.
              split; [apply elem_of_app; right; by apply list_elem_of_singleton|].
              unfold covers, single_day. simpl. lia.
    + split.
      * intros e He. apply list_elem_of_singleton in He. subst e.
        by apply interval_of_single.
      * intros p Hp Hpb. apply elem_of_app in Hp. destruct Hp as [Hp|Hp].
        -- destruct (Hcov p Hp Hpb) as (e & He & _). by apply elem_of_nil in He.
        -- apply list_elem_of_singleton in Hp. subst p. eexists.
           split; [by apply list_elem_of_singleton|].
           unfold covers, single_day. simpl. lia.
  - assert (Hlist : merged_list
                      match st with
                      | Some (finished, current, _) => Some (finished, current, false)
                      | None => None
                      end = merged_list st)
      by (by destruct st as [[[? ?] ?]|]).
    rewrite Hlist. split.
    + intros e He. apply (interval_of_mono threshold rows); [exact Hsub|]. by apply Hint.
    + intros p Hp Hpb. apply elem_of_app in Hp. destruct Hp as [Hp|Hp].
      * by apply Hcov.
      * apply list_elem_of_singleton in Hp. subst p. congruence.
Qed.

Lemma sorted_snoc_inv {A : Type} (le : A -> A -> Prop) (l : list A) (x : A) :
  StronglySorted le (l ++ [x]) -> StronglySorted le l /\ forall a, a ∈ l -> le a x.
Proof.
  induction l as [|y l IH]; simpl; intros Hs.
  - split; [constructor|]. intros a Ha. by apply elem_of_nil in Ha.
  - inversion Hs as [|? ? Hs' Hall]; subst.
    destruct (IH Hs') as [IH1 IH2]. split.
    + constructor; [exact IH1|].
      rewrite Forall_forall in Hall |- *. intros z Hz. apply Hall.
      apply elem_of_app. by left.
    + intros a Ha. apply elem_of_cons in Ha. destruct Ha as [->|Ha]; [|by apply IH2].
      rewrite Forall_forall in Hall. apply Hall, elem_of_app. right.
      by apply list_elem_of_singleton.
Qed.

Lemma one_pass_intervals (self : ICahtGrader) (threshold : Z) (rows : list EarlyRow.t) :
  StronglySorted (fun a b => EarlyRow.time_post_inf a <= EarlyRow.time_post_inf b) rows ->
  let st := fold_left (merge_step self threshold) rows None in
  (forall e, e ∈ merged_list st -> interval_of threshold rows e) /\
  (forall p, p ∈ rows -> lt_cell (EarlyRow.anc_final p) threshold = true ->
             exists e, e ∈ merged_list st /\ covers e (EarlyRow.time_post_inf p)).
Proof.
  induction rows as [|row rows IH] using rev_ind; intros Hs; cbv zeta.
  - split.
    + intros e He. by apply elem_of_nil in He.
    + intros p Hp. by apply elem_of_nil in Hp.
  - apply sorted_snoc_inv in Hs. destruct Hs as [Hs Hdays].
    destruct (IH Hs) as [IH1 IH2].
    rewrite fold_left_app. cbn [fold_left].
    by apply merge_step_intervals.
Qed.

Lemma dropna_sorted_rows (patient_rows : list EarlyRow.t) :
  let valid_data := dropna_anc_final (sort_by by_day patient_rows) in
  StronglySorted (fun a b => EarlyRow.time_post_inf a <= EarlyRow.time_post_inf b)
    valid_data /\
  forall r, r ∈ valid_data <-> r ∈ patient_rows /\ has_anc_final r = true.
Proof.
  cbv zeta. split.
  - apply (filter_sorted EarlyRow.time_post_inf).
    apply (sort_by_sorted EarlyRow.time_post_inf).
  - intros r. unfold dropna_anc_final.
    rewrite list_elem_of_In, filter_In, <- list_elem_of_In.
    unfold by_day. by rewrite (sort_by_perm EarlyRow.time_post_inf).
Qed.

Lemma lt_cell_has_anc_final (row : EarlyRow.t) (threshold : Z) :
  lt_cell (EarlyRow.anc_final row) threshold = true -> has_anc_final row = true.
Proof. unfold lt_cell, has_anc_final. by destruct (EarlyRow.anc_final row). Qed.

Lemma sorted_exceedances_spec (self : ICahtGrader)
    (patient_rows : list EarlyRow.t) (threshold : Z) :
  let exceedances :=
    _calculate_exceedances self (sort_by by_day patient_rows) threshold in
  (forall e, e ∈ exceedances ->
     interval_of threshold patient_rows e /\ 1 <= Exceedance.duration e) /\
  (forall r, r ∈ patient_rows -> lt_cell (EarlyRow.anc_final r) threshold = true ->
     exists e, e ∈ exceedances /\ covers e (EarlyRow.time_post_inf r)).
Proof.
  cbv zeta. rewrite calculate_exceedances_one_pass.
  destruct (dropna_sorted_rows patient_rows) as [Hs Hin].
  destruct (one_pass_intervals self threshold _ Hs) as [H1 H2].
  split.
  - intros e He. specialize (H1 e He).
    assert (H1' : interval_of threshold patient_rows e).
    { apply (interval_of_mono threshold _ patient_rows) in H1; [exact H1|].
      intros r Hr. by apply Hin in Hr as [? _]. }
    split; [exact H1'|]. destruct H1' as (? & ? & _). lia.
  - intros r Hr Hb. apply H2; [|exact Hb].
    apply Hin. split; [exact Hr|]. by eapply lt_cell_has_anc_final.
Qed.

(** ** What the merge pass returns *)

Lemma join_loop_head (self : ICahtGrader) (current : Exceedance.t)
    (rest : list Exceedance.t) :
  exists h tl, join_loop self [] current rest = h :: tl /\
               Exceedance.start_day h = Exceedance.start_day current.
Proof.
  revert current. induction rest as [|next_exceedance rest IH]; intros current; simpl.
  - by exists current, [].
  - destruct (_ <=? _).
    + destruct (IH (extend_to current (Exceedance.end_day next_exceedance)
                      (Exceedance.end_date next_exceedance))) as (h & tl & -> & Hh).
      by exists h, tl.
    + rewrite join_loop_joined. by exists current, (join_loop self [] next_exceedance rest).
Qed.

Lemma join_loop_separated (self : ICahtGrader) (current : Exceedance.t)
    (rest : list Exceedance.t) (i : nat) (a b : Exceedance.t) :
  join_loop self [] current rest !! i = Some a ->
  join_loop self [] current rest !! S i = Some b ->
  recovery_days self <= Exceedance.start_day b - Exceedance.end_day a - 1.
Proof.
  revert current i. induction rest as [|next_exceedance rest IH]; intros current i; simpl.
  - by destruct i.
  - destruct (Z.leb_spec
                (Exceedance.start_day next_exceedance - Exceedance.end_day current - 1)
                (recovery_days self - 1)) as [|Hgap].
    + apply IH.
    + rewrite join_loop_joined. cbn [app].
      destruct i as [|i]; cbn [lookup list_lookup].
      * intros Ha Hb. inversion Ha; subst a; clear Ha.
        destruct (join_loop_head self next_exceedance rest) as (h & tl & Hh & Hstart).
        rewrite Hh in Hb. cbn [lookup list_lookup] in Hb. inversion Hb; subst b. lia.
      * apply IH.
Qed.

Lemma join_adjacent_fixed (self : ICahtGrader) (l : list Exceedance.t) :
  (forall (i : nat) a b, l !! i = Some a -> l !! S i = Some b ->
     recovery_days self <= Exceedance.start_day b - Exceedance.end_day a - 1) ->
  _join_adjacent_exceedances self l = l.
Proof.
  induction l as [|x l IH]; intros Hsep; [reflexivity|].
  destruct l as [|y l]; [reflexivity|].
  rewrite <- join_loop_single. cbn [join_loop].
  pose proof (Hsep 0%nat x y eq_refl eq_refl) as Hxy.
  destruct (Z.leb_spec (Exceedance.start_day y - Exceedance.end_day x - 1)
              (recovery_days self - 1)) as [|_]; [lia|].
  rewrite join_loop_joined, join_loop_single. cbn [app]. f_equal.
  apply IH. intros i a b Ha Hb. by apply (Hsep (S i)).
Qed.

Lemma join_loop_length (self : ICahtGrader) (joined : list Exceedance.t)
    (current : Exceedance.t) (rest : list Exceedance.t) :
  (length (join_loop self joined current rest) <= length joined + 1 + length rest)%nat.
Proof.
  revert joined current. induction rest as [|next_exceedance rest IH];
    intros joined current; simpl.
  - rewrite length_app. simpl. lia.
  - destruct (_ <=? _).
    + etransitivity; [apply IH|]. lia.
    + etransitivity; [apply IH|]. rewrite length_app. simpl. lia.
Qed.

Lemma join_view_end (self : ICahtGrader) (joined : list Exceedance.t)
    (current : Exceedance.t) (rest : list Exceedance.t) :
  Exceedance.end_day (join_view self joined current rest).2 =
  default (Exceedance.end_day current) (Exceedance.end_day <$> last rest).
Proof.
  revert joined current. induction rest as [|next_exceedance rest IH];
    intros joined current; [reflexivity|].
  cbn [join_view]. destruct (_ <=? _); rewrite IH.
  - destruct rest as [|y rest]; [reflexivity|].
    rewrite last_cons_cons, (last_cons y rest). by destruct (last rest).
  - destruct rest as [|y rest]; [reflexivity|].
    rewrite last_cons_cons, (last_cons y rest). by destruct (last rest).
Qed.

(** X7. What the merge pass returns: two neighbours of the result are at least
    [recovery_days] apart, so that merging the result again changes
    nothing; the result has at most as many intervals as the input, begins
    on the start day of the first interval of the input and ends on the end
    day of the last one. *)
Theorem X7_join_adjacent_exceedances_result (self : ICahtGrader)
    (exceedances : list Exceedance.t) :
  let joined := _join_adjacent_exceedances self exceedances in
  (forall (i : nat) a b, joined !! i = Some a -> joined !! S i = Some b ->
     recovery_days self <= Exceedance.start_day b - Exceedance.end_day a - 1) /\
  _join_adjacent_exceedances self joined = joined /\
  (length joined <= length exceedances)%nat /\
  Exceedance.start_day <$> head joined = Exceedance.start_day <$> head exceedances /\
  Exceedance.end_day <$> last joined = Exceedance.end_day <$> last exceedances.
Proof.
  intros joined.
  assert (Hsep : forall (i : nat) a b, joined !! i = Some a -> joined !! S i = Some b ->
            recovery_days self <= Exceedance.start_day b - Exceedance.end_day a - 1).
  { subst joined. destruct exceedances as [|first rest].
    - intros i a b Ha. by destruct i.
    - rewrite <- join_loop_single. apply join_loop_separated. }
  split; [exact Hsep|]. split; [by apply join_adjacent_fixed|].
  subst joined. destruct exceedances as [|first rest]; [by repeat split|].
  rewrite <- join_loop_single. split; [|split].
  - etransitivity; [apply join_loop_length|]. simpl. lia.
  - destruct (join_loop_head self first rest) as (h & tl & -> & Hh).
    simpl. by rewrite Hh.
  - rewrite join_loop_view, last_snoc. cbn [fmap option_fmap option_map].
    rewrite join_view_end.
    destruct rest as [|y rest]; [reflexivity|].
    rewrite last_cons_cons, (last_cons y rest). by destruct (last rest).
Qed.

(** X6. The intervals of a patient at a threshold, on the patient's rows
    sorted by day: each runs from a day with a final ANC below the
    threshold to a later or equal such day, has the duration
    [end - start + 1], hence at least 1, and carries the dates of its two
    end rows; every day with a final ANC below the threshold lies in one of
    the intervals; and two neighbouring intervals are at least
    [recovery_days] apart. *)
Theorem X6_calculate_exceedances_intervals (self : ICahtGrader)
    (patient_rows : list EarlyRow.t) (threshold : Z) :
  let exceedances :=
    _calculate_exceedances self (sort_by by_day patient_rows) threshold in
  (forall e, e ∈ exceedances ->
     interval_of threshold patient_rows e /\ 1 <= Exceedance.duration e) /\
  (forall r, r ∈ patient_rows -> lt_cell (EarlyRow.anc_final r) threshold = true ->
     exists e, e ∈ exceedances /\ covers e (EarlyRow.time_post_inf r)) /\
  (forall (i : nat) a b, exceedances !! i = Some a -> exceedances !! S i = Some b ->
     recovery_days self <= Exceedance.start_day b - Exceedance.end_day a - 1).
Proof.
  intros exceedances.
  destruct (sorted_exceedances_spec self patient_rows threshold) as [Hint Hcov].
  split; [exact Hint|]. split; [exact Hcov|].
  subst exceedances. unfold _calculate_exceedances.
  destruct (dropna_anc_final (sort_by by_day patient_rows)) as [|row valid_data'].
  - intros i a b Ha. by destruct i.
  - destruct (raw_exceedances threshold (row :: valid_data')) as [|first rest].
    + intros i a b Ha. by destruct i.
    + rewrite <- join_loop_single. apply join_loop_separated.
Qed.

(** ** The two durations of a patient *)

Lemma max_default_0_ge (l : list Z) (x : Z) : x ∈ l -> x <= max_default_0 l.
Proof.
  destruct l as [|y l]; [intros H; by apply elem_of_nil in H|]. simpl.
  assert (Hgen : forall l a, a <= fold_left Z.max l a /\
                             forall z, z ∈ l -> z <= fold_left Z.max l a).
  { clear. induction l as [|y l IH]; intros a; simpl.
    - split; [lia|]. intros z Hz. by apply elem_of_nil in Hz.
    - destruct (IH (Z.max a y)) as [IH1 IH2]. split; [lia|].
      intros z Hz. apply elem_of_cons in Hz. destruct Hz as [->|Hz]; [lia|by apply IH2]. }
  intros Hx. destruct (Hgen l y) as [H1 H2].
  apply elem_of_cons in Hx. destruct Hx as [->|Hx]; [exact H1|by apply H2].
Qed.

Lemma max_default_0_elem (l : list Z) : l <> [] -> max_default_0 l ∈ l.
Proof.
  destruct l as [|y l]; [done|]. intros _. simpl.
  assert (Hgen : forall l a, fold_left Z.max l a = a \/ fold_left Z.max l a ∈ l).
  { clear. induction l as [|y l IH]; intros a; simpl; [by left|].
    destruct (IH (Z.max a y)) as [->|Hin].
    - destruct (Z.max_spec a y) as [[_ ->]|[_ ->]]; [right; by left|by left].
    - right. by right. }
  destruct (Hgen l y) as [->|Hin]; [by left|by right].
Qed.

Lemma lt_cell_mono (x : option Q) (t1 t2 : Z) :
  t1 <= t2 -> lt_cell x t1 = true -> lt_cell x t2 = true.
Proof.
  intros Ht. destruct x as [q|]; [|done]. unfold lt_cell, Qltb.
  rewrite !negb_true_iff. intros H1.
  destruct (Qle_bool (inject_Z t2) q) eqn:H2; [|reflexivity].
  apply Qle_bool_iff in H2.
  assert (H3 : (inject_Z t1 <= q)%Q).
  { eapply Qle_trans; [|exact H2]. by rewrite <- Zle_Qle. }
  apply Qle_bool_iff in H3. congruence.
Qed.

Lemma merge_step_elements (self : ICahtGrader) (threshold : Z)
    (st : option (list Exceedance.t * Exceedance.t * bool)) (row : EarlyRow.t)
    (e : Exceedance.t) :
  e ∈ merged_list (merge_step self threshold st row) ->
  e ∈ merged_list st \/
  (lt_cell (EarlyRow.anc_final row) threshold = true /\
   exists finished, merge_step self threshold st row = Some (finished, e, true)).
Proof.
  unfold merge_step.
  destruct (lt_cell (EarlyRow.anc_final row) threshold).
  - destruct st as [[[finished current] in_exceedance]|].
    + destruct (in_exceedance || _); cbn [merged_list]; intros He;
        apply elem_of_app in He; destruct He as [He|He].
      * left. apply elem_of_app. by left.
      * apply list_elem_of_singleton in He. subst e. right. split; [reflexivity|by eexists].
      * by left.
      * apply list_elem_of_singleton in He. subst e. right. split; [reflexivity|by eexists].
    + cbn [merged_list]. intros He. apply list_elem_of_singleton in He. subst e.
      right. split; [reflexivity|by eexists].
  - destruct st as [[[finished current] in_exceedance]|]; intros He; by left.
Qed.

Lemma merge_step_grows (self : ICahtGrader) (threshold : Z)
    (st : option (list Exceedance.t * Exceedance.t * bool)) (row : EarlyRow.t)
    (e : Exceedance.t) :
  (forall e', e' ∈ merged_list st -> Exceedance.end_day e' <= EarlyRow.time_post_inf row) ->
  e ∈ merged_list st ->
  exists e', e' ∈ merged_list (merge_step self threshold st row) /\ within e e'.
Proof.
  intros Hend He. unfold merge_step.
  destruct st as [[[finished current] in_exceedance]|]; [|by apply elem_of_nil in He].
  cbn [merged_list] in *.
  assert (Hrefl : within e e) by (unfold within; lia).
  destruct (lt_cell (EarlyRow.anc_final row) threshold); [|by exists e].
  destruct (in_exceedance || _); cbn [merged_list].
  - apply elem_of_app in He. destruct He as [He|He].
    + exists e. split; [apply elem_of_app; by left|exact Hrefl].
    + apply list_elem_of_singleton in He. subst e. eexists.
      split; [apply elem_of_app; right; by apply list_elem_of_singleton|].
      unfold within, extend_to. simpl. split; [lia|].
      apply Hend, elem_of_app. right. by apply list_elem_of_singleton.
  - exists e. split; [apply elem_of_app; by left|exact Hrefl].
Qed.

(** One step of the single pass, run at two thresholds on the same row. *)
Lemma merge_step_nested (self : ICahtGrader) (t1 t2 : Z) (rows : list EarlyRow.t)
    (st1 st2 : option (list Exceedance.t * Exceedance.t * bool)) (row : EarlyRow.t) :
  t1 <= t2 ->
  (forall p, p ∈ rows -> EarlyRow.time_post_inf p <= EarlyRow.time_post_inf row) ->
  (forall e, e ∈ merged_list st2 -> interval_of t2 rows e) ->
  nested_states self st1 st2 ->
  nested_states self (merge_step self t1 st1 row) (merge_step self t2 st2 row).
Proof.
  intros Ht Hdays Hint [HM HL].
  assert (Hend : forall e, e ∈ merged_list st2 ->
            Exceedance.start_day e <= Exceedance.end_day e /\
            Exceedance.end_day e <= EarlyRow.time_post_inf row).
  { intros e He. destruct (Hint e He) as (Hse & _ & _ & (r & Hr & _ & Heq & _)).
    split; [exact Hse|]. rewrite <- Heq. by apply Hdays. }
  assert (Hbelow : lt_cell (EarlyRow.anc_final row) t1 = true ->
                   lt_cell (EarlyRow.anc_final row) t2 = true)
    by apply lt_cell_mono, Ht.
  assert (HL' : match merge_step self t1 st1 row, merge_step self t2 st2 row with
                | None, _ => True
                | Some _, None => False
                | Some (_, c1, run1), Some (_, c2, run2) =>
                    (within c1 c2 /\ (run1 = true -> run2 = true)) \/
                    (run1 = false /\
                     recovery_days self <=
                       Exceedance.start_day c2 - Exceedance.end_day c1 - 1)
                end).
  { unfold merge_step.
    destruct st1 as [[[f1 c1] run1]|], st2 as [[[f2 c2] run2]|]; try done.
    - assert (Hc2 : Exceedance.start_day c2 <= Exceedance.end_day c2 /\
                    Exceedance.end_day c2 <= EarlyRow.time_post_inf row)
        by (apply Hend; cbn [merged_list]; apply elem_of_app; right;
            by apply list_elem_of_singleton).
      assert (HL2 : (within c1 c2 /\ implb run1 run2 = true) \/
                    (run1 = false /\
                     recovery_days self <=
                       Exceedance.start_day c2 - Exceedance.end_day c1 - 1)).
      { destruct HL as [[Hw Hrun]|HB]; [left|by right]. split; [exact Hw|].
        destruct run1, run2; try reflexivity. by specialize (Hrun eq_refl). }
      clear HL HM Hint Hend. unfold within in *.
      destruct (lt_cell (EarlyRow.anc_final row) t1).
      + rewrite (Hbelow eq_refl).
        destruct run1, run2; cbn [orb implb] in *;
          repeat match goal with
                 | |- context [?a <=? ?b] => destruct (Z.leb_spec a b)
                 end;
          cbn [extend_to single_day Exceedance.start_day Exceedance.end_day];
          first [ left; split; [lia|done]
                | exfalso; destruct HL2 as [[? ?]|[? ?]]; first [discriminate|lia] ].
      + destruct (lt_cell (EarlyRow.anc_final row) t2).
        * destruct run2; cbn [orb];
            repeat match goal with
                   | |- context [?a <=? ?b] => destruct (Z.leb_spec a b)
                   end;
            cbn [extend_to single_day Exceedance.start_day Exceedance.end_day];
            destruct HL2 as [[? ?]|[? ?]];
            first [ left; split; [lia|done] | right; split; [reflexivity|lia] ].
        * destruct HL2 as [[? ?]|[? ?]];
            first [ left; split; [lia|done] | right; split; [reflexivity|lia] ].
    - destruct (lt_cell (EarlyRow.anc_final row) t1); [|done].
      rewrite (Hbelow eq_refl).
      assert (Hc2 : Exceedance.start_day c2 <= Exceedance.end_day c2 /\
                    Exceedance.end_day c2 <= EarlyRow.time_post_inf row)
        by (apply Hend; cbn [merged_list]; apply elem_of_app; right;
            by apply list_elem_of_singleton).
      destruct (run2 || _); left; unfold within; simpl; (split; [lia|done]).
    - destruct (lt_cell (EarlyRow.anc_final row) t1); [|done].
      rewrite (Hbelow eq_refl). left. unfold within. simpl. split; [lia|done]. }
  split; [|exact HL'].
  intros e1 He1. apply merge_step_elements in He1. destruct He1 as [He1|[Hb1 [f1' Hs1]]].
  - destruct (HM e1 He1) as (e2 & He2 & Hw).
    destruct (merge_step_grows self t2 st2 row e2) as (e2' & He2' & Hw');
      [intros e' He'; by apply Hend|exact He2|].
    exists e2'. split; [exact He2'|]. unfold within in *. lia.
  - rewrite Hs1 in HL'.
    destruct (merge_step self t2 st2 row) as [[[f2' c2'] run2']|]; [|done].
    destruct HL' as [[Hw _]|[? _]]; [|discriminate].
    exists c2'. split; [|exact Hw].
    cbn [merged_list]. apply elem_of_app. right. by apply list_elem_of_singleton.
Qed.

Lemma one_pass_nested (self : ICahtGrader) (t1 t2 : Z) (rows : list EarlyRow.t) :
  t1 <= t2 ->
  StronglySorted (fun a b => EarlyRow.time_post_inf a <= EarlyRow.time_post_inf b) rows ->
  nested_states self (fold_left (merge_step self t1) rows None)
    (fold_left (merge_step self t2) rows None).
Proof.
  intros Ht. induction rows as [|row rows IH] using rev_ind; intros Hs.
  - split; [|done]. intros e He. by apply elem_of_nil in He.
  - destruct (sorted_snoc_inv _ _ _ Hs) as [Hs' Hdays].
    rewrite !fold_left_app. cbn [fold_left].
    apply (merge_step_nested self t1 t2 rows); try assumption; [|by apply IH].
    by destruct (one_pass_intervals self t2 rows Hs') as [H _].
Qed.

(** The longest durations of a patient.  Each is 0 exactly when the patient
    has no final ANC below the threshold, and then there is no interval;
    otherwise it is at least 1. *)
Lemma max_duration_zero (self : ICahtGrader) (patient_rows : list EarlyRow.t)
    (threshold : Z) :
  let exceedances :=
    _calculate_exceedances self (sort_by by_day patient_rows) threshold in
  let max_duration := max_default_0 (map Exceedance.duration exceedances) in
  0 <= max_duration /\
  (max_duration = 0 <-> exceedances = []) /\
  (exceedances = [] <->
   forall r, r ∈ patient_rows -> lt_cell (EarlyRow.anc_final r) threshold = false).
Proof.
  intros exceedances max_duration.
  destruct (sorted_exceedances_spec self patient_rows threshold) as [Hint Hcov].
  fold exceedances in Hint, Hcov.
  assert (Hpos : exceedances <> [] -> 1 <= max_duration).
  { intros Hne. subst max_duration.
    assert (Hin : max_default_0 (map Exceedance.duration exceedances)
                  ∈ map Exceedance.duration exceedances).
    { apply max_default_0_elem. by destruct exceedances. }
    change (map ?f ?l) with (f <$> l) in Hin at 2.
    apply list_elem_of_fmap in Hin. destruct Hin as (e & -> & He).
    by apply Hint. }
  split; [|split].
  - destruct exceedances as [|e es] eqn:Hex; [subst max_duration; simpl; lia|].
    assert (1 <= max_duration) by (by apply Hpos). lia.
  - split.
    + intros Hz. destruct exceedances as [|e es] eqn:Hex; [reflexivity|].
      assert (1 <= max_duration) by (by apply Hpos). lia.
    + intros Hnil. subst max_duration. by rewrite Hnil.
  - split.
    + intros Hnil r Hr.
      destruct (lt_cell (EarlyRow.anc_final r) threshold) eqn:Hb; [|reflexivity].
      destruct (Hcov r Hr Hb) as (e & He & _). rewrite Hnil in He.
      by apply elem_of_nil in He.
    + intros Hnone. destruct exceedances as [|e es] eqn:Hex; [reflexivity|].
      destruct (Hint e ltac:(by left)) as [(_ & _ & (r & Hr & Hb & _) & _) _].
      rewrite (Hnone r Hr) in Hb. discriminate.
Qed.

Lemma max_duration_nested (self : ICahtGrader) (patient_rows : list EarlyRow.t)
    (t1 t2 : Z) :
  t1 <= t2 ->
  max_default_0 (map Exceedance.duration
                   (_calculate_exceedances self (sort_by by_day patient_rows) t1)) <=
  max_default_0 (map Exceedance.duration
                   (_calculate_exceedances self (sort_by by_day patient_rows) t2)).
Proof.
  intros Ht.
  destruct (max_duration_zero self patient_rows t2) as [Hnonneg _].
  cbv zeta in Hnonneg.
  destruct (_calculate_exceedances self (sort_by by_day patient_rows) t1)
    as [|e1 es1] eqn:Hex1; [exact Hnonneg|].
  assert (Hin : max_default_0 (map Exceedance.duration (e1 :: es1))
                ∈ map Exceedance.duration (e1 :: es1))
    by (by apply max_default_0_elem).
  change (map ?f ?l) with (f <$> l) in Hin at 2.
  apply list_elem_of_fmap in Hin. destruct Hin as (e & -> & He).
  rewrite <- Hex1 in He.
  destruct (sorted_exceedances_spec self patient_rows t1) as [Hint1 _].
  destruct (sorted_exceedances_spec self patient_rows t2) as [Hint2 _].
  cbv zeta in Hint1, Hint2.
  destruct (Hint1 e He) as [(_ & Hd1 & _) _].
  rewrite calculate_exceedances_one_pass in He.
  destruct (dropna_sorted_rows patient_rows) as [Hs _].
  destruct (one_pass_nested self t1 t2 _ Ht Hs) as [HM _].
  destruct (HM e He) as (e2 & He2 & Hw).
  rewrite <- calculate_exceedances_one_pass in He2.
  destruct (Hint2 e2 He2) as [(_ & Hd2 & _) _].
  etransitivity; [|apply max_default_0_ge].
  2:{ change (map ?f ?l) with (f <$> l). apply list_elem_of_fmap. by exists e2. }
  unfold within in Hw. lia.
Qed.

(** X8. The early record of a patient.  Grading returns; each of the two
    durations is 0 exactly when the patient has no final ANC below its
    threshold, and then the count of intervals is 0 as well. *)
Theorem X8_grade_early_patient_zero (self : ICahtGrader) (patient_id : string)
    (patient_rows : list EarlyRow.t) :
  exists g, grade_early_patient self patient_id patient_rows = Ok g /\
    0 <= EarlyGrade.duration_below_500_max g /\
    0 <= EarlyGrade.duration_below_100_max g /\
    (EarlyGrade.duration_below_500_max g = 0 <-> EarlyGrade.exceedances_500 g = 0%nat) /\
    (EarlyGrade.duration_below_100_max g = 0 <-> EarlyGrade.exceedances_100 g = 0%nat) /\
    (EarlyGrade.duration_below_500_max g = 0 <->
     forall r, r ∈ patient_rows ->
               lt_cell (EarlyRow.anc_final r) (anc_500_threshold self) = false) /\
    (EarlyGrade.duration_below_100_max g = 0 <->
     forall r, r ∈ patient_rows ->
               lt_cell (EarlyRow.anc_final r) (anc_100_threshold self) = false).
Proof.
  destruct (check_grade_4_special_Ok self (sort_by by_day patient_rows)
              (anc_500_threshold self)) as (b & Hb & _).
  unfold grade_early_patient. rewrite Hb. cbn [mbind result_bind].
  eexists. split; [reflexivity|].
  cbn [EarlyGrade.duration_below_500_max EarlyGrade.duration_below_100_max
       EarlyGrade.exceedances_500 EarlyGrade.exceedances_100].
  destruct (max_duration_zero self patient_rows (anc_500_threshold self))
    as (H5a & H5b & H5c).
  destruct (max_duration_zero self patient_rows (anc_100_threshold self))
    as (H1a & H1b & H1c).
  cbv zeta in *.
  assert (Hlen : forall l : list Exceedance.t, length l = 0%nat <-> l = [])
    by (intros [|? ?]; simpl; split; (done || lia)).
  repeat split; try assumption; rewrite ?Hlen; try tauto.
  all: rewrite Hlen; tauto.
Qed.

Lemma max_duration_bound (self : ICahtGrader) (patient_rows : list EarlyRow.t)
    (threshold lo hi : Z) :
  (forall r, r ∈ patient_rows -> lo <= EarlyRow.time_post_inf r <= hi) ->
  0 <= hi - lo + 1 ->
  max_default_0 (map Exceedance.duration
                   (_calculate_exceedances self (sort_by by_day patient_rows) threshold))
  <= hi - lo + 1.
Proof.
  intros Hdays Hspan.
  destruct (_calculate_exceedances self (sort_by by_day patient_rows) threshold)
    as [|e1 es1] eqn:Hex; [exact Hspan|].
  assert (Hin : max_default_0 (map Exceedance.duration (e1 :: es1))
                ∈ map Exceedance.duration (e1 :: es1))
    by (by apply max_default_0_elem).
  change (map ?f ?l) with (f <$> l) in Hin at 2.
  apply list_elem_of_fmap in Hin. destruct Hin as (e & -> & He).
  rewrite <- Hex in He.
  destruct (sorted_exceedances_spec self patient_rows threshold) as [Hint _].
  destruct (Hint e He) as [(_ & Hd & (r1 & Hr1 & _ & Hs & _) & (r2 & Hr2 & _ & Hen & _)) _].
  pose proof (Hdays r1 Hr1). pose proof (Hdays r2 Hr2). lia.
Qed.

Lemma early_record_ordered (self : ICahtGrader) (patient_id : string)
    (patient_rows : list EarlyRow.t) (g : EarlyGrade.t) :
  anc_100_threshold self <= anc_500_threshold self ->
  grade_early_patient self patient_id patient_rows = Ok g ->
  0 <= EarlyGrade.duration_below_100_max g <= EarlyGrade.duration_below_500_max g /\
  (EarlyGrade.early_icaht_grade g = "Grade 0" <->
   EarlyGrade.duration_below_500_max g = 0) /\
  (EarlyGrade.early_icaht_grade g = "Grade 0" <->
   forall r, r ∈ patient_rows ->
             lt_cell (EarlyRow.anc_final r) (anc_500_threshold self) = false) /\
  (forall lo hi,
     (forall r, r ∈ patient_rows -> lo <= EarlyRow.time_post_inf r <= hi) ->
     0 <= hi - lo + 1 -> EarlyGrade.duration_below_500_max g <= hi - lo + 1).
Proof.
  intros Ht.
  destruct (check_grade_4_special_Ok self (sort_by by_day patient_rows)
              (anc_500_threshold self)) as (b & Hb & Hspecial).
  unfold grade_early_patient. rewrite Hb. cbn [mbind result_bind].
  intros Hg. inversion Hg; subst g; clear Hg.
  cbn [EarlyGrade.duration_below_500_max EarlyGrade.duration_below_100_max
       EarlyGrade.early_icaht_grade].
  destruct (max_duration_zero self patient_rows (anc_500_threshold self))
    as (H5a & H5b & H5c).
  destruct (max_duration_zero self patient_rows (anc_100_threshold self))
    as (H1a & _ & _).
  pose proof (max_duration_nested self patient_rows _ _ Ht) as Hle.
  pose proof (max_duration_bound self patient_rows (anc_500_threshold self)) as Hbound.
  cbv zeta in *.
  set (d500 := max_default_0
                 (map Exceedance.duration
                    (_calculate_exceedances self (sort_by by_day patient_rows)
                       (anc_500_threshold self)))) in *.
  set (d100 := max_default_0
                 (map Exceedance.duration
                    (_calculate_exceedances self (sort_by by_day patient_rows)
                       (anc_100_threshold self)))) in *.
  assert (Hgrade : _assign_early_grade d500 d100 b = "Grade 0" <-> d500 = 0).
  { destruct b.
    - split; [discriminate|]. intros Hz. apply H5b in Hz.
      destruct Hspecial as [Hs _]. destruct (Hs eq_refl) as (e & _ & He & _).
      rewrite Hz in He. by apply elem_of_nil in He.
    - clear -H5a H1a Hle. unfold _assign_early_grade, in_range_Z.
      duration_regions d500 d100; try lia; decide_comparisons;
        split; intros; try discriminate; try lia; reflexivity. }
  split; [lia|]. split; [exact Hgrade|]. split; [|exact Hbound].
  rewrite Hgrade. tauto.
Qed.

(** X9. With the threshold for 100 not above the one for 500, as in the grader
    the code builds, the longest duration at or below 100 of a patient is
    never longer than the longest duration at or below 500.  The last
    [else] of [_assign_early_grade] is therefore not reached, and the
    patient's early grade is "Grade 0" exactly when the patient has no
    final ANC below the threshold for 500. *)
Theorem X9_grade_early_patient_durations (self : ICahtGrader) (patient_id : string)
    (patient_rows : list EarlyRow.t) :
  anc_100_threshold self <= anc_500_threshold self ->
  exists g, grade_early_patient self patient_id patient_rows = Ok g /\
    0 <= EarlyGrade.duration_below_100_max g <= EarlyGrade.duration_below_500_max g /\
    (EarlyGrade.early_icaht_grade g = "Grade 0" <->
     EarlyGrade.duration_below_500_max g = 0) /\
    (EarlyGrade.early_icaht_grade g = "Grade 0" <->
     forall r, r ∈ patient_rows ->
               lt_cell (EarlyRow.anc_final r) (anc_500_threshold self) = false).
Proof.
  intros Ht.
  destruct (grade_early_patient_Ok self patient_id patient_rows) as (g & Hg & _).
  destruct (early_record_ordered self patient_id patient_rows g Ht Hg)
    as (H1 & H2 & H3 & _).
  exists g. split; [exact Hg|]. split; [exact H1|]. split; [exact H2|exact H3].
Qed.

Lemma X9_grade_early_patient_durations_witness :
  exists g,
    grade_early_patient ICahtGrader_init "P1"
      (series_of [Some (900#1)%Q; Some (80#1)%Q; Some (300#1)%Q; Some (900#1)%Q]) = Ok g /\
    0 <= EarlyGrade.duration_below_100_max g <= EarlyGrade.duration_below_500_max g.
Proof.
  destruct (X9_grade_early_patient_durations ICahtGrader_init "P1"
              (series_of [Some (900#1)%Q; Some (80#1)%Q; Some (300#1)%Q; Some (900#1)%Q]))
    as (g & Hg & Hd & _).
  - vm_compute. discriminate.
  - exists g. by split.
Defined.

(** ** The records of the gradings and of the combination *)

Lemma rmap_list_total {A B : Type} (f : A -> result B) (l : list A) :
  (forall a, a ∈ l -> exists b, f a = Ok b) ->
  exists bs, rmap_list f l = Ok bs /\ Forall2 (fun a b => f a = Ok b) l bs.
Proof.
  induction l as [|a l IH]; intros Hf; simpl.
  - exists []. split; [reflexivity|constructor].
  - destruct (Hf a ltac:(left)) as [b Hb].
    destruct IH as (bs & Hbs & Hall); [intros a' Ha'; apply Hf; by right|].
    exists (b :: bs). rewrite Hb, Hbs. split; [reflexivity|by constructor].
Qed.

Lemma grade_early_icaht_Forall2 (self : ICahtGrader) (rows : list EarlyRow.t) :
  exists records,
    grade_early_icaht self (Frame rows) = Ok (pd_DataFrame records) /\
    map EarlyGrade.patient_id records = unique (map EarlyRow.patient_id rows) /\
    Forall2 (fun patient_id g =>
               grade_early_patient self patient_id (rows_of_patient patient_id rows) = Ok g)
      (unique (map EarlyRow.patient_id rows)) records.
Proof.
  unfold grade_early_icaht. cbn [column mbind result_bind].
  destruct (rmap_list_total
              (fun patient_id =>
                 grade_early_patient self patient_id (rows_of_patient patient_id rows))
              (unique (map EarlyRow.patient_id rows))) as (records & Hrec & Hall).
  { intros p _. destruct (grade_early_patient_Ok self p (rows_of_patient p rows))
      as (g & Hg & _). by exists g. }
  exists records. rewrite Hrec. split; [reflexivity|]. split; [|exact Hall].
  clear Hrec. induction Hall as [|p g ps gs Hg _ IH]; [reflexivity|].
  simpl. f_equal; [|exact IH].
  destruct (grade_early_patient_Ok self p (rows_of_patient p rows)) as (g' & Hg' & Hid).
  congruence.
Qed.

(** X10. Early grading of a frame with columns never raises: it returns one
    record for each patient of the frame, in the order of first
    appearance and none twice, each the grading of the rows of its patient.
    A frame without columns raises [KeyError]. *)
Theorem X10_grade_early_icaht_records (self : ICahtGrader) (rows : list EarlyRow.t) :
  grade_early_icaht self NoColumns = Raise (KeyError "patient_id") /\
  exists records,
    grade_early_icaht self (Frame rows) = Ok (pd_DataFrame records) /\
    map EarlyGrade.patient_id records = unique (map EarlyRow.patient_id rows) /\
    NoDup (map EarlyGrade.patient_id records) /\
    Forall2 (fun patient_id g =>
               grade_early_patient self patient_id (rows_of_patient patient_id rows) = Ok g)
      (unique (map EarlyRow.patient_id rows)) records.
Proof.
  split; [reflexivity|].
  destruct (grade_early_icaht_Forall2 self rows) as (records & Hrec & Hids & Hall).
  exists records. split; [exact Hrec|]. split; [exact Hids|]. split; [|exact Hall].
  rewrite Hids. apply unique_spec.
Qed.

Lemma filter_key_NoDup {A K : Type} `{EqDecision K} (key : A -> K) (l : list A) (x : A) :
  NoDup (map key l) -> x ∈ l ->
  List.filter (fun r => bool_decide (key r = key x)) l = [x].
Proof.
  induction l as [|y l IH]; intros Hnd Hx; [by apply elem_of_nil in Hx|].
  simpl in Hnd. apply NoDup_cons in Hnd. destruct Hnd as [Hy Hnd].
  assert (Hnone : forall l', (forall z, z ∈ l' -> key z <> key x) ->
            List.filter (fun r => bool_decide (key r = key x)) l' = []).
  { intros l' Hl'. apply filter_nil_all_false. intros z Hz.
    apply bool_decide_eq_false_2. by apply Hl'. }
  apply elem_of_cons in Hx. destruct Hx as [->|Hx]; simpl.
  - rewrite bool_decide_eq_true_2 by reflexivity. f_equal.
    apply Hnone. intros z Hz Heq. apply Hy. rewrite <- Heq.
    change (map key l) with (key <$> l). apply list_elem_of_fmap. by exists z.
  - rewrite bool_decide_eq_false_2; [by apply IH|].
    intros Heq. apply Hy. rewrite Heq.
    change (map key l) with (key <$> l). apply list_elem_of_fmap. by exists x.
Qed.

(** X11. The combination of two grade frames that have their columns.  Some run
    returns, and every run returns one record for each patient of either
    frame.  A patient without an early record has the early grade
    "Grade 0", the durations 0 and no special case; a patient without a
    late record has the late grade "Grade 0", no nadir and the count 0.
    When a frame has one record for each of its patients, as the gradings
    return it, each of its records is carried over to the record of its
    patient. *)
Theorem X11_combine_grades_records (early_rows : list EarlyGrade.t)
    (late_rows : list LateGrade.t) :
  (exists out, combine_grades (Frame early_rows) (Frame late_rows) out) /\
  forall out, combine_grades (Frame early_rows) (Frame late_rows) out ->
    exists final, out = Ok final /\
      NoDup (map Combined.patient_id (frame_rows final)) /\
      (forall p, p ∈ map Combined.patient_id (frame_rows final) <->
                 p ∈ map EarlyGrade.patient_id early_rows \/
                 p ∈ map LateGrade.patient_id late_rows) /\
      (forall c, c ∈ frame_rows final ->
         (Combined.patient_id c ∉ map EarlyGrade.patient_id early_rows ->
          Combined.early_icaht_grade c = "Grade 0" /\
          Combined.duration_below_500_max c = 0 /\
          Combined.duration_below_100_max c = 0 /\
          Combined.grade_4_special c = false) /\
         (Combined.patient_id c ∉ map LateGrade.patient_id late_rows ->
          Combined.late_icaht_grade c = "Grade 0" /\
          Combined.anc_1 c = None /\ Combined.anc_2 c = None /\
          Combined.anc_count c = Some 0)) /\
      (NoDup (map EarlyGrade.patient_id early_rows) ->
       forall e, e ∈ early_rows ->
         exists c, c ∈ frame_rows final /\
           Combined.patient_id c = EarlyGrade.patient_id e /\
           Combined.early_icaht_grade c = EarlyGrade.early_icaht_grade e /\
           Combined.duration_below_500_max c = EarlyGrade.duration_below_500_max e /\
           Combined.duration_below_100_max c = EarlyGrade.duration_below_100_max e /\
           Combined.grade_4_special c = EarlyGrade.grade_4_special e) /\
      (NoDup (map LateGrade.patient_id late_rows) ->
       forall l, l ∈ late_rows ->
         exists c, c ∈ frame_rows final /\
           Combined.patient_id c = LateGrade.patient_id l /\
           Combined.late_icaht_grade c = LateGrade.late_icaht_grade l /\
           Combined.anc_1 c = LateGrade.anc_1 l /\
           Combined.anc_2 c = LateGrade.anc_2 l /\
           Combined.anc_count c = LateGrade.anc_count l).
Proof.
  split.
  - exists (combine_grades_in (elements (all_patients early_rows late_rows))
              (Frame early_rows) (Frame late_rows)).
    unfold combine_grades. cbn [column]. eexists. split; [|reflexivity].
    unfold set_iteration. reflexivity.
  - unfold combine_grades. cbn [column]. intros out (order & Horder & ->).
    rewrite combine_grades_in_Frame. eexists. split; [reflexivity|].
    rewrite frame_rows_pd_DataFrame. unfold set_iteration in Horder.
    assert (Hids : map Combined.patient_id (map (combine_row early_rows late_rows) order)
                   = order).
    { rewrite map_map. rewrite (map_ext _ id) by (intros; apply combine_row_patient_id).
      apply map_id. }
    assert (Hmem : forall p, p ∈ order <->
               p ∈ map EarlyGrade.patient_id early_rows \/
               p ∈ map LateGrade.patient_id late_rows).
    { intros p. rewrite Horder, elem_of_elements. unfold all_patients.
      by rewrite elem_of_list_to_set, elem_of_app. }
    assert (Hrow : forall p, p ∈ order ->
               combine_row early_rows late_rows p
               ∈ map (combine_row early_rows late_rows) order).
    { intros p Hp. change (map ?f ?l) with (f <$> l). apply list_elem_of_fmap.
      by exists p. }
    rewrite Hids. split; [rewrite Horder; apply NoDup_elements|]. split; [exact Hmem|].
    split; [|split].
    + intros c Hc. change (map ?f ?l) with (f <$> l) in Hc.
      apply list_elem_of_fmap in Hc. destruct Hc as (p & -> & Hp).
      rewrite combine_row_patient_id. split.
      * intros Hnot.
        assert (Hnone : List.filter (fun r => bool_decide (EarlyGrade.patient_id r = p))
                          early_rows = []).
        { apply filter_nil_all_false. intros r Hr. apply bool_decide_eq_false_2.
          intros Heq. apply Hnot. change (map ?f ?l) with (f <$> l).
          apply list_elem_of_fmap. by exists r. }
        unfold combine_row. rewrite Hnone. by destruct (List.filter _ late_rows).
      * intros Hnot.
        assert (Hnone : List.filter (fun r => bool_decide (LateGrade.patient_id r = p))
                          late_rows = []).
        { apply filter_nil_all_false. intros r Hr. apply bool_decide_eq_false_2.
          intros Heq. apply Hnot. change (map ?f ?l) with (f <$> l).
          apply list_elem_of_fmap. by exists r. }
        unfold combine_row. rewrite Hnone. by destruct (List.filter _ early_rows).
    + intros Hnd e He. exists (combine_row early_rows late_rows (EarlyGrade.patient_id e)).
      split.
      * apply Hrow, Hmem. left. change (map ?f ?l) with (f <$> l).
        apply list_elem_of_fmap. by exists e.
      * rewrite combine_row_patient_id. split; [reflexivity|].
        unfold combine_row.
        rewrite (filter_key_NoDup EarlyGrade.patient_id early_rows e Hnd He).
        by destruct (List.filter _ late_rows).
    + intros Hnd l Hl. exists (combine_row early_rows late_rows (LateGrade.patient_id l)).
      split.
      * apply Hrow, Hmem. right. change (map ?f ?l) with (f <$> l).
        apply list_elem_of_fmap. by exists l.
      * rewrite combine_row_patient_id. split; [reflexivity|].
        unfold combine_row.
        rewrite (filter_key_NoDup LateGrade.patient_id late_rows l Hnd Hl).
        by destruct (List.filter _ early_rows).
Qed.

(** ** The summary *)

Lemma value_counts_lookup (values : list string) (v : string) :
  default 0%nat (value_counts values !! v) =
    length (List.filter (fun x => bool_decide (x = v)) values) /\
  (is_Some (value_counts values !! v) <-> v ∈ values).
Proof.
  induction values as [|x values [IH1 IH2]]; simpl.
  - rewrite lookup_empty. split; [reflexivity|].
    split; [intros [? ?]; discriminate|intros H; by apply elem_of_nil in H].
  - rewrite lookup_insert. destruct (decide (x = v)) as [->|Hne].
    + rewrite bool_decide_eq_true_2 by reflexivity. simpl. rewrite IH1.
      split; [reflexivity|]. split; [intros _; by left|intros _; by eexists].
    + rewrite bool_decide_eq_false_2 by assumption. split; [exact IH1|].
      rewrite IH2, elem_of_cons. split; [tauto|]. intros [?|?]; [congruence|assumption].
Qed.

Lemma assess_data_quality_early (df : DataFrame EarlyRow.t) :
  _assess_data_quality EarlyRow.patient_id (Ok EarlyRow.anc_final) df =
  Ok (if (df_len df =? 0)%nat
      then {| patients_with_data := 0; interpolation_rate := 0 |}
      else {| patients_with_data :=
                length (unique (map EarlyRow.patient_id (frame_rows df)));
              interpolation_rate :=
                round_2 (percentage
                           (length (List.filter (fun r => isna (EarlyRow.anc_final r))
                                      (frame_rows df)))
                           (df_len df)) |}).
Proof.
  unfold _assess_data_quality.
  destruct df as [|rows]; [reflexivity|]. cbn [df_len frame_rows column].
  destruct (length rows =? 0)%nat eqn:Hlen; [reflexivity|].
  cbn [mbind result_bind].
  apply Nat.eqb_neq in Hlen.
  by rewrite (proj2 (Nat.ltb_lt 0 (length rows))) by lia.
Qed.

(** X12. The summary reads the column ['anc_final'] of the late frame, which the
    late frame does not have: whenever the late frame has a row and the
    combined grades have their columns, [generate_summary] raises
    [KeyError]. *)
Theorem X12_generate_summary_late_rows (rows : list Combined.t)
    (processed_data : ProcessedData) :
  df_len (late processed_data) <> 0%nat ->
  generate_summary (Frame rows) processed_data = Raise (KeyError "anc_final").
Proof.
  intros Hlen. unfold generate_summary. cbn [column mbind result_bind].
  rewrite assess_data_quality_early. cbn [mbind result_bind].
  unfold _assess_data_quality.
  destruct (late processed_data) as [|late_rows]; [done|].
  cbn [df_len column] in *.
  apply Nat.eqb_neq in Hlen. by rewrite Hlen.
Qed.

Lemma X12_generate_summary_late_rows_witness :
  generate_summary two_combined
    {| early := Frame []; late := Frame [late_obs 40 (Some (800#1)%Q)]; original := [] |}
  = Raise (KeyError "anc_final").
Proof.
  apply (X12_generate_summary_late_rows _
           {| early := Frame []; late := Frame [late_obs 40 (Some (800#1)%Q)];
              original := [] |}).
  simpl. discriminate.
Defined.

(** X13. The summary of combined grades that have their columns, when the late
    frame has no row: it returns; the total is the number of records, each
    distribution gives every grade that occurs the number of records with
    that grade and no entry to a grade that does not occur, and the count
    of special cases is the number of records with the flag.  The early
    data quality counts the distinct patients of the early frame, and the
    late one is 0 and 0. *)
Theorem X13_generate_summary_counts (rows : list Combined.t)
    (processed_data : ProcessedData) :
  df_len (late processed_data) = 0%nat ->
  exists summary,
    generate_summary (Frame rows) processed_data = Ok summary /\
    total_patients summary = length rows /\
    (forall grade,
       default 0%nat (early_icaht_distribution summary !! grade) =
         length (List.filter
                   (fun c => bool_decide (Combined.early_icaht_grade c = grade)) rows) /\
       (is_Some (early_icaht_distribution summary !! grade) <->
        grade ∈ map Combined.early_icaht_grade rows)) /\
    (forall grade,
       default 0%nat (late_icaht_distribution summary !! grade) =
         length (List.filter
                   (fun c => bool_decide (Combined.late_icaht_grade c = grade)) rows) /\
       (is_Some (late_icaht_distribution summary !! grade) <->
        grade ∈ map Combined.late_icaht_grade rows)) /\
    grade_4_special_cases summary =
      length (List.filter Combined.grade_4_special rows) /\
    (grade_4_special_cases summary <= total_patients summary)%nat /\
    patients_with_data (data_quality_early summary) =
      length (unique (map EarlyRow.patient_id (frame_rows (early processed_data)))) /\
    data_quality_late summary = {| patients_with_data := 0; interpolation_rate := 0 |}.
Proof.
  intros Hlen. unfold generate_summary. cbn [column mbind result_bind].
  rewrite assess_data_quality_early. cbn [mbind result_bind].
  unfold _assess_data_quality at 1. rewrite Hlen. cbn [Nat.eqb mbind result_bind].
  eexists. split; [reflexivity|].
  cbn [total_patients early_icaht_distribution late_icaht_distribution
       grade_4_special_cases data_quality_early data_quality_late df_len].
  assert (Hfilter : forall (f : Combined.t -> string) grade,
            length (List.filter (fun x => bool_decide (x = grade)) (map f rows)) =
            length (List.filter (fun c => bool_decide (f c = grade)) rows)).
  { intros f grade. induction rows as [|c rows' IH]; [reflexivity|]. simpl.
    destruct (bool_decide (f c = grade)); simpl; by rewrite IH. }
  split; [reflexivity|].
  split; [intros grade; rewrite <- Hfilter; apply value_counts_lookup|].
  split; [intros grade; rewrite <- Hfilter; apply value_counts_lookup|].
  split; [reflexivity|]. split; [apply List.filter_length_le|].
  split; [|reflexivity].
  destruct (early processed_data) as [|early_rows]; [reflexivity|].
  cbn [df_len frame_rows]. by destruct early_rows.
Qed.

Lemma X13_generate_summary_counts_witness :
  exists summary,
    generate_summary two_combined {| early := Frame []; late := Frame []; original := [] |}
    = Ok summary /\
    total_patients summary = 2%nat.
Proof.
  destruct (X13_generate_summary_counts (frame_rows two_combined)
              {| early := Frame []; late := Frame []; original := [] |} eq_refl)
    as (summary & Hs & Ht & _).
  exists summary. split; [exact Hs|exact Ht].
Defined.

(** ** The early frame *)



Lemma map_seqZ_lookup {A : Type} (f : A -> Z) (l : list A) :
  (forall (x : nat) a, l !! x = Some a -> f a = Z.of_nat x) ->
  map f l = seqZ 0 (Z.of_nat (length l)).
Proof.
  intros Hf. apply list_eq. intros i.
  change (map f l) with (f <$> l). rewrite list_lookup_fmap.
  destruct (l !! i) as [a|] eqn:Hi; cbn [fmap option_fmap option_map].
  - rewrite (Hf i a Hi). symmetry. rewrite lookup_seqZ_lt; [f_equal; lia|].
    apply lookup_lt_Some in Hi. lia.
  - symmetry. apply lookup_seqZ_ge. apply lookup_ge_None in Hi. lia.
Qed.

Lemma interpolate_anc_values_Frame (df : DataFrame SeriesRow.t) (settings : Settings.t)
    (out : DataFrame EarlyRow.t) :
  _interpolate_anc_values df settings = Ok out -> exists rows, out = Frame rows.
Proof.
  unfold _interpolate_anc_values.
  destruct (column "patient_id" df) as [rows|e]; cbn [mbind result_bind]; [|discriminate].
  destruct (rmap_list _ _) as [outs|e]; cbn [mbind result_bind]; [|discriminate].
  unfold pd_concat. destruct outs; [discriminate|].
  intros H. inversion H. by eexists.
Qed.

(** X15. The early frame, patient by patient.  When the preparation returns, the
    frame has its columns, and the rows of each of its patients are in the
    order of their days, one row for each of the days 0, 1, 2, ... up to
    the last one, which is at most [early_days]: no day is missing and none
    occurs twice. *)
Theorem X15_prepare_early_data_series (df : list RawObservation.t) (settings : Settings.t)
    (out : DataFrame EarlyRow.t) :
  _prepare_early_data df settings = Ok out ->
  exists rows, out = Frame rows /\
    forall p, p ∈ map EarlyRow.patient_id rows ->
      let patient_rows := rows_of_patient p rows in
      map EarlyRow.time_post_inf patient_rows = seqZ 0 (Z.of_nat (length patient_rows)) /\
      1 <= Z.of_nat (length patient_rows) <= default 30 (Settings.early_days settings) + 1.
Proof.
  intros Hout.
  destruct (interpolate_anc_values_Frame _ _ _ Hout) as [rows ->].
  exists rows. split; [reflexivity|].
  destruct (prepare_early_data_view df settings _ Hout)
    as (pids & cpart & Hnd & Hrows & Hcpart).
  cbn [frame_rows] in Hrows.
  set (part := fun p => zip_with interpolated_row (cpart p)
                          (Series_interpolate
                             (Z.to_nat (default 7 (Settings.max_gap_days settings)))
                             (map SeriesRow.anc (cpart p)))) in *.
  assert (Hpart : forall p (x : nat) r', part p !! x = Some r' ->
             EarlyRow.time_post_inf r' = Z.of_nat x /\ EarlyRow.patient_id r' = p).
  { intros p x r' Hx. apply lookup_zip_with_Some in Hx.
    destruct Hx as (r & cell & -> & Hr & _). by apply Hcpart. }
  intros p Hp patient_rows.
  assert (Hin : p ∈ pids).
  { change (map ?f ?l) with (f <$> l) in Hp. apply list_elem_of_fmap in Hp.
    destruct Hp as (r' & -> & Hr'). rewrite Hrows in Hr'.
    apply list_elem_of_In, in_concat in Hr'. destruct Hr' as (rs & Hrs & Hr').
    apply in_map_iff in Hrs. destruct Hrs as (p' & <- & Hp').
    apply list_elem_of_In, list_elem_of_lookup in Hr'. destruct Hr' as [x Hx].
    rewrite (proj2 (Hpart p' x r' Hx)). by apply list_elem_of_In. }
  assert (Heq : patient_rows = part p).
  { subst patient_rows. unfold rows_of_patient. rewrite Hrows.
    apply (filter_concat_parts EarlyRow.patient_id part pids p Hnd Hin).
    intros k' b _ Hb. apply list_elem_of_lookup in Hb. destruct Hb as [x Hx].
    exact (proj2 (Hpart k' x b Hx)). }
  rewrite Heq. split.
  - apply map_seqZ_lookup. intros x a Hx. exact (proj1 (Hpart p x a Hx)).
  - assert (Hne : part p <> []).
    { change (map ?f ?l) with (f <$> l) in Hp. apply list_elem_of_fmap in Hp.
      destruct Hp as (r' & Hid & Hr').
      assert (Hr'' : In r' patient_rows).
      { apply filter_In. split; [by apply list_elem_of_In|by apply bool_decide_eq_true]. }
      rewrite Heq in Hr''. intros Hnil. rewrite Hnil in Hr''. destruct Hr''. }
    destruct (part p) as [|r0 rest] eqn:Hp0 using rev_ind; [done|]. clear IHrest.
    rewrite length_app. cbn [length]. split; [lia|].
    assert (Hlast : part p !! length rest = Some r0).
    { rewrite Hp0. by rewrite lookup_app_r, Nat.sub_diag by lia. }
    destruct (Hpart p _ r0 Hlast) as [Hday _].
    assert (Hr0 : r0 ∈ rows).
    { rewrite Hrows. apply list_elem_of_In, in_concat. exists (part p). split.
      - apply in_map. by apply list_elem_of_In.
      - rewrite Hp0. apply in_or_app. right. by left. }
    pose proof (prepare_early_data_days df settings (Frame rows) r0 Hout Hr0) as Hb.
    lia.
Qed.

Lemma X15_prepare_early_data_series_witness :
  exists rows,
    _prepare_early_data [obs_day 2 (400#1)] no_settings = Ok (Frame rows) /\
    map EarlyRow.time_post_inf (rows_of_patient "P1" rows) = seqZ 0 31.
Proof.
  destruct (_prepare_early_data [obs_day 2 (400#1)] no_settings) as [out|e] eqn:Hout;
    [|vm_compute in Hout; discriminate].
  destruct (X15_prepare_early_data_series [obs_day 2 (400#1)] no_settings out Hout)
    as (rows & -> & Hseries).
  exists rows. split; [reflexivity|].
  assert (Hp : "P1" ∈ map EarlyRow.patient_id rows).
  { vm_compute in Hout. inversion Hout; subst rows. by left. }
  destruct (Hseries "P1" Hp) as [Hdays _]. rewrite Hdays. f_equal.
  vm_compute in Hout. inversion Hout; subst rows. reflexivity.
Defined.

(** ** The raw value of a day *)

Lemma fold_left_Qmin_spec (xs : list Q) (x : Q) :
  fold_left Qmin_b xs x ∈ x :: xs /\
  forall y, y ∈ x :: xs -> (fold_left Qmin_b xs x <= y)%Q.
Proof.
  revert x. induction xs as [|z xs IH]; intros x; simpl.
  - split; [by left|]. intros y Hy. apply list_elem_of_singleton in Hy. subst y.
    apply Qle_refl.
  - destruct (IH (Qmin_b x z)) as [IH1 IH2].
    assert (Hmin : (Qmin_b x z = x /\ (x <= z)%Q) \/ (Qmin_b x z = z /\ (z <= x)%Q)).
    { unfold Qmin_b. destruct (Qle_bool x z) eqn:Hxz.
      - left. split; [reflexivity|]. by apply Qle_bool_iff.
      - right. split; [reflexivity|].
        destruct (Qlt_le_dec z x) as [Hlt|Hle]; [by apply Qlt_le_weak|].
        apply Qle_bool_iff in Hle. congruence. }
    split.
    + apply elem_of_cons in IH1. destruct IH1 as [Heq|Hin].
      * rewrite Heq. destruct Hmin as [[-> _]|[-> _]]; [by left|right; by left].
      * right. by right.
    + intros y Hy.
      assert (Hm : (fold_left Qmin_b xs (Qmin_b x z) <= Qmin_b x z)%Q)
        by (apply IH2; by left).
      apply elem_of_cons in Hy. destruct Hy as [->|Hy];
        [|apply elem_of_cons in Hy; destruct Hy as [->|Hy]].
      * eapply Qle_trans; [exact Hm|]. destruct Hmin as [[-> _]|[-> ?]];
          [apply Qle_refl|assumption].
      * eapply Qle_trans; [exact Hm|]. destruct Hmin as [[-> ?]|[-> _]];
          [assumption|apply Qle_refl].
      * apply IH2. by right.
Qed.

(** ['min'] gives the least present cell, and no value when no cell is
    present. *)
Lemma agg_min_spec (cells : list (option Q)) :
  match agg_min cells with
  | Some q => Some q ∈ cells /\ forall q', Some q' ∈ cells -> (q <= q')%Q
  | None => forall c, c ∈ cells -> c = None
  end.
Proof.
  unfold agg_min.
  assert (Hmem : forall q, Some q ∈ cells <-> q ∈ omap id cells).
  { intros q. rewrite list_elem_of_omap. split.
    - intros H. by exists (Some q).
    - intros (c & Hc & Heq). simpl in Heq. by subst c. }
  destruct (omap id cells) as [|x xs].
  - intros [q|] Hc; [|reflexivity]. apply Hmem in Hc. by apply elem_of_nil in Hc.
  - destruct (fold_left_Qmin_spec xs x) as [H1 H2]. split.
    + by apply Hmem.
    + intros q' Hq'. apply H2. by apply Hmem.
Qed.

Lemma group_keys_elem (rows : list Dated.t) (key : string * Z) :
  key ∈ group_keys rows <-> exists d, d ∈ rows /\ key_of d = key.
Proof.
  unfold group_keys. rewrite (sort_by_perm_leb key_leb).
  rewrite (proj2 (unique_spec (map key_of rows))).
  change (map key_of rows) with (key_of <$> rows). rewrite list_elem_of_fmap.
  split; intros (d & H1 & H2); exists d; by split.
Qed.

Lemma group_of_elem (rows : list Dated.t) (key : string * Z) (d : Dated.t) :
  d ∈ group_of key rows <-> d ∈ rows /\ key_of d = key.
Proof.
  unfold group_of. rewrite list_elem_of_In, filter_In, <- list_elem_of_In.
  by rewrite bool_decide_eq_true.
Qed.

Lemma early_window_elem (df : list RawObservation.t) (max_days : Z) (d : Dated.t) :
  d ∈ early_window df max_days <->
  0 <= Dated.time_post_inf d <= max_days /\
  exists date cart_date,
    Dated.raw d ∈ df /\
    RawObservation.date (Dated.raw d) = Some date /\
    RawObservation.cart_date (Dated.raw d) = Some cart_date /\
    d = {| Dated.raw := Dated.raw d; Dated.cart_date := cart_date; Dated.date := date;
           Dated.time_post_inf := days_between date cart_date;
           Dated.end_date := late_end_date (Dated.raw d) |}.
Proof.
  unfold early_window, with_time_post_inf.
  rewrite list_elem_of_In, filter_In, <- list_elem_of_In, list_elem_of_omap.
  rewrite andb_true_iff, Z.leb_le, Z.leb_le. split.
  - intros [(r & Hr & Hd) Hw]. split; [exact Hw|].
    destruct (RawObservation.date r) as [date|] eqn:Hdate; [|discriminate].
    destruct (RawObservation.cart_date r) as [cart_date|] eqn:Hcart; [|discriminate].
    inversion Hd; subst d; clear Hd. cbn [Dated.raw]. by exists date, cart_date.
  - intros [Hw (date & cart_date & Hr & Hdate & Hcart & Hd)]. split; [|exact Hw].
    exists (Dated.raw d). split; [exact Hr|]. rewrite Hdate, Hcart. by rewrite <- Hd.
Qed.

(** An observation of the early window is in the group of its patient and
    day. *)
Lemma observed_in_window (df : list RawObservation.t) (max_days : Z)
    (patient_id : string) (day : Z) (obs : RawObservation.t) :
  obs ∈ df -> observed_on patient_id day obs -> 0 <= day <= max_days ->
  exists d, d ∈ group_of (patient_id, day) (early_window df max_days) /\ Dated.raw d = obs.
Proof.
  intros Hobs (Hid & date & cart_date & Hdate & Hcart & Hday) Hw.
  exists {| Dated.raw := obs; Dated.cart_date := cart_date; Dated.date := date;
            Dated.time_post_inf := days_between date cart_date;
            Dated.end_date := late_end_date obs |}.
  split; [|reflexivity]. apply group_of_elem. split.
  - apply early_window_elem. cbn [Dated.time_post_inf Dated.raw].
    split; [lia|]. by exists date, cart_date.
  - unfold key_of. cbn [Dated.time_post_inf Dated.raw]. by rewrite Hid, Hday.
Qed.

Lemma group_member_observed (df : list RawObservation.t) (max_days : Z)
    (key : string * Z) (d : Dated.t) :
  d ∈ group_of key (early_window df max_days) ->
  Dated.raw d ∈ df /\ observed_on key.1 key.2 (Dated.raw d) /\ 0 <= key.2 <= max_days.
Proof.
  intros Hd. apply group_of_elem in Hd. destruct Hd as [Hd Hkey].
  apply early_window_elem in Hd.
  destruct Hd as [Hw (date & cart_date & Hr & Hdate & Hcart & Hd)].
  subst key. unfold key_of. cbn [fst snd].
  split; [exact Hr|]. split; [|exact Hw].
  split; [reflexivity|]. exists date, cart_date.
  split; [exact Hdate|]. split; [exact Hcart|]. by rewrite Hd.
Qed.

Lemma early_grouped_elem (df : list RawObservation.t) (max_days : Z) (r : SeriesRow.t) :
  r ∈ early_grouped df max_days <->
  early_group_row (anc_int_column df) (early_window df max_days)
    (SeriesRow.patient_id r, SeriesRow.time_post_inf r) = Some r.
Proof.
  unfold early_grouped. rewrite list_elem_of_omap. split.
  - intros (key & _ & Hrow). pose proof Hrow as Hrow'. unfold early_group_row in Hrow'.
    destruct (group_of key _) as [|first group']; [discriminate|].
    inversion Hrow'; subst r; clear Hrow'. cbn [SeriesRow.patient_id SeriesRow.time_post_inf].
    by destruct key.
  - intros Hrow. eexists. split; [|exact Hrow].
    unfold early_group_row in Hrow.
    destruct (group_of _ _) as [|first group'] eqn:Hg; [discriminate|].
    assert (Hfirst : first ∈ group_of (SeriesRow.patient_id r, SeriesRow.time_post_inf r)
                                (early_window df max_days))
      by (rewrite Hg; by left).
    apply group_of_elem in Hfirst. destruct Hfirst as [Hin Hkey].
    apply group_keys_elem. by exists first.
Qed.

(** The rows of a completed series: a row of the grouped frame on its day,
    or a row without a value on a day the patient has no grouped row. *)
Lemma complete_patient_elem (max_days : Z) (patient_id : string)
    (patient_data : list SeriesRow.t) (r : SeriesRow.t) :
  r ∈ complete_patient max_days patient_id patient_data ->
  0 <= SeriesRow.time_post_inf r <= max_days /\
  (r ∈ patient_data \/
   (SeriesRow.patient_id r = patient_id /\ SeriesRow.anc r = None /\
    forall r2, r2 ∈ patient_data ->
               SeriesRow.time_post_inf r2 <> SeriesRow.time_post_inf r)).
Proof.
  intros Hr. split; [by eapply complete_patient_days|].
  unfold complete_patient in Hr. destruct patient_data as [|first rest];
    [by apply elem_of_nil in Hr|].
  remember (first :: rest) as patient_data eqn:Hpd.
  apply list_elem_of_fmap in Hr. destruct Hr as (day & -> & _).
  destruct (List.filter _ patient_data) as [|day_data ?] eqn:Hf.
  - right. cbn [SeriesRow.patient_id SeriesRow.anc SeriesRow.time_post_inf].
    split; [reflexivity|]. split; [reflexivity|].
    intros r2 Hr2 Heq.
    assert (Hin : In r2 (List.filter (fun r => SeriesRow.time_post_inf r =? day)
                           patient_data)).
    { apply filter_In. split; [by apply list_elem_of_In|by apply Z.eqb_eq]. }
    rewrite Hf in Hin. destruct Hin.
  - left.
    assert (Hin : In day_data (List.filter (fun r => SeriesRow.time_post_inf r =? day)
                                 patient_data))
      by (rewrite Hf; by left).
    apply filter_In in Hin. destruct Hin as [Hin _]. by apply list_elem_of_In.
Qed.

Lemma interpolate_patient_rows (max_gap : Z) (int_column : bool)
    (patient_rows : list SeriesRow.t) (out : list EarlyRow.t) (r' : EarlyRow.t) :
  interpolate_patient max_gap int_column patient_rows = Ok out -> r' ∈ out ->
  exists r cell, r ∈ patient_rows /\ r' = interpolated_row r cell.
Proof.
  unfold interpolate_patient.
  destruct ((max_gap <? 1) && negb int_column); [discriminate|].
  destruct (forallb fits_Int64 _); [|discriminate].
  intros H Hr'. inversion H; subst; clear H.
  apply list_elem_of_lookup in Hr'. destruct Hr' as [x Hx].
  apply lookup_zip_with_Some in Hx. destruct Hx as (r & cell & -> & Hr & _).
  exists r, cell. split; [|reflexivity].
  apply list_elem_of_lookup_2 in Hr. unfold by_series_day in Hr.
  by rewrite (sort_by_perm SeriesRow.time_post_inf) in Hr.
Qed.

(** Every row of the early frame comes from a row of a completed series. *)
Lemma early_frame_row (df : list RawObservation.t) (settings : Settings.t)
    (out : DataFrame EarlyRow.t) (r' : EarlyRow.t) :
  _prepare_early_data df settings = Ok out -> r' ∈ frame_rows out ->
  let max_days := default 30 (Settings.early_days settings) in
  exists r cell patient_id,
    r' = interpolated_row r cell /\
    r ∈ complete_patient max_days patient_id
          (List.filter (fun r => bool_decide (SeriesRow.patient_id r = patient_id))
             (early_grouped df max_days)).
Proof.
  rewrite prepare_early_data_grouped. intros Hout Hr' max_days. fold max_days in Hout.
  set (grouped := early_grouped df max_days) in *.
  destruct (_create_complete_timeseries grouped max_days) as [|rows] eqn:Hc;
    [discriminate|].
  apply interpolate_anc_values_patients in Hout.
  destruct Hout as (outs & -> & Hall). simpl in Hr'.
  apply list_elem_of_In, in_concat in Hr'. destruct Hr' as (o & Ho & Hr').
  apply list_elem_of_In, list_elem_of_lookup in Ho. destruct Ho as [i Hi].
  destruct (Forall2_lookup_r _ _ _ _ _ Hall Hi) as (patient_id & _ & Hp).
  apply list_elem_of_In in Hr'.
  destruct (interpolate_patient_rows _ _ _ _ _ Hp Hr') as (r & cell & Hr & ->).
  apply list_elem_of_In, filter_In in Hr. destruct Hr as [Hr _].
  assert (Hrows : rows = frame_rows (_create_complete_timeseries grouped max_days))
    by (by rewrite Hc).
  unfold _create_complete_timeseries in Hrows.
  rewrite frame_rows_pd_DataFrame in Hrows. subst rows.
  apply in_concat in Hr. destruct Hr as (rs & Hrs & Hr).
  apply in_map_iff in Hrs. destruct Hrs as (pid & <- & _).
  exists r, cell, pid. split; [reflexivity|]. by apply list_elem_of_In.
Qed.

(** X16. The raw value of a day in the early frame is the lowest of the values
    observed for the patient on that day: it is one of them and none is
    below it, and it is the final value of the day; and the day has no raw
    value exactly when no observation of the patient on that day has
    one. *)
Theorem X16_prepare_early_data_lowest (df : list RawObservation.t) (settings : Settings.t)
    (out : DataFrame EarlyRow.t) (r' : EarlyRow.t) :
  _prepare_early_data df settings = Ok out -> r' ∈ frame_rows out ->
  match EarlyRow.anc r' with
  | Some q =>
      EarlyRow.anc_final r' = Some q /\
      (exists obs, obs ∈ df /\
         observed_on (EarlyRow.patient_id r') (EarlyRow.time_post_inf r') obs /\
         RawObservation.anc obs = Some q) /\
      (forall obs q', obs ∈ df ->
         observed_on (EarlyRow.patient_id r') (EarlyRow.time_post_inf r') obs ->
         RawObservation.anc obs = Some q' -> (q <= q')%Q)
  | None =>
      forall obs, obs ∈ df ->
        observed_on (EarlyRow.patient_id r') (EarlyRow.time_post_inf r') obs ->
        RawObservation.anc obs = None
  end.
Proof.
  intros Hout Hr'.
  destruct (early_frame_row df settings out r' Hout Hr') as (r & cell & p & -> & Hr).
  cbn [interpolated_row EarlyRow.anc EarlyRow.anc_final EarlyRow.patient_id
       EarlyRow.time_post_inf].
  set (max_days := default 30 (Settings.early_days settings)) in *.
  apply complete_patient_elem in Hr. destruct Hr as [Hdays [Hr|(Hid & Hanc & Hnone)]].
  - apply list_elem_of_In, filter_In in Hr. destruct Hr as [Hr _].
    apply list_elem_of_In, early_grouped_elem in Hr.
    set (key := (SeriesRow.patient_id r, SeriesRow.time_post_inf r)) in *.
    unfold early_group_row in Hr.
    destruct (group_of key (early_window df max_days)) as [|first group'] eqn:Hg;
      [discriminate|].
    rewrite <- Hg in Hr.
    assert (Hcells : SeriesRow.anc r =
              agg_min (map (fun d => RawObservation.anc (Dated.raw d))
                         (group_of key (early_window df max_days))))
      by (inversion Hr as [Hr0]; by rewrite <- Hr0 at 1).
    clear Hr. rewrite Hcells.
    pose proof (agg_min_spec (map (fun d => RawObservation.anc (Dated.raw d))
                                (group_of key (early_window df max_days)))) as Hmin.
    assert (Hcell : forall obs, obs ∈ df ->
              observed_on (SeriesRow.patient_id r) (SeriesRow.time_post_inf r) obs ->
              RawObservation.anc obs
              ∈ map (fun d => RawObservation.anc (Dated.raw d))
                  (group_of key (early_window df max_days))).
    { intros obs Hobs Hon.
      destruct (observed_in_window df max_days _ _ obs Hobs Hon Hdays) as (d & Hd & <-).
      change (map ?f ?l) with (f <$> l). apply list_elem_of_fmap. by exists d. }
    destruct (agg_min _) as [q|].
    + destruct Hmin as [Hin Hle]. split; [reflexivity|]. split.
      * change (map ?f ?l) with (f <$> l) in Hin. apply list_elem_of_fmap in Hin.
        destruct Hin as (d & Hq & Hd).
        destruct (group_member_observed df max_days key d Hd) as (H1 & H2 & _).
        exists (Dated.raw d). split; [exact H1|]. split; [exact H2|by symmetry].
      * intros obs q' Hobs Hon Hq'. apply Hle. rewrite <- Hq'. by apply Hcell.
    + intros obs Hobs Hon. apply Hmin. by apply Hcell.
  - rewrite Hanc. intros obs Hobs Hon. exfalso.
    rewrite Hid in Hon.
    destruct (observed_in_window df max_days _ _ obs Hobs Hon Hdays) as (d & Hd & _).
    set (key := (p, SeriesRow.time_post_inf r)) in *.
    destruct (early_group_row (anc_int_column df) (early_window df max_days) key)
      as [g|] eqn:Hrow.
    + assert (Hg : SeriesRow.patient_id g = p /\
                   SeriesRow.time_post_inf g = SeriesRow.time_post_inf r).
      { unfold early_group_row in Hrow. destruct (group_of key _); [discriminate|].
        inversion Hrow; subst g. by split. }
      destruct Hg as [Hg1 Hg2].
      apply (Hnone g); [|exact Hg2].
      apply list_elem_of_In, filter_In. split; [|by apply bool_decide_eq_true].
      apply list_elem_of_In, early_grouped_elem. by rewrite Hg1, Hg2.
    + unfold early_group_row in Hrow.
      destruct (group_of key (early_window df max_days)); [|discriminate].
      by apply elem_of_nil in Hd.
Qed.

Lemma X16_prepare_early_data_lowest_witness :
  let df := [obs_day 2 (400#1); obs_day 2 (300#1); obs_day 2 (900#1)] in
  exists out r',
    _prepare_early_data df no_settings = Ok out /\ r' ∈ frame_rows out /\
    EarlyRow.time_post_inf r' = 2 /\ EarlyRow.anc r' = Some (300#1)%Q /\
    forall obs q', obs ∈ df -> observed_on "P1" 2 obs ->
                   RawObservation.anc obs = Some q' -> (300#1 <= q')%Q.
Proof.
  intros df.
  destruct (_prepare_early_data df no_settings) as [out|e] eqn:Hout;
    [|vm_compute in Hout; discriminate].
  assert (Hrow : exists r', frame_rows out !! 2%nat = Some r' /\
                            EarlyRow.patient_id r' = "P1" /\
                            EarlyRow.time_post_inf r' = 2 /\
                            EarlyRow.anc r' = Some (300#1)%Q).
  { vm_compute in Hout. inversion Hout; subst out. eexists. by repeat split. }
  destruct Hrow as (r' & Hlook & Hid & Hday & Hanc).
  apply list_elem_of_lookup_2 in Hlook.
  pose proof (X16_prepare_early_data_lowest df no_settings out r' Hout Hlook) as Hlow.
  rewrite Hanc, Hid, Hday in Hlow.
  exists out, r'. split; [reflexivity|]. split; [exact Hlook|].
  split; [exact Hday|]. split; [exact Hanc|]. exact (proj2 (proj2 Hlow)).
Defined.

(** ** The early grades of a prepared frame *)

Lemma pd_DataFrame_Frame {R : Type} (records rows : list R) :
  pd_DataFrame records = Frame rows -> records = rows /\ rows <> [].
Proof. destruct records; [discriminate|]. intros H. inversion H. by split. Qed.

Lemma unique_nil {A : Type} `{EqDecision A} (l : list A) : unique l = [] -> l = [].
Proof.
  intros Hnil. destruct l as [|x l]; [reflexivity|].
  assert (Hx : x ∈ unique (x :: l)) by (apply unique_spec; by left).
  rewrite Hnil in Hx. by apply elem_of_nil in Hx.
Qed.

Lemma interpolate_patient_length (max_gap : Z) (int_column : bool)
    (patient_rows : list SeriesRow.t) (out : list EarlyRow.t) :
  interpolate_patient max_gap int_column patient_rows = Ok out ->
  length out = length patient_rows.
Proof.
  unfold interpolate_patient.
  destruct ((max_gap <? 1) && negb int_column); [discriminate|].
  destruct (forallb fits_Int64 _); [|discriminate].
  intros H. inversion H; subst; clear H.
  unfold Series_interpolate.
  rewrite length_zip_with, length_imap, length_map, Nat.min_id.
  unfold by_series_day. by rewrite (sort_by_perm SeriesRow.time_post_inf).
Qed.

(** When the preparation returns, the early frame has a row. *)
Lemma prepare_early_data_nonempty (df : list RawObservation.t) (settings : Settings.t)
    (out : DataFrame EarlyRow.t) :
  _prepare_early_data df settings = Ok out -> exists rows, out = Frame rows /\ rows <> [].
Proof.
  rewrite prepare_early_data_grouped. intros Hout.
  destruct (_create_complete_timeseries _ _) as [|rows0] eqn:Hc; [discriminate|].
  apply pd_DataFrame_Frame in Hc. destruct Hc as [_ Hne].
  apply interpolate_anc_values_patients in Hout.
  destruct Hout as (outs & -> & Hall). eexists. split; [reflexivity|].
  destruct rows0 as [|r0 rows0']; [done|].
  remember (r0 :: rows0') as rows0 eqn:Hrows0.
  assert (Hp : SeriesRow.patient_id r0 ∈ unique (map SeriesRow.patient_id rows0)).
  { apply unique_spec. rewrite Hrows0. by left. }
  apply list_elem_of_lookup in Hp. destruct Hp as [i Hi].
  destruct (Forall2_lookup_l _ _ _ _ _ Hall Hi) as (o & Ho & Hip).
  apply interpolate_patient_length in Hip.
  assert (Hin : In r0 (List.filter
                         (fun r => bool_decide
                                     (SeriesRow.patient_id r = SeriesRow.patient_id r0))
                         rows0)).
  { apply filter_In. split; [rewrite Hrows0; by left|by apply bool_decide_eq_true]. }
  destruct o as [|r' o'].
  - destruct (List.filter _ rows0); [destruct Hin|discriminate].
  - intros Hnil.
    assert (Hr' : In r' (concat outs)).
    { apply in_concat. exists (r' :: o'). split; [|by left].
      apply list_elem_of_In. by eapply list_elem_of_lookup_2. }
    rewrite Hnil in Hr'. destruct Hr'.
Qed.

(** X17. The early grades of a prepared frame, with the grader the route builds:
    early grading returns a frame with one record for each patient of the
    early frame; in every record the longest duration at or below 100 is at
    most the longest duration at or below 500, which is at most
    [early_days + 1]; and the grade is "Grade 0" exactly when the duration
    at or below 500 is 0. *)
Theorem X17_early_grades_of_prepared (df : list RawObservation.t) (settings : Settings.t)
    (early_data : DataFrame EarlyRow.t) :
  _prepare_early_data df settings = Ok early_data ->
  exists records,
    grade_early_icaht ICahtGrader_init early_data = Ok (Frame records) /\
    records <> [] /\
    map EarlyGrade.patient_id records =
      unique (map EarlyRow.patient_id (frame_rows early_data)) /\
    forall g, g ∈ records ->
      0 <= EarlyGrade.duration_below_100_max g <= EarlyGrade.duration_below_500_max g /\
      EarlyGrade.duration_below_500_max g
        <= default 30 (Settings.early_days settings) + 1 /\
      (EarlyGrade.early_icaht_grade g = "Grade 0" <->
       EarlyGrade.duration_below_500_max g = 0).
Proof.
  intros Hout.
  destruct (prepare_early_data_nonempty df settings _ Hout) as (rows & -> & Hne).
  cbn [frame_rows].
  destruct (grade_early_icaht_Forall2 ICahtGrader_init rows) as (records & Hrec & Hids & Hall).
  exists records.
  assert (Hrne : records <> []).
  { intros ->. simpl in Hids. symmetry in Hids. apply unique_nil in Hids.
    destruct rows; [done|discriminate]. }
  assert (Hframe : pd_DataFrame records = Frame records) by (by destruct records).
  rewrite Hrec, Hframe. split; [reflexivity|]. split; [exact Hrne|].
  split; [exact Hids|].
  intros g Hg. apply list_elem_of_lookup in Hg. destruct Hg as [i Hi].
  destruct (Forall2_lookup_r _ _ _ _ _ Hall Hi) as (p & _ & Hp).
  destruct (early_record_ordered ICahtGrader_init p (rows_of_patient p rows) g
              ltac:(vm_compute; discriminate) Hp) as (H1 & H2 & _ & H4).
  split; [exact H1|]. split; [|exact H2].
  assert (Hdays : forall r, r ∈ rows ->
            0 <= EarlyRow.time_post_inf r <= default 30 (Settings.early_days settings))
    by (intros r Hr; by apply (prepare_early_data_days df settings (Frame rows))).
  specialize (H4 0 (default 30 (Settings.early_days settings))).
  rewrite Z.sub_0_r in H4. apply H4.
  - intros r Hr. apply Hdays.
    apply list_elem_of_In, filter_In in Hr. destruct Hr as [Hr _]. by apply list_elem_of_In.
  - destruct rows as [|r0 rows']; [done|].
    specialize (Hdays r0 ltac:(left)). lia.
Qed.

Lemma X17_early_grades_of_prepared_witness :
  exists early_data records,
    _prepare_early_data (daily_obs [900#1; 80#1; 300#1; 900#1]) no_settings
      = Ok early_data /\
    grade_early_icaht ICahtGrader_init early_data = Ok (Frame records) /\
    records <> [].
Proof.
  destruct (_prepare_early_data (daily_obs [900#1; 80#1; 300#1; 900#1]) no_settings)
    as [early_data|e] eqn:Hout; [|vm_compute in Hout; discriminate].
  destruct (X17_early_grades_of_prepared _ _ _ Hout) as (records & Hrec & Hne & _).
  exists early_data, records. by repeat split.
Defined.

(** ** The follow-up horizon *)

Lemma complete_patient_horizon (max_days : Z) (patient_id : string)
    (first : SeriesRow.t) (rest : list SeriesRow.t) (r : SeriesRow.t) :
  r ∈ complete_patient max_days patient_id (first :: rest) ->
  SeriesRow.time_post_inf r <=
    match SeriesRow.last_fu_date first with
    | None => max_days
    | Some last_fu => Z.min max_days (days_between last_fu (SeriesRow.cart_date first))
    end.
Proof.
  unfold complete_patient. intros H.
  apply list_elem_of_fmap in H. destruct H as (day & -> & Hday).
  apply elem_of_seqZ in Hday.
  destruct (List.filter _ _) as [|day_data ?] eqn:Hf.
  - cbn [SeriesRow.time_post_inf]. destruct (SeriesRow.last_fu_date first); lia.
  - assert (Hin : In day_data (List.filter
                                 (fun r => SeriesRow.time_post_inf r =? day) (first :: rest)))
      by (rewrite Hf; by left).
    apply filter_In in Hin. destruct Hin as [_ Heq].
    apply Z.eqb_eq in Heq. rewrite Heq.
    destruct (SeriesRow.last_fu_date first); lia.
Qed.

(** X18. The early series of a patient does not go beyond the last follow-up:
    when every observation of the patient carries the same baseline date
    and the same last follow-up date, every row of the patient in the early
    frame has a day offset of at most the offset of that follow-up date. *)
Theorem X18_prepare_early_data_follow_up (df : list RawObservation.t) (settings : Settings.t)
    (out : DataFrame EarlyRow.t) (r' : EarlyRow.t) (cart_date last_fu : Z) :
  _prepare_early_data df settings = Ok out -> r' ∈ frame_rows out ->
  (forall obs, obs ∈ df ->
     RawObservation.patient_id obs = EarlyRow.patient_id r' ->
     RawObservation.cart_date obs = Some cart_date /\
     RawObservation.last_fu_date obs = Some last_fu) ->
  EarlyRow.time_post_inf r' <= days_between last_fu cart_date.
Proof.
  intros Hout Hr' Hsame.
  destruct (early_frame_row df settings out r' Hout Hr') as (r & cell & p & -> & Hr).
  cbn [interpolated_row EarlyRow.patient_id EarlyRow.time_post_inf] in *.
  set (max_days := default 30 (Settings.early_days settings)) in *.
  set (patient_data := List.filter _ (early_grouped df max_days)) in *.
  assert (Hpid : SeriesRow.patient_id r = p).
  { destruct (complete_patient_elem _ _ _ _ Hr) as [_ [Hin|[Hid _]]]; [|exact Hid].
    apply list_elem_of_In, filter_In in Hin. destruct Hin as [_ Hin].
    by apply bool_decide_eq_true in Hin. }
  destruct patient_data as [|first rest] eqn:Hpd; [by apply elem_of_nil in Hr|].
  apply complete_patient_horizon in Hr.
  assert (Hfirst : In first patient_data) by (rewrite Hpd; by left).
  apply filter_In in Hfirst. destruct Hfirst as [Hfirst Hfp].
  apply bool_decide_eq_true in Hfp.
  apply list_elem_of_In, early_grouped_elem in Hfirst.
  unfold early_group_row in Hfirst.
  destruct (group_of _ (early_window df max_days)) as [|d0 group'] eqn:Hg; [discriminate|].
  assert (Hd0 : d0 ∈ group_of (SeriesRow.patient_id first, SeriesRow.time_post_inf first)
                       (early_window df max_days))
    by (rewrite Hg; by left).
  pose proof Hd0 as Hd0'. apply group_of_elem in Hd0'. destruct Hd0' as [Hwin _].
  apply early_window_elem in Hwin.
  destruct Hwin as [_ (date & cart & _ & _ & Hcart & Hd0eq)].
  destruct (group_member_observed df max_days _ d0 Hd0) as (Hobs & [Hid _] & _).
  cbn [fst] in Hid.
  destruct (Hsame (Dated.raw d0) Hobs ltac:(congruence)) as [Hc Hf].
  assert (Hcd : SeriesRow.cart_date first = cart_date).
  { inversion Hfirst as [Hf0]. cbn [SeriesRow.cart_date].
    rewrite Hd0eq. cbn [Dated.cart_date]. congruence. }
  assert (Hfu : SeriesRow.last_fu_date first = Some last_fu).
  { inversion Hfirst as [Hf0]. cbn [SeriesRow.last_fu_date map].
    unfold agg_first. cbn [omap]. by rewrite Hf. }
  rewrite Hfu, Hcd in Hr. lia.
Qed.

Lemma X18_prepare_early_data_follow_up_witness :
  let df := [obs_fu10 2 (Some (400#1)%Q); obs_fu10 20 (Some (900#1)%Q)] in
  exists out r',
    _prepare_early_data df no_settings = Ok out /\ r' ∈ frame_rows out /\
    length (frame_rows out) = 11%nat /\
    EarlyRow.time_post_inf r' <= 10.
Proof.
  intros df.
  destruct (_prepare_early_data df no_settings) as [out|e] eqn:Hout;
    [|vm_compute in Hout; discriminate].
  assert (Hrow : exists r', frame_rows out !! 10%nat = Some r' /\
                            EarlyRow.patient_id r' = "P1" /\
                            length (frame_rows out) = 11%nat).
  { vm_compute in Hout. inversion Hout; subst out. eexists. by repeat split. }
  destruct Hrow as (r' & Hlook & Hid & Hlen).
  apply list_elem_of_lookup_2 in Hlook.
  exists out, r'. split; [reflexivity|]. split; [exact Hlook|]. split; [exact Hlen|].
  change 10 with (days_between (timedelta_days 10) 0).
  apply (X18_prepare_early_data_follow_up df no_settings out r' 0 (timedelta_days 10) Hout Hlook).
  intros obs Hobs _. unfold df in Hobs.
  rewrite !elem_of_cons, elem_of_nil in Hobs. destruct Hobs as [->|[->|[]]]; by split.
Defined.

(** ** Settings *)






(** ** The errors of the processing route *)





(** ** The data quality of the early frame *)

Lemma round_half_even_bounds (q : Q) (a b : Z) :
  (inject_Z a <= q)%Q -> (q <= inject_Z b)%Q -> a <= round_half_even q <= b.
Proof.
  unfold Qle, inject_Z, round_half_even. cbn [Qnum Qden].
  destruct q as [n d]. cbn [Qnum Qden]. intros Ha Hb.
  pose proof (Z.div_mod n (Zpos d) ltac:(lia)) as Hdm.
  pose proof (Z.mod_pos_bound n (Zpos d) ltac:(lia)) as Hmod.
  assert (Hlo : a <= n / Zpos d) by (apply Z.div_le_lower_bound; lia).
  assert (Hhi : n / Zpos d <= b) by (apply Z.div_le_upper_bound; lia).
  assert (Hstrict : 0 < n mod Zpos d -> n / Zpos d < b) by nia.
  destruct (Z.compare_spec (2 * (n mod Zpos d)) (Zpos d)) as [Heq|Hlt|Hgt].
  - destruct (Z.even (n / Zpos d)); lia.
  - lia.
  - lia.
Qed.

Lemma round_half_even_error (q : Q) :
  (inject_Z (round_half_even q) - q <= 1 # 2)%Q /\
  (q - inject_Z (round_half_even q) <= 1 # 2)%Q.
Proof.
  destruct q as [n d]. unfold round_half_even. cbn [Qnum Qden].
  pose proof (Z.div_mod n (Zpos d) ltac:(lia)) as Hdm.
  pose proof (Z.mod_pos_bound n (Zpos d) ltac:(lia)) as Hmod.
  set (f := n / Zpos d) in *. set (r := n mod Zpos d) in *.
  assert (Hgen : forall z : Z, - Zpos d <= 2 * (z * Zpos d - n) <= Zpos d ->
            (inject_Z z - (n # d) <= 1 # 2)%Q /\ ((n # d) - inject_Z z <= 1 # 2)%Q).
  { intros z Hz. unfold Qle, Qminus, Qplus, Qopp, inject_Z. cbn [Qnum Qden]. lia. }
  destruct (Z.compare_spec (2 * r) (Zpos d)) as [Heq|Hlt|Hgt].
  - destruct (Z.even f); apply Hgen; lia.
  - apply Hgen; lia.
  - apply Hgen; lia.
Qed.

Lemma round_half_even_nonneg (q : Q) : (0 <= q)%Q -> 0 <= round_half_even q.
Proof.
  destruct q as [n d]. unfold Qle, round_half_even. cbn [Qnum Qden]. intros Hn.
  assert (0 <= n / Zpos d) by (apply Z.div_pos; lia).
  destruct (2 * (n mod Zpos d) ?= Zpos d); [destruct (Z.even _)| |]; lia.
Qed.

Lemma pow2_pos (e : Z) : (0 < pow2 e)%Q.
Proof.
  unfold pow2. destruct (Z.leb_spec 0 e).
  - rewrite <- (Zlt_Qlt 0). apply Z.pow_pos_nonneg; lia.
  - reflexivity.
Qed.

Lemma pow2_le_neg (e b : Z) : e <= - b -> 0 < b -> (pow2 e <= 1 # Z.to_pos (2 ^ b))%Q.
Proof.
  intros He Hb. unfold pow2. destruct (Z.leb_spec 0 e); [lia|].
  unfold Qle. cbn [Qnum Qden].
  assert (0 < 2 ^ b) by (apply Z.pow_pos_nonneg; lia).
  assert (2 ^ b <= 2 ^ (- e)) by (apply Z.pow_le_mono_r; lia).
  rewrite !Z2Pos.id by lia. lia.
Qed.

(** The rounding error of a float operation with a result between 0 and
    2 ^ 14. *)
Lemma float64_error (q : Q) :
  (0 <= q)%Q -> (q <= 16384)%Q ->
  (0 <= float64 q)%Q /\
  (float64 q - q <= 1 # 2 ^ 39)%Q /\ (q - float64 q <= 1 # 2 ^ 39)%Q.
Proof.
  intros H0 H1. unfold float64.
  destruct (Z.eqb_spec (Qnum q) 0) as [Hz|Hnz].
  - assert (Hq : (q == 0)%Q) by (unfold Qeq; cbn; lia).
    rewrite Hq. split; [apply Qle_refl|]. split; discriminate.
  - set (e := ulp_exponent _ _).
    assert (He : e <= - 38).
    { subst e. unfold ulp_exponent.
      assert (Hn : 0 < Qnum q) by (unfold Qle in H0; cbn in H0; lia).
      rewrite Z.abs_eq by lia.
      assert (Hle : Qnum q <= Zpos (Qden q) * 2 ^ 14).
      { unfold Qle in H1. cbn [Qnum Qden] in H1. change (2 ^ 14) with 16384. lia. }
      assert (Hlog : Z.log2 (Qnum q) <= 14 + Z.log2 (Zpos (Qden q))).
      { rewrite <- Z.log2_mul_pow2 by lia. by apply Z.log2_le_mono. }
      destruct (if 0 <=? _ then _ else _); lia. }
    set (y := (q / pow2 e)%Q).
    destruct (round_half_even_error y) as [Hr1 Hr2].
    pose proof (pow2_pos e) as Hp.
    pose proof (pow2_le_neg e 38 He ltac:(lia)) as Hp38.
    assert (Hq : (q == y * pow2 e)%Q).
    { subst y. field. intros Hz. rewrite Hz in Hp. by apply Qlt_irrefl in Hp. }
    set (R := inject_Z (round_half_even y)) in *.
    assert (HR : (0 <= R)%Q).
    { subst R. rewrite <- (Zle_Qle 0). apply round_half_even_nonneg. subst y.
      apply Qle_shift_div_l; [exact Hp|]. by rewrite Qmult_0_l. }
    assert (Hhalf : (1 # 2 ^ 39 == (1 # 2) * (1 # Z.to_pos (2 ^ 38)))%Q)
      by reflexivity.
    rewrite Hhalf. clearbody R y e.
    generalize dependent (pow2 e). intros P HP HP38 Hq.
    split; [apply Qmult_le_0_compat; [exact HR|by apply Qlt_le_weak]|].
    clear Hhalf. generalize dependent (1 # Z.to_pos (2 ^ 38))%Q. intros c Hc.
    clear He H0 H1 Hnz.
    assert (A1 : (0 <= ((1 # 2) - (R - y)) * P)%Q) by (apply Qmult_le_0_compat; lra).
    assert (A2 : (0 <= ((1 # 2) - (y - R)) * P)%Q) by (apply Qmult_le_0_compat; lra).
    split; lra.
Qed.

(** A whole number below 2 ^ 53 is a float. *)
Lemma float64_int (m : Z) : 0 <= m < 2 ^ 53 -> (float64 (inject_Z m) == inject_Z m)%Q.
Proof.
  intros Hn. unfold float64. cbn [inject_Z Qnum Qden].
  destruct (Z.eqb_spec m 0) as [Hz|Hnz]; [by rewrite Hz|].
  assert (Hm : 0 < m) by lia.
  rewrite Z.abs_eq by lia. unfold ulp_exponent.
  change (Z.log2 1) with 0. rewrite Z.sub_0_r.
  pose proof (Z.log2_nonneg m) as Hlog0.
  pose proof (Z.log2_spec m Hm) as [Hlo Hhi].
  rewrite (proj2 (Z.leb_le 0 (Z.log2 m)) Hlog0).
  rewrite Z.mul_1_l, (proj2 (Z.leb_le (2 ^ Z.log2 m) m) Hlo).
  assert (Hlog : Z.log2 m < 53) by (apply Z.log2_lt_pow2; lia).
  rewrite Z.max_l by lia.
  remember (Z.log2 m - 52) as e eqn:He.
  remember (2 ^ (- e)) as k eqn:Hk0.
  assert (Hk : 0 < k) by (subst k; apply Z.pow_pos_nonneg; lia).
  assert (Hp : (pow2 e == 1 # Z.to_pos k)%Q).
  { unfold pow2. destruct (Z.leb_spec 0 e) as [He0|He0]; [|by subst k].
    assert (e = 0) by lia. subst k. replace e with 0 by lia. reflexivity. }
  assert (Hy : (inject_Z m / pow2 e == inject_Z (m * k))%Q).
  { rewrite Hp. unfold Qeq, Qdiv, Qmult, Qinv, inject_Z. cbn [Qnum Qden].
    rewrite Z2Pos.id by lia. lia. }
  assert (HR : round_half_even (inject_Z m / pow2 e) = m * k).
  { assert (H : m * k <= round_half_even (inject_Z m / pow2 e) <= m * k); [|lia].
    apply round_half_even_bounds; rewrite Hy; apply Qle_refl. }
  rewrite HR, Hp. unfold Qeq, Qmult, inject_Z. cbn [Qnum Qden].
  rewrite Pos.mul_1_l, Z2Pos.id by lia. lia.
Qed.

Lemma float64_nat (n : nat) :
  Z.of_nat n < 2 ^ 53 -> (float64 (Q_of_nat n) == Q_of_nat n)%Q.
Proof. intros Hn. apply float64_int. lia. Qed.

(** X20. The data quality of an early frame with rows (fewer than 2 ^ 53):
    the rate called [interpolation_rate] is the percentage of the rows
    that have no final ANC, neither observed nor interpolated, rounded to
    two decimals in float arithmetic: it differs from the exact percentage
    by at most 0.00501, and it is 0 when every row has a final value. *)
Theorem X20_assess_data_quality_rate (rows : list EarlyRow.t) :
  rows <> [] -> Z.of_nat (length rows) < 2 ^ 53 ->
  let missing := length (List.filter (fun r => isna (EarlyRow.anc_final r)) rows) in
  exists quality,
    _assess_data_quality EarlyRow.patient_id (Ok EarlyRow.anc_final) (Frame rows)
      = Ok quality /\
    patients_with_data quality = length (unique (map EarlyRow.patient_id rows)) /\
    (Qabs (interpolation_rate quality
           - inject_Z 100 * Q_of_nat missing / Q_of_nat (length rows))
     <= 501 # 100000)%Q /\
    (missing = 0%nat -> interpolation_rate quality = 0%Q).
Proof.
  intros Hne Hsmall missing. rewrite assess_data_quality_early. cbn [df_len frame_rows].
  assert (Hlen : (length rows =? 0)%nat = false)
    by (apply Nat.eqb_neq; by destruct rows).
  rewrite Hlen. eexists. split; [reflexivity|].
  cbn [patients_with_data interpolation_rate]. split; [reflexivity|].
  fold missing.
  assert (Hmissing : (missing <= length rows)%nat) by apply List.filter_length_le.
  assert (Hpos : (0 < length rows)%nat) by (destruct rows; [done|simpl; lia]).
  split.
  - set (n := length rows) in *.
    assert (Hn0 : ~ (Q_of_nat n == 0)%Q).
    { unfold Q_of_nat, Qeq, inject_Z. cbn [Qnum Qden]. lia. }
    set (t := (Q_of_nat missing / Q_of_nat n)%Q).
    assert (Ht : (0 <= t)%Q /\ (t <= 1)%Q).
    { subst t. unfold Q_of_nat. split.
      - apply Qle_shift_div_l; [rewrite <- (Zlt_Qlt 0); lia|].
        rewrite Qmult_0_l. rewrite <- (Zle_Qle 0). lia.
      - apply Qle_shift_div_r; [rewrite <- (Zlt_Qlt 0); lia|].
        rewrite Qmult_1_l. rewrite <- Zle_Qle. lia. }
    unfold round_2, percentage.
    pose proof (float64_nat missing ltac:(lia)) as Ha.
    pose proof (float64_nat n Hsmall) as Hb.
    set (x1 := (float64 (Q_of_nat missing) / float64 (Q_of_nat n))%Q).
    assert (Hx1 : (x1 == t)%Q) by (subst x1 t; by rewrite Ha, Hb).
    destruct (float64_error x1) as (Hr0 & Hr1 & Hr2); [rewrite Hx1; lra..|].
    change (2 ^ 39)%positive with 549755813888%positive in *.
    set (r := float64 x1) in *.
    destruct (float64_error (r * inject_Z 100)) as (Hp0 & Hp1 & Hp2);
      [unfold inject_Z; lra..|].
    change (2 ^ 39)%positive with 549755813888%positive in *.
    set (p := float64 (r * inject_Z 100)) in *.
    destruct (float64_error (p * inject_Z 100)) as (Hc0 & Hc1 & Hc2);
      [unfold inject_Z in *; lra..|].
    change (2 ^ 39)%positive with 549755813888%positive in *.
    set (c := float64 (p * inject_Z 100)) in *.
    destruct (round_half_even_error c) as [HR1 HR2].
    pose proof (round_half_even_nonneg c Hc0) as HR0.
    rewrite (Zle_Qle 0) in HR0.
    set (R := inject_Z (round_half_even c)) in *.
    set (x4 := (R / inject_Z 100)%Q).
    assert (Hx4 : (x4 * inject_Z 100 == R)%Q) by (subst x4; field; discriminate).
    destruct (float64_error x4) as (_ & Hf1 & Hf2);
      [unfold inject_Z in *; lra..|].
    change (2 ^ 39)%positive with 549755813888%positive in *.
    set (rate := float64 x4) in *.
    setoid_rewrite Qabs_Qle_condition.
    assert (Hgoal : (inject_Z 100 * Q_of_nat missing / Q_of_nat n == inject_Z 100 * t)%Q)
      by (subst t; field; exact Hn0).
    rewrite Hgoal. unfold inject_Z in *. lra.
  - intros Hm. rewrite Hm. reflexivity.
Qed.

Lemma X20_assess_data_quality_rate_witness :
  exists quality,
    _assess_data_quality EarlyRow.patient_id (Ok EarlyRow.anc_final)
      (Frame (series_of (replicate 23 None ++ replicate 137 (Some (900#1)%Q))))
      = Ok quality /\
    interpolation_rate quality = float64 (1437 # 100) /\
    (Qabs (interpolation_rate quality - inject_Z 100 * Q_of_nat 23 / Q_of_nat 160)
     <= 501 # 100000)%Q.
Proof.
  destruct (X20_assess_data_quality_rate
              (series_of (replicate 23 None ++ replicate 137 (Some (900#1)%Q))))
    as (quality & Hq & _ & Hbound & _); [discriminate|vm_compute; reflexivity|].
  exists quality. split; [exact Hq|]. split; [|exact Hbound].
  vm_compute in Hq. inversion Hq; subst quality. vm_compute. reflexivity.
Defined.

(** ** The order of the combined records *)

Lemma two_patients_AB :
  set_iteration (all_patients (frame_rows two_early_grades) (frame_rows one_late_grade))
    ["A"; "B"].
Proof.
  unfold set_iteration. apply NoDup_Permutation.
  - by apply (bool_decide_unpack _).
  - apply NoDup_elements.
  - intros x. rewrite elem_of_elements. unfold all_patients.
    rewrite elem_of_list_to_set. simpl. rewrite !elem_of_cons, elem_of_nil. tauto.
Qed.

Lemma two_patients_BA :
  set_iteration (all_patients (frame_rows two_early_grades) (frame_rows one_late_grade))
    ["B"; "A"].
Proof.
  unfold set_iteration. rewrite <- two_patients_AB. apply Permutation_swap.
Qed.

(** X21. Two runs of [combine_grades] on the same early and late grades
    either both raise the same exception or both return, with the same
    records up to their order and one record per patient; the summaries
    computed from the two results are then equal.  The order of the
    records is that of the iteration of a set, and can differ from one run
    to the other. *)
Theorem X21_combine_grades_up_to_order (early_grades : DataFrame EarlyGrade.t)
    (late_grades : DataFrame LateGrade.t) (processed_data : ProcessedData)
    (out1 out2 : result (DataFrame Combined.t)) :
  combine_grades early_grades late_grades out1 ->
  combine_grades early_grades late_grades out2 ->
  match out1, out2 with
  | Ok final1, Ok final2 =>
      frame_rows final1 ≡ₚ frame_rows final2 /\
      NoDup (map Combined.patient_id (frame_rows final1)) /\
      generate_summary final1 processed_data = generate_summary final2 processed_data
  | Raise e1, Raise e2 => e1 = e2
  | _, _ => False
  end.
Proof.
  unfold combine_grades.
  destruct early_grades as [|early_rows]; [by intros -> ->|].
  destruct late_grades as [|late_rows]; [by intros -> ->|].
  cbn [column]. intros (o1 & Ho1 & ->) (o2 & Ho2 & ->).
  rewrite !combine_grades_in_Frame.
  unfold set_iteration in *.
  assert (Hp : o1 ≡ₚ o2) by (by rewrite Ho1, Ho2).
  assert (Hrows : forall o, frame_rows (pd_DataFrame (map (combine_row early_rows late_rows) o))
                            = map (combine_row early_rows late_rows) o)
    by (by intros [|]).
  rewrite !Hrows. split; [by apply Permutation_map|]. split.
  - rewrite map_map.
    rewrite (map_ext _ id) by (intros; apply combine_row_patient_id).
    rewrite map_id, Ho1. apply NoDup_elements.
  - apply generate_summary_perm.
    destruct o1 as [|p1 o1], o2 as [|p2 o2].
    + left. by split.
    + by apply Permutation_nil_cons in Hp.
    + symmetry in Hp. by apply Permutation_nil_cons in Hp.
    + right. do 2 eexists. split; [reflexivity|]. split; [reflexivity|].
      by apply Permutation_map.
Qed.

Lemma X21_combine_grades_up_to_order_witness :
  combine_grades_in ["A"; "B"] two_early_grades one_late_grade
    <> combine_grades_in ["B"; "A"] two_early_grades one_late_grade /\
  match combine_grades_in ["A"; "B"] two_early_grades one_late_grade,
        combine_grades_in ["B"; "A"] two_early_grades one_late_grade with
  | Ok final1, Ok final2 =>
      frame_rows final1 ≡ₚ frame_rows final2 /\
      NoDup (map Combined.patient_id (frame_rows final1)) /\
      generate_summary final1 {| early := Frame []; late := Frame []; original := [] |}
      = generate_summary final2 {| early := Frame []; late := Frame []; original := [] |}
  | Raise e1, Raise e2 => e1 = e2
  | _, _ => False
  end.
Proof.
  split; [vm_compute; discriminate|].
  apply (X21_combine_grades_up_to_order two_early_grades one_late_grade
           {| early := Frame []; late := Frame []; original := [] |}).
  - exists ["A"; "B"]. split; [exact two_patients_AB|reflexivity].
  - exists ["B"; "A"]. split; [exact two_patients_BA|reflexivity].
Defined.
